(** * clean_data.py: the customer-table cleaning pipeline

    A shallow embedding of [src/clean_data.py].  The script is one linear
    sequence of pandas calls inside a single [try] block; every pandas call
    the script makes is written out here as a function on an explicit table,
    in the order of the script.  The script does not pin a pandas version;
    where pandas 2 and pandas 3 differ on what the script calls (what
    [astype(str)] makes of a missing cell) the difference is a parameter.

    Conventions.
    - A Python [str] is a sequence of Unicode code points: [pystr := list N].
    - A table is column-major, as a DataFrame is: an ordered list of named
      columns, each a list of cells.
    - A cell is a missing value, a text, an integer or a timestamp.  Floats
      and booleans are not modelled.
    - What pandas draws from tables that are not part of the script (the
      Unicode case mapping beyond ASCII, the textual form of numbers, dates
      and missing values, the date parser) is a parameter of the development.

    The specification counts twelve steps where the script counts seven
    sections:
    - Step 1, load: [load] (section 1);
    - Step 2, exact duplicates: [exact_duplicates] (section 2);
    - Step 3, key duplicates: [key_duplicates] (section 2);
    - Step 4, column pruning: [drop_index] (section 3 A);
    - Step 5, header normalization: [rename_columns] (section 3 B);
    - Step 6, required field: [dropna_customer_id] (section 4);
    - Step 7, default fill: [fill_email] (section 4);
    - Step 8, type normalization: [convert_dates] (section 5);
    - Step 9, text normalization: [standardize_text] (section 6 A);
    - Step 10, phone normalization: [clean_phones] (section 6 B);
    - Step 11, report: [final_review] (section 7);
    - Step 12, persist: [to_csv] in [main]. *)

From stdpp Require Import base decidable option list numbers strings gmap.

#[local] Set Warnings "-clear-no-such-hyp".

Local Open Scope N_scope.

(** ** Python strings *)

Definition codepoint := N.
Definition pystr := list N.

(** A literal of the script, as code points. *)
Definition py (s : string) : pystr :=
  (fun a => Ascii.N_of_ascii a) <$> String.list_ascii_of_string s.

Module Text.

Definition is_ascii (c : codepoint) : bool := c <? 128.


(** First code points of the runs of ten decimal digits (general category
    Nd) of Unicode 15.0, the table behind [\d] in a [str] pattern. *)
Definition Nd_decades : list N :=
  [ 0x0030; 0x0660; 0x06F0; 0x07C0; 0x0966; 0x09E6; 0x0A66; 0x0AE6; 0x0B66;
    0x0BE6; 0x0C66; 0x0CE6; 0x0D66; 0x0DE6; 0x0E50; 0x0ED0; 0x0F20; 0x1040;
    0x1090; 0x17E0; 0x1810; 0x1946; 0x19D0; 0x1A80; 0x1A90; 0x1B50; 0x1BB0;
    0x1C40; 0x1C50; 0xA620; 0xA8D0; 0xA900; 0xA9D0; 0xA9F0; 0xAA50; 0xABF0;
    0xFF10; 0x104A0; 0x10D30; 0x11066; 0x110F0; 0x11136; 0x111D0; 0x112F0;
    0x11450; 0x114D0; 0x11650; 0x116C0; 0x11730; 0x118E0; 0x11950; 0x11C50;
    0x11D50; 0x11DA0; 0x11F50; 0x16A60; 0x16AC0; 0x16B50;
    0x1D7CE; 0x1D7D8; 0x1D7E2; 0x1D7EC; 0x1D7F6;
    0x1E140; 0x1E2F0; 0x1E4F0; 0x1E950; 0x1FBF0 ].

(** [\d] of Python's [re] on a [str] pattern: any Unicode decimal digit. *)
Definition re_digit (c : codepoint) : bool :=
  existsb (fun lo => (lo <=? c) && (c <? lo + 10)) Nd_decades.

(** [str.isspace] on one character, the set [str.strip()] removes. *)
Definition is_space (c : codepoint) : bool :=
  ((0x09 <=? c) && (c <=? 0x0D)) || ((0x1C <=? c) && (c <=? 0x20))
  || (c =? 0x85) || (c =? 0xA0) || (c =? 0x1680)
  || ((0x2000 <=? c) && (c <=? 0x200A))
  || (c =? 0x2028) || (c =? 0x2029) || (c =? 0x202F) || (c =? 0x205F)
  || (c =? 0x3000).

Definition ascii_lower (c : codepoint) : codepoint :=
  if (65 <=? c) && (c <=? 90) then c + 32 else c.

Fixpoint lstrip (s : pystr) : pystr :=
  match s with
  | c :: s' => if is_space c then lstrip s' else s
  | [] => []
  end.

(** [str.strip()] with no argument. *)
Definition strip (s : pystr) : pystr := rev (lstrip (rev (lstrip s))).

(** [str.replace(' ', '_')]: the pattern is the single character U+0020. *)
Definition replace_space (s : pystr) : pystr :=
  (fun c => if c =? 32 then 95 else c) <$> s.

(** [re.sub(r'[^\d]', '', s)]: every character the class matches goes. *)
Definition remove_non_digits (s : pystr) : pystr := filter (fun c => re_digit c = true) s.

Section Lower.
(** [str.lower] on a text that has characters beyond ASCII follows the
    Unicode case tables, which the script does not carry. *)
Variable unicode_lower : pystr -> pystr.

Definition lower (s : pystr) : pystr :=
  if forallb is_ascii s then ascii_lower <$> s else unicode_lower s.
End Lower.

End Text.

Close Scope N_scope.

(** ** Cells, columns, tables *)

Inductive value :=
| NaN                      (* a missing cell: NaN, NaT *)
| Str (s : pystr)
| Int (z : Z)
| Timestamp (ns : Z).      (* datetime64[ns] *)

#[global] Instance value_eq_dec : EqDecision value.
Proof. solve_decision. Defined.

Definition isna (v : value) : bool :=
  match v with NaN => true | _ => false end.

Abbreviation column := (pystr * list value)%type.
Abbreviation Table := (list column).

(** [df.columns] *)
Definition columns (t : Table) : list pystr := t.*1.

(** [len(df)] *)
Definition nrows (t : Table) : nat :=
  match t with
  | c :: _ => length c.2
  | [] => 0
  end.

(** The table invariant: all columns have the row count of the table. *)
Definition rect (t : Table) : Prop := Forall (fun c : column => length c.2 = nrows t) t.

(** The first [n] rows of a list of columns, each row across the columns. *)
Fixpoint transpose {A} (d : A) (n : nat) (cs : list (list A)) : list (list A) :=
  match n with
  | O => []
  | S k => (hd d <$> cs) :: transpose d k (tail <$> cs)
  end.

Definition rows (t : Table) : list (list value) := transpose NaN (nrows t) t.*2.

(** [df[names]] as rows: the cells of every column whose label is [name]. *)
Definition labelled (name : pystr) (t : Table) : Table :=
  filter (fun c : column => c.1 = name) t.

Definition key_rows (name : pystr) (t : Table) : list (list value) :=
  transpose NaN (nrows t) (labelled name t).*2.

(** [df[name]] where the label is unique: a Series. *)
Definition series (name : pystr) (t : Table) : option (list value) :=
  match labelled name t with
  | [c] => Some c.2
  | _ => None
  end.

(** [df[name] = vs] for an existing label. *)
Definition assign (name : pystr) (vs : list value) (t : Table) : Table :=
  (fun c : column => if decide (c.1 = name) then (name, vs) else c) <$> t.

(** ** Row selection and duplicates *)

(** Boolean indexing: the entries at which the mask is [true]. *)
Fixpoint select {A} (mask : list bool) (xs : list A) : list A :=
  match mask, xs with
  | b :: mask', x :: xs' => if b then x :: select mask' xs' else select mask' xs'
  | _, _ => []
  end.

(** A row selection acts on every column with the same mask. *)
Definition keep_rows (mask : list bool) (t : Table) : Table :=
  (fun c : column => (c.1, select mask c.2)) <$> t.

(** [.sum()] of a boolean Series. *)
Definition count_true (mask : list bool) : nat := length (filter (fun b => b = true) mask).

(** [duplicated(keep='first')]: an entry is marked when an equal entry came
    before it; missing cells compare equal to each other. *)
Fixpoint duplicated_after {K} `{EqDecision K} (seen : list K) (ks : list K) : list bool :=
  match ks with
  | k :: ks' => bool_decide (k ∈ seen) :: duplicated_after (k :: seen) ks'
  | [] => []
  end.

Definition duplicated {K} `{EqDecision K} (ks : list K) : list bool := duplicated_after [] ks.

(** [drop_duplicates(keep='first')] on the given keys. *)
Definition drop_duplicates (keys : list (list value)) (t : Table) : Table :=
  keep_rows (negb <$> duplicated keys) t.

(** ** Exceptions, console output, and the monad of the [try] body *)

Inductive exn :=
| FileNotFoundError
| ModuleNotFoundError
| ImportError
| KeyError
| ValueError
| AttributeError.

(** What the script prints.  Blank separator lines are left out. *)
Inductive output :=
| Line (s : string)                              (* print("...") *)
| LineN (pre : string) (n : nat) (post : string) (* print(f"...{n}...") *)
| LineE (pre : string) (e : exn)                 (* print(f"...{e}") *)
| DfInfo (t : Table)                             (* df.info() *)
| DfHead (t : Table).                            (* print(df.head()) *)

(** A computation prints, then raises or returns. *)
Definition run (A : Type) : Type := list output * (exn + A).

#[global] Instance run_ret : MRet run := fun A a => ([], inr a).

#[global] Instance run_bind : MBind run := fun A B f m =>
  match m with
  | (o, inl e) => (o, inl e)
  | (o, inr a) => let '(o', r) := f a in (o ++ o', r)
  end.

Definition print (l : output) : run unit := ([l], inr ()).
Definition raise {A} (e : exn) : run A := ([], inl e).

(** [for name in names: df = body(name, df)] *)
Fixpoint for_each (names : list pystr) (body : pystr -> Table -> run Table)
  (df : Table) : run Table :=
  match names with
  | name :: names' => df' ← body name df; for_each names' body df'
  | [] => mret df
  end.

(** ** Files *)

Inductive file :=
| Workbook (t : Table)               (* a spreadsheet and the table it parses to *)
| Csv (records : list (list pystr))  (* header record, then one record per row *)
| Unreadable.                        (* anything that is not a spreadsheet *)

Record world := {
  openpyxl : bool;          (* is the spreadsheet engine installed *)
  fs : gmap string file;
}.

Definition INPUT_FILE : string := "customers-100.xlsx".
Definition OUTPUT_FILE : string := "cleaned_customers-100.csv".

(** [pd.read_excel(path)]: the path is opened first, the engine is imported
    next (pandas raises [ImportError] when it is missing), then the sheet is
    parsed. *)
Definition read_excel (w : world) (path : string) : run Table :=
  match fs w !! path with
  | None => raise FileNotFoundError
  | Some (Workbook t) => if openpyxl w then mret t else raise ImportError
  | Some _ => raise ValueError
  end.

Definition write_file (path : string) (f : file) (w : world) : world :=
  {| openpyxl := openpyxl w; fs := <[path := f]> (fs w) |}.

(** ** The counts the script reports *)

(** [df.duplicated().sum()] *)
Definition initial_duplicates (df : Table) : nat := count_true (duplicated (rows df)).

(** [df.duplicated(subset=['Customer Id']).sum()] *)
Definition id_duplicates (df : Table) : nat :=
  count_true (duplicated (key_rows (py "Customer Id") df)).

(** The rows [dropna(subset=['customer_id'])] keeps: no cell under the label
    is missing. *)
Definition notna_customer_id (df : Table) : list bool :=
  forallb (fun v => negb (isna v)) <$> key_rows (py "customer_id") df.

(** [original_rows - len(df)] *)
Definition rows_dropped (df : Table) : nat :=
  nrows df - nrows (keep_rows (notna_customer_id df) df).

(** [df['email'].isna().sum()] *)
Definition missing_emails (vs : list value) : nat := count_true (isna <$> vs).

(** ** The pipeline *)

Section Pipeline.

(** [str.lower] beyond ASCII. *)
Variable unicode_lower : pystr -> pystr.
(** [str(v)] of a number or a timestamp in [astype(str)], given its column. *)
Variable str_of_scalar : list value -> value -> pystr.
(** What [astype(str)] makes of a missing cell: before pandas 3 a text, the
    one of the missing value of the column ('nan', 'NaT' in a datetime
    column); from pandas 3 on [str] is the string dtype and the cell stays
    missing, which is [None] here. *)
Variable str_of_missing : option (list value -> pystr).
(** The field [to_csv] writes for a number or a timestamp, given its column. *)
Variable csv_of_scalar : list value -> value -> pystr.
(** The date parser behind [pd.to_datetime] on one entry of a column (the
    format is guessed from the column); [None] when the entry does not parse. *)
Variable parse_datetime : list value -> value -> option Z.

(** [.str.lower().str.strip().str.replace(' ', '_')] on a label. *)
Definition normalize_name (name : pystr) : pystr :=
  Text.replace_space (Text.strip (Text.lower unicode_lower name)).

(** [is_datetime64_any_dtype] on a column.  A table here keeps no dtype
    apart from its cells, so the dtype is the one the cells give, as the
    reader infers it at load: timestamps, with gaps as NaT.  Only the line
    step 5 prints hangs on it: on such cells [pd.to_datetime] changes
    nothing. *)
Definition is_datetime64 (vs : list value) : bool :=
  forallb (fun v => match v with NaN | Timestamp _ => true | _ => false end) vs
  && existsb (fun v => match v with Timestamp _ => true | _ => false end) vs.

(** [astype(str)] on one cell of a column: a text stays, a number or a
    timestamp becomes its text, a missing cell what the pandas at hand makes
    of it. *)
Definition astype_str (col : list value) (v : value) : value :=
  match v with
  | Str s => Str s
  | NaN => match str_of_missing with
           | Some missing => Str (missing col)
           | None => NaN
           end
  | _ => Str (str_of_scalar col v)
  end.

(** A method of the [.str] accessor on one cell: it acts on a text and
    gives a missing cell for anything else. *)
Definition str_map (f : pystr -> pystr) (v : value) : value :=
  match v with
  | Str s => Str (f s)
  | _ => NaN
  end.

(** [fillna('N/A')] *)
Definition fillna (fill : pystr) (vs : list value) : list value :=
  (fun v => if isna v then Str fill else v) <$> vs.

(** [pd.to_datetime(col, errors='coerce')] *)
Definition to_datetime (col : list value) : list value :=
  (fun v => match v with
            | NaN => NaN
            | Timestamp ns => Timestamp ns
            | _ => match parse_datetime col v with
                   | Some ns => Timestamp ns
                   | None => NaN
                   end
            end) <$> col.

(** Step 1, data ingestion. *)
Definition load (w : world) : run Table :=
  df ← read_excel w INPUT_FILE;
  print (Line "--- 1. Initial Data Info (Before Cleaning) ---");;
  print (DfInfo df);;
  print (LineN "Original row count: " (nrows df) EmptyString);;
  mret df.

(** Step 2, first half: fully identical rows. *)
Definition exact_duplicates (df : Table) : run Table :=
  print (Line "--- 2. Deduplication ---");;
  if decide (0 < initial_duplicates df) then
    print (LineN "Found and removed " (initial_duplicates df) " fully duplicate rows.");;
    mret (drop_duplicates (rows df) df)
  else
    print (Line "No fully duplicate rows found.");;
    mret df.

(** Step 2, second half: rows that repeat a 'Customer Id'.  On a frame
    without rows (or without columns) [duplicated] returns its empty result
    before it looks the label up; otherwise a label that is not there is a
    [KeyError]. *)
Definition key_duplicates (df : Table) : run Table :=
  if decide (nrows df = 0) then
    print (Line "No duplicate Customer IDs found.");;
    mret df
  else if decide (py "Customer Id" ∈ columns df) then
    if decide (0 < id_duplicates df) then
      print (LineN "Found and removed " (id_duplicates df) " rows with duplicate Customer IDs.");;
      mret (drop_duplicates (key_rows (py "Customer Id") df) df)
    else
      print (Line "No duplicate Customer IDs found.");;
      mret df
  else raise KeyError.

(** Step 3 A: the 'Index' column goes. *)
Definition drop_index (df : Table) : run Table :=
  print (Line "--- 3. Column Management ---");;
  if decide (py "Index" ∈ columns df) then
    print (Line "Dropped 'Index' column.");;
    mret (filter (fun c : column => c.1 ≠ py "Index") df)
  else mret df.

(** Step 3 B: labels to lowercase_with_underscores.  The labels of a frame
    without columns, as a sheet without cells loads, are no texts, and
    [.str] raises [AttributeError] on them. *)
Definition rename_columns (df : Table) : run Table :=
  print (Line "Standardizing column names (e.g., 'Customer Id' -> 'customer_id').");;
  if decide (columns df = []) then raise AttributeError
  else mret ((fun c : column => (normalize_name c.1, c.2)) <$> df).

(** Step 4, first half: [dropna(subset=['customer_id'])]. *)
Definition dropna_customer_id (df : Table) : run Table :=
  print (Line "--- 4. Missing Value Handling ---");;
  if decide (py "customer_id" ∈ columns df) then
    (if decide (0 < rows_dropped df) then
       print (LineN "Dropped " (rows_dropped df) " rows with a missing 'customer_id'.")
     else
       print (Line "No rows with missing customer_id found."));;
    mret (keep_rows (notna_customer_id df) df)
  else raise KeyError.

(** Step 4, second half: missing emails become 'N/A'.  With the label twice
    in the table [missing_emails > 0] is a Series and [if] raises. *)
Definition fill_email (df : Table) : run Table :=
  if decide (py "email" ∈ columns df) then
    match series (py "email") df with
    | Some vs =>
        if decide (0 < missing_emails vs) then
          print (LineN "Filled " (missing_emails vs) " missing 'email' values with 'N/A'.");;
          mret (assign (py "email") (fillna (py "N/A") vs) df)
        else mret df
    | None => raise ValueError
    end
  else mret df.

(** Step 5: 'subscription_date' to datetime.  With the label twice in the
    table [df['subscription_date']] is a frame: it has no datetime dtype, and
    [pd.to_datetime] refuses it. *)
Definition convert_dates (df : Table) : run Table :=
  print (Line "--- 5. Data Type Correction ---");;
  if decide (py "subscription_date" ∈ columns df) then
    match series (py "subscription_date") df with
    | Some vs =>
        if is_datetime64 vs then
          print (Line "Column 'subscription_date' is already in the correct datetime format.");;
          mret df
        else
          print (Line "Converting 'subscription_date' to datetime.");;
          mret (assign (py "subscription_date") (to_datetime vs) df)
    | None =>
        print (Line "Converting 'subscription_date' to datetime.");;
        raise ValueError
    end
  else mret df.

Definition text_columns : list pystr :=
  py <$> ["first_name"; "last_name"; "company"; "city"; "country";
          "phone_1"; "phone_2"; "email"; "website"]%string.

Definition phone_cols : list pystr := py <$> ["phone_1"; "phone_2"]%string.

(** One pass of a loop of step 6: [df[col] = df[col].astype(str).str.f()]
    when the label is present; [.str] fails on a label that is there twice. *)
Definition update_text (f : pystr -> pystr) (col : pystr) (df : Table) : run Table :=
  if decide (col ∈ columns df) then
    match series col df with
    | Some vs => mret (assign col ((fun v => str_map f (astype_str vs v)) <$> vs) df)
    | None => raise AttributeError
    end
  else mret df.

(** Step 6 A: [.str.lower().str.strip()] on the text columns. *)
Definition standardize_text (df : Table) : run Table :=
  print (Line "--- 6. Format Standardization ---");;
  print (Line "Standardizing text columns (lowercase, strip whitespace)...");;
  for_each text_columns
    (update_text (fun s => Text.strip (Text.lower unicode_lower s))) df.

(** Step 6 B: [.str.replace(r'[^\d]', '', regex=True)] on the phone columns. *)
Definition clean_phones (df : Table) : run Table :=
  print (Line "Standardizing phone number columns (removing non-numeric characters)...");;
  for_each phone_cols (update_text Text.remove_non_digits) df.

(** The final review; the source file is read a second time. *)
Definition final_review (w : world) (df : Table) : run Table :=
  print (Line "--- 7. Final Data Info (After Cleaning) ---");;
  print (DfInfo df);;
  original ← read_excel w INPUT_FILE;
  print (LineN "Original row count: " (nrows original) EmptyString);;
  print (LineN "Cleaned row count: " (nrows df) EmptyString);;
  mret df.

(** The transformations between the load and the final review. *)
Definition transform (df : Table) : run Table :=
  df ← exact_duplicates df;
  df ← key_duplicates df;
  df ← drop_index df;
  df ← rename_columns df;
  df ← dropna_customer_id df;
  df ← fill_email df;
  df ← convert_dates df;
  df ← standardize_text df;
  clean_phones df.

(** Everything in the [try] block before [to_csv]. *)
Definition clean (w : world) : run Table :=
  df ← load w;
  df ← transform df;
  final_review w df.

(** [to_csv(index=False)]: one field per cell, a missing cell as the empty
    field; the quoting of fields is not modelled. *)
Definition csv_field (col : list value) (v : value) : pystr :=
  match v with
  | NaN => []
  | Str s => s
  | _ => csv_of_scalar col v
  end.

Definition to_csv (df : Table) : list (list pystr) :=
  columns df :: transpose [] (nrows df) ((fun c : column => csv_field c.2 <$> c.2) <$> df).

(** The [except] clauses. *)
Definition handler (e : exn) : list output :=
  match e with
  | FileNotFoundError =>
      [ Line "Error: The file 'customers-100.xlsx' was not found.";
        Line "Please make sure the file is in the same folder as your script." ]
  | ModuleNotFoundError =>
      [ Line "--- ERROR ---";
        Line "You are missing the 'openpyxl' library, which is needed to read Excel files.";
        Line "Please install it by running this command in your terminal:";
        Line "pip install openpyxl" ]
  | _ =>
      [ LineE "An error occurred: " e;
        Line "Please check your column names and file contents." ]
  end.

Record outcome := {
  console : list output;
  final : world;
  exit_code : Z;
}.

(** The whole script. *)
Definition main (w : world) : outcome :=
  match clean w with
  | (out, inr df) =>
      {| console := out ++
           [ Line "Successfully cleaned data and saved to 'cleaned_customers-100.csv'";
             Line "--- First 5 Rows of Cleaned Data (Note the clean phone numbers) ---";
             DfHead df ];
         final := write_file OUTPUT_FILE (Csv (to_csv df)) w;
         exit_code := 0 |}
  | (out, inl e) =>
      {| console := out ++ handler e; final := w; exit_code := 0 |}
  end.

End Pipeline.

(** ** Reading the written file back

    The script has no reader for its own output; a second pass needs the
    written records read back by a pandas reader and the identifier label
    set back to the one the script looks up. *)

(** The texts a pandas reader takes for a missing value by default. *)
Definition na_values : list pystr :=
  [] :: (py <$> [ "#N/A"; "#N/A N/A"; "#NA"; "-1.#IND"; "-1.#QNAN"; "-NaN"; "-nan";
                  "1.#IND"; "1.#QNAN"; "<NA>"; "N/A"; "NA"; "NULL"; "NaN"; "None";
                  "n/a"; "nan"; "null" ]%string).

(** One field read back; the reader's inference of numbers is left out,
    a field that is not missing stays the text it is. *)
Definition read_field (s : pystr) : value :=
  if bool_decide (s ∈ na_values) then NaN else Str s.

Definition read_csv (records : list (list pystr)) : Table :=
  match records with
  | header :: body =>
      zip header ((fun col : list pystr => read_field <$> col)
                    <$> transpose ([] : pystr) (length header) body)
  | [] => []
  end.

(** The identifier label as the script expects it. *)
Definition restore_id_label (t : Table) : Table :=
  (fun c : column =>
     (if decide (c.1 = py "customer_id") then py "Customer Id" else c.1, c.2)) <$> t.

Definition reingest (records : list (list pystr)) : Table :=
  restore_id_label (read_csv records).

(** Parameters for running the model on plain ASCII text without numbers or
    dates, where none of them is consulted. *)
Module Plain.
Definition lower : pystr -> pystr := fun s => s.
Definition scalar : list value -> value -> pystr := fun _ _ => [].
Definition parse : list value -> value -> option Z := fun _ _ => None.
End Plain.

(** [astype(str)] on a missing cell of a column of texts: the text 'nan'
    before pandas 3, a missing cell from pandas 3 on. *)
Module Pandas2.
Definition missing : option (list value -> pystr) := Some (fun _ => py "nan").
End Pandas2.

Module Pandas3.
Definition missing : option (list value -> pystr) := None.
End Pandas3.

(** ** Notions used in the statements *)

(** No cell under the label 'customer_id' is missing. *)
Definition no_missing_id (df : Table) : Prop :=
  forall c : column, c ∈ df -> c.1 = py "customer_id" -> NaN ∉ c.2.

(** A label as the renaming leaves it when it was ASCII: no capital, no
    U+0020, no white space at either end. *)
Definition tidy (l : pystr) : Prop :=
  Forall (fun c => (c < 128)%N /\ ~ (65 <= c <= 90)%N /\ c ≠ 32%N) l /\
  (forall c, head l = Some c -> Text.is_space c = false) /\
  (forall c, last l = Some c -> Text.is_space c = false).

(** ** Sample data *)

Module Sample.

(** Two identical rows, a third row that repeats their identifier, and a
    row without identifier; one email is missing. *)
Definition customers : Table :=
  [ (py "Index", [Int 1; Int 1; Int 2; Int 3]);
    (py "Customer Id", [Str (py "1"); Str (py "1"); Str (py "1"); NaN]);
    (py "First Name", [Str (py "Ann "); Str (py "Ann "); Str (py "Bea"); Str (py "Cy")]);
    (py "Phone 1", [Str (py "+1 (555) 010-0000"); Str (py "+1 (555) 010-0000"); NaN; NaN]);
    (py "Email", [NaN; NaN; Str (py "Bea@X.org"); NaN]);
    (py "Subscription Date", [Str (py "2021-02-03"); Str (py "2021-02-03"); NaN; NaN]) ].

(** One customer without first name and without email. *)
Definition anonymous : Table :=
  [ (py "Customer Id", [Str (py "a")]);
    (py "First Name", [NaN]);
    (py "Email", [NaN]) ].


(** What [customers] is cleaned to, and what the script prints on the way. *)
Definition cleaned : Table :=
  [ (py "customer_id", [Str (py "1")]);
    (py "first_name", [Str (py "ann")]);
    (py "phone_1", [Str (py "15550100000")]);
    (py "email", [Str (py "n/a")]);
    (py "subscription_date", [NaN]) ].

Definition progress : list output :=
  Eval vm_compute in (transform Plain.lower Plain.scalar Pandas2.missing Plain.parse customers).1.

(** Two dates to convert, one of them not a date, and a parser that
    knows the first. *)
Definition dated : Table :=
  [ (py "customer_id", [Str (py "a"); Str (py "b")]);
    (py "subscription_date", [Str (py "2021-02-03"); Str (py "soon")]) ].

Definition parse (col : list value) (v : value) : option Z :=
  if decide (v = Str (py "2021-02-03")) then Some 1612310400000000000%Z else None.

(** A table as it stands after the renaming: one identifier is missing. *)
Definition renamed : Table :=
  [ (py "customer_id", [Str (py "1"); NaN]);
    (py "first_name", [Str (py "ann"); Str (py "cy")]) ].

(** A table as it stands before the fill: a name and an email are missing. *)
Definition unfilled : Table :=
  [ (py "customer_id", [Str (py "a")]);
    (py "first_name", [NaN]);
    (py "email", [NaN]) ].

(** A table as it stands before the phone loop. *)
Definition phones : Table :=
  [ (py "customer_id", [Str (py "a"); Str (py "b")]);
    (py "phone_1", [Str (py "+1 (555) 010-0000"); Str (py "nan")]) ].

Definition world_of (t : Table) : world :=
  {| openpyxl := true; fs := {[ INPUT_FILE := Workbook t ]} |}.

Definition empty_world : world := {| openpyxl := true; fs := ∅ |}.

(** A sheet without the column 'Customer Id'. *)
Definition nameless : Table :=
  [ (py "First Name", [Str (py "Ann")]) ].

(** A sheet with two labels that are renamed to 'email'. *)
Definition two_emails : Table :=
  [ (py "Customer Id", [Str (py "a")]);
    (py "Email", [Str (py "a@x.org")]);
    (py "email ", [NaN]) ].

(** A table as it stands before the phone loop, with a missing phone. *)
Definition no_phone : Table :=
  [ (py "customer_id", [Str (py "a")]);
    (py "phone_1", [NaN]) ].

End Sample.

(** * Properties *)

(** ** Masks and selections *)

Section Select.
Context {A : Type}.
Implicit Types (mask : list bool) (xs : list A).

Lemma select_nil_r mask : select mask ([] : list A) = [].
Proof. by destruct mask. Qed.

Lemma count_true_cons b mask :
  count_true (b :: mask) = (if b then S (count_true mask) else count_true mask).
Proof. by destruct b. Qed.

Lemma count_true_le mask : count_true mask <= length mask.
Proof. apply length_filter. Qed.

Lemma select_length mask xs :
  length mask = length xs -> length (select mask xs) = count_true mask.
Proof.
  revert xs; induction mask as [|b mask IH]; intros [|x xs] Hlen; simplify_eq/=; auto.
  rewrite count_true_cons. destruct b; simpl; auto.
Qed.

Lemma select_length_eq {B} mask xs (ys : list B) :
  length xs = length ys -> length (select mask xs) = length (select mask ys).
Proof.
  revert xs ys; induction mask as [|b mask IH]; intros [|x xs] [|y ys] Hlen;
    simplify_eq/=; auto.
  destruct b; simpl; auto.
Qed.

Lemma select_all mask xs :
  Forall (fun b => b = true) mask -> length mask = length xs -> select mask xs = xs.
Proof.
  intros Hall; revert xs; induction Hall as [|b mask -> _ IH]; intros [|x xs] Hlen;
    simplify_eq/=; auto.
  by rewrite IH.
Qed.

Lemma select_fmap {B} (f : A -> B) mask xs :
  select mask (f <$> xs) = f <$> select mask xs.
Proof.
  revert xs; induction mask as [|b mask IH]; intros [|x xs]; simpl; auto.
  destruct b; simpl; by rewrite IH.
Qed.

Lemma select_sublist mask xs : select mask xs `sublist_of` xs.
Proof.
  revert xs; induction mask as [|b mask IH]; intros [|x xs]; simpl;
    try apply sublist_nil_l.
  destruct b; [by apply sublist_skip | by apply sublist_cons].
Qed.

Lemma elem_of_select mask xs x : x ∈ select mask xs -> x ∈ xs.
Proof. intros Hx. eapply elem_of_sublist; [done | apply select_sublist]. Qed.

End Select.

Lemma count_true_zero mask :
  count_true mask = 0 -> Forall (fun b => b = true) (negb <$> mask).
Proof.
  induction mask as [|b mask IH]; simpl; [constructor|].
  rewrite count_true_cons. destruct b; [lia|]. intros H. constructor; auto.
Qed.

(** ** Rows across columns *)

Section Transpose.
Context {A : Type} (d : A).
Implicit Types (cs : list (list A)).

Lemma transpose_length n cs : length (transpose d n cs) = n.
Proof. revert cs; induction n as [|n IH]; intros cs; simpl; auto. Qed.

Lemma transpose_nil n : transpose d n [] = replicate n [].
Proof. induction n as [|n IH]; simpl; by rewrite ?IH. Qed.

Lemma transpose_lookup n cs i :
  i < n -> transpose d n cs !! i = Some ((fun vs => nth i vs d) <$> cs).
Proof.
  revert cs i; induction n as [|n IH]; intros cs [|i] Hi; try lia; simpl.
  - f_equal. apply list_fmap_ext. intros ? [|??] ?; reflexivity.
  - rewrite IH by lia. f_equal. rewrite <- list_fmap_compose.
    apply list_fmap_ext. intros ? [|??] ?; [by destruct i | reflexivity].
Qed.

(** Selecting rows in every column selects the rows. *)
Lemma transpose_select mask cs :
  Forall (fun vs => length vs = length mask) cs ->
  transpose d (count_true mask) (select mask <$> cs) = select mask (transpose d (length mask) cs).
Proof.
  revert cs; induction mask as [|b mask IH]; intros cs Hlen; [done|].
  assert (Htl : Forall (fun vs => length vs = length mask) (tail <$> cs)).
  { rewrite Forall_fmap. eapply Forall_impl; [exact Hlen|].
    intros [|??] ?; simplify_eq/=; done. }
  assert (Hsel : select mask <$> (tail <$> cs)
                 = (fun vs => select mask (tail vs)) <$> cs).
  { by rewrite <- list_fmap_compose. }
  rewrite count_true_cons. cbn [length transpose select].
  destruct b.
  - cbn [transpose]. f_equal.
    + rewrite <- list_fmap_compose. apply Forall_fmap_ext_1.
      eapply Forall_impl; [exact Hlen|]. intros [|??] ?; simplify_eq/=; done.
    + rewrite <- IH by done. f_equal. rewrite Hsel, <- list_fmap_compose.
      apply Forall_fmap_ext_1.
      eapply Forall_impl; [exact Hlen|]. intros [|??] ?; simplify_eq/=; done.
  - rewrite <- IH by done. f_equal. rewrite Hsel.
    apply Forall_fmap_ext_1.
    eapply Forall_impl; [exact Hlen|]. intros [|??] ?; simplify_eq/=; done.
Qed.

(** Selecting columns selects the cells of every row. *)
Lemma transpose_select_columns (pick : list bool) n cs :
  transpose d n (select pick cs) = select pick <$> transpose d n cs.
Proof.
  revert cs; induction n as [|n IH]; intros cs; [done|].
  cbn [transpose fmap list_fmap]. by rewrite <- IH, !select_fmap.
Qed.

Lemma transpose_singleton (vs : list A) :
  transpose d (length vs) [vs] = (fun v => [v]) <$> vs.
Proof. induction vs as [|v vs IH]; simpl; [done|]. f_equal. exact IH. Qed.

End Transpose.

(** ** Duplicates *)

Section Duplicated.
Context {K : Type} `{EqDecision K}.
Implicit Types (seen ks : list K).

Lemma duplicated_after_length seen ks : length (duplicated_after seen ks) = length ks.
Proof. revert seen; induction ks as [|k ks IH]; intros seen; simpl; auto. Qed.

Lemma duplicated_length ks : length (duplicated ks) = length ks.
Proof. apply duplicated_after_length. Qed.

(** Only the set of the entries seen matters. *)
Lemma duplicated_after_proper seen seen' ks :
  (forall k, k ∈ seen <-> k ∈ seen') -> duplicated_after seen ks = duplicated_after seen' ks.
Proof.
  revert seen seen'; induction ks as [|k ks IH]; intros seen seen' Hs; [done|].
  simpl. f_equal.
  - apply bool_decide_ext, Hs.
  - apply IH. intros k'. rewrite !elem_of_cons. by rewrite Hs.
Qed.

(** The mark of an entry says whether an equal entry came before it. *)
Lemma duplicated_after_lookup seen ks i k :
  ks !! i = Some k ->
  duplicated_after seen ks !! i = Some (bool_decide (k ∈ seen ++ take i ks)).
Proof.
  revert seen i; induction ks as [|k0 ks IH]; intros seen [|i] Hi; simplify_eq/=.
  - by rewrite app_nil_r.
  - rewrite (IH _ _ Hi). f_equal. apply bool_decide_ext.
    set_solver.
Qed.

Lemma duplicated_lookup ks i k :
  ks !! i = Some k -> duplicated ks !! i = Some (bool_decide (k ∈ take i ks)).
Proof. intros Hi. unfold duplicated. by rewrite (duplicated_after_lookup _ _ _ _ Hi). Qed.

Lemma elem_of_first_after seen ks k :
  k ∈ select (negb <$> duplicated_after seen ks) ks <-> k ∈ ks /\ k ∉ seen.
Proof.
  revert seen; induction ks as [|k0 ks IH]; intros seen; simpl.
  - rewrite elem_of_nil. tauto.
  - case_bool_decide as Hk0; simpl.
    + rewrite IH, !elem_of_cons. split; [naive_solver|].
      intros [[->|?] ?]; [done|]. split; [done|]. intros [->|?]; done.
    + rewrite !elem_of_cons, IH, !elem_of_cons. split; [naive_solver|].
      intros [[->|?] ?]; [by left|].
      destruct (decide (k = k0)) as [->|]; [by left|]. right. naive_solver.
Qed.

Lemma NoDup_first_after seen ks :
  NoDup (select (negb <$> duplicated_after seen ks) ks).
Proof.
  revert seen; induction ks as [|k0 ks IH]; intros seen; simpl; [constructor|].
  case_bool_decide; simpl; [apply IH|].
  constructor; [|apply IH]. rewrite elem_of_first_after, elem_of_cons. naive_solver.
Qed.

Lemma elem_of_first ks k : k ∈ select (negb <$> duplicated ks) ks <-> k ∈ ks.
Proof. unfold duplicated. rewrite elem_of_first_after, elem_of_nil. tauto. Qed.

Lemma NoDup_first ks : NoDup (select (negb <$> duplicated ks) ks).
Proof. apply NoDup_first_after. Qed.

(** As many entries stay as there are distinct ones. *)
Lemma length_first ks :
  length (select (negb <$> duplicated ks) ks) = length (remove_dups ks).
Proof.
  apply Permutation_length, NoDup_Permutation;
    [apply NoDup_first | apply NoDup_remove_dups |].
  intros k. by rewrite elem_of_first, elem_of_remove_dups.
Qed.

Lemma duplicated_none ks :
  count_true (duplicated ks) = 0 -> select (negb <$> duplicated ks) ks = ks.
Proof.
  intros H0. apply select_all; [by apply count_true_zero|].
  by rewrite length_fmap, duplicated_length.
Qed.

Lemma NoDup_duplicated_none ks : NoDup ks -> count_true (duplicated ks) = 0.
Proof.
  intros Hnd. unfold duplicated.
  assert (Hgen : forall seen, (forall k, k ∈ ks -> k ∉ seen) ->
                 count_true (duplicated_after seen ks) = 0).
  { induction Hnd as [|k ks Hk _ IH]; intros seen Hs; [done|].
    simpl. rewrite count_true_cons, bool_decide_eq_false_2
      by (apply Hs; left).
    apply IH. intros k' Hk' [->|?]%elem_of_cons; [done|].
    eapply Hs; [by right|done]. }
  apply Hgen. intros k _. apply not_elem_of_nil.
Qed.

End Duplicated.

(** Dropping the repeats of whole entries and then the repeats of a key is
    dropping the repeats of the key. *)
Lemma first_by_key_after_first {A K} `{EqDecision A, EqDecision K}
    (f : A -> K) (seenA : list A) (seenK : list K) (xs : list A) :
  (forall x, x ∈ seenA -> f x ∈ seenK) ->
  let xs1 := select (negb <$> duplicated_after seenA xs) xs in
  select (negb <$> duplicated_after seenK (f <$> xs1)) xs1
  = select (negb <$> duplicated_after seenK (f <$> xs)) xs.
Proof.
  revert seenA seenK; induction xs as [|x xs IH]; intros seenA seenK Hinv; [done|].
  cbn [duplicated_after fmap list_fmap select negb].
  assert (Hinv' : forall y, y ∈ x :: seenA -> f y ∈ f x :: seenK).
  { intros y [->|Hy]%elem_of_cons; [left|right; auto]. }
  specialize (IH (x :: seenA) (f x :: seenK) Hinv'). cbn zeta in IH.
  destruct (decide (x ∈ seenA)) as [Hx|Hx].
  - rewrite (bool_decide_eq_true_2 _ Hx), (bool_decide_eq_true_2 (f x ∈ seenK)) by auto.
    cbn [negb select]. rewrite <- IH. do 2 f_equal.
    apply duplicated_after_proper. intros k. rewrite elem_of_cons.
    split; [auto|]. intros [->|?]; auto.
  - rewrite (bool_decide_eq_false_2 _ Hx). cbn [negb select fmap list_fmap duplicated_after].
    destruct (bool_decide (f x ∈ seenK)); cbn [negb select]; by rewrite IH.
Qed.

(** ** Tables *)

Section Tables.
Implicit Types (t df : Table) (mask : list bool) (name : pystr).

Lemma rect_lengths t : rect t -> Forall (fun vs => length vs = nrows t) t.*2.
Proof. intros Hr. by rewrite Forall_fmap. Qed.

Lemma rect_elem_of t c : rect t -> c ∈ t -> length c.2 = nrows t.
Proof. intros Hr Hc. by eapply (proj1 (Forall_forall _ _) Hr). Qed.

Lemma rows_length t : length (rows t) = nrows t.
Proof. apply transpose_length. Qed.

Lemma key_rows_length name t : length (key_rows name t) = nrows t.
Proof. apply transpose_length. Qed.

Lemma columns_keep_rows mask t : columns (keep_rows mask t) = columns t.
Proof. unfold columns, keep_rows. rewrite <- list_fmap_compose. done. Qed.

Lemma keep_rows_cells mask t : (keep_rows mask t).*2 = select mask <$> t.*2.
Proof. unfold keep_rows. by rewrite <- !list_fmap_compose. Qed.

Lemma nrows_keep_rows mask t :
  rect t -> length mask = nrows t -> nrows (keep_rows mask t) = count_true mask.
Proof.
  intros Hr Hlen. destruct t as [|c t]; simpl in *.
  - by destruct mask.
  - apply select_length. by rewrite Hlen.
Qed.

(** A row selection keeps the columns aligned. *)
Lemma rect_keep_rows mask t : rect t -> rect (keep_rows mask t).
Proof.
  intros Hr. destruct t as [|c t]; [constructor|].
  unfold rect, keep_rows. rewrite Forall_fmap.
  eapply Forall_impl; [exact Hr|]. intros c' Hc'. cbn in *.
  by apply select_length_eq.
Qed.

Lemma rows_keep_rows mask t :
  rect t -> length mask = nrows t -> rows (keep_rows mask t) = select mask (rows t).
Proof.
  intros Hr Hlen. unfold rows.
  rewrite nrows_keep_rows, keep_rows_cells, <- Hlen by done.
  apply transpose_select. rewrite Hlen. by apply rect_lengths.
Qed.

Lemma labelled_keep_rows name mask t :
  labelled name (keep_rows mask t) = keep_rows mask (labelled name t).
Proof.
  unfold labelled, keep_rows. induction t as [|c t IH]; [done|].
  rewrite fmap_cons, !filter_cons. cbn [fst]. case_decide; by rewrite IH.
Qed.

Lemma labelled_sublist name t : labelled name t `sublist_of` t.
Proof. apply sublist_filter. Qed.

Lemma key_rows_keep_rows name mask t :
  rect t -> length mask = nrows t ->
  key_rows name (keep_rows mask t) = select mask (key_rows name t).
Proof.
  intros Hr Hlen. unfold key_rows.
  rewrite nrows_keep_rows, labelled_keep_rows, keep_rows_cells, <- Hlen by done.
  apply transpose_select. rewrite Hlen, Forall_fmap.
  apply Forall_forall. intros c [_ Hc]%list_elem_of_filter.
  by apply rect_elem_of.
Qed.

Lemma labelled_cells name t :
  (labelled name t).*2 = select ((fun c : column => bool_decide (c.1 = name)) <$> t) t.*2.
Proof.
  unfold labelled. induction t as [|c t IH]; [done|].
  rewrite filter_cons. cbn [fmap list_fmap select].
  case_decide; [rewrite bool_decide_eq_true_2 | rewrite bool_decide_eq_false_2]; try done.
  cbn. by f_equal.
Qed.

(** The key of a row is made of its cells under the label. *)
Lemma key_rows_rows name t :
  key_rows name t = select ((fun c : column => bool_decide (c.1 = name)) <$> t) <$> rows t.
Proof. unfold key_rows, rows. by rewrite labelled_cells, transpose_select_columns. Qed.

Lemma series_labelled name t vs : series name t = Some vs -> labelled name t = [(name, vs)].
Proof.
  unfold series. intros Hs.
  destruct (labelled name t) as [|c [|??]] eqn:Hl; simplify_eq.
  assert (Hc : c ∈ labelled name t) by (rewrite Hl; left).
  apply list_elem_of_filter in Hc as [Hc _]. destruct c; simplify_eq/=. done.
Qed.

Lemma series_elem_of name t vs : series name t = Some vs -> (name, vs) ∈ t.
Proof.
  intros Hs%series_labelled.
  assert (Hc : (name, vs) ∈ labelled name t) by (rewrite Hs; left).
  by apply list_elem_of_filter in Hc as [_ Hc].
Qed.

Lemma series_columns name t vs : series name t = Some vs -> name ∈ columns t.
Proof.
  intros Hs%series_elem_of. unfold columns.
  apply list_elem_of_fmap. by exists (name, vs).
Qed.

Lemma series_length name t vs : rect t -> series name t = Some vs -> length vs = nrows t.
Proof. intros Hr Hs%series_elem_of. by apply (rect_elem_of _ _ Hr Hs). Qed.

Lemma key_rows_series name t vs :
  rect t -> series name t = Some vs -> key_rows name t = (fun v => [v]) <$> vs.
Proof.
  intros Hr Hs. unfold key_rows.
  rewrite (series_labelled _ _ _ Hs), <- (series_length _ _ _ Hr Hs).
  apply transpose_singleton.
Qed.

Lemma series_keep_rows name mask t :
  series name (keep_rows mask t) = select mask <$> series name t.
Proof.
  unfold series. rewrite labelled_keep_rows.
  by destruct (labelled name t) as [|c [|??]].
Qed.

Lemma keep_rows_all mask t :
  rect t -> Forall (fun b => b = true) mask -> length mask = nrows t -> keep_rows mask t = t.
Proof.
  intros Hr Hall Hlen. unfold keep_rows.
  rewrite <- (list_fmap_id t) at 2. apply Forall_fmap_ext_1.
  eapply Forall_impl; [exact Hr|]. intros [n vs] Hvs; cbn in *.
  rewrite select_all; [done|done|]. by rewrite Hlen.
Qed.

Lemma drop_duplicates_none keys t :
  rect t -> length keys = nrows t -> count_true (duplicated keys) = 0 ->
  drop_duplicates keys t = t.
Proof.
  intros Hr Hlen H0. apply keep_rows_all; [done|by apply count_true_zero|].
  by rewrite length_fmap, duplicated_length.
Qed.

End Tables.

Lemma duplicated_after_fmap {A B} `{EqDecision A, EqDecision B} (g : A -> B)
    `{!Inj (=) (=) g} (seen ks : list A) :
  duplicated_after (g <$> seen) (g <$> ks) = duplicated_after seen ks.
Proof.
  revert seen; induction ks as [|k ks IH]; intros seen; [done|].
  cbn [fmap list_fmap duplicated_after]. f_equal.
  - apply bool_decide_ext. rewrite list_elem_of_fmap. split.
    + intros (y & Hy & ?). by apply (inj g) in Hy as ->.
    + intros ?. by exists k.
  - apply (IH (k :: seen)).
Qed.

Lemma duplicated_fmap {A B} `{EqDecision A, EqDecision B} (g : A -> B)
    `{!Inj (=) (=) g} (ks : list A) :
  duplicated (g <$> ks) = duplicated ks.
Proof. apply (duplicated_after_fmap g []). Qed.

#[local] Instance singleton_list_inj {A} : Inj (=) (=) (fun v : A => [v]).
Proof. by intros ?? [=]. Qed.

(** ** The two deduplication steps *)

Ltac run_simpl :=
  cbn [mbind mret run_bind run_ret print raise app fst snd].

Lemma exact_duplicates_result t :
  rect t -> exists out, exact_duplicates t = (out, inr (drop_duplicates (rows t) t)).
Proof.
  intros Hr. unfold exact_duplicates. case_decide as Hn; run_simpl; [by eexists|].
  rewrite drop_duplicates_none; [by eexists|done|apply rows_length|].
  unfold initial_duplicates in Hn. lia.
Qed.

(** A frame without rows has no duplicate. *)
Lemma id_duplicates_empty t : nrows t = 0 -> id_duplicates t = 0.
Proof. intros Hn. unfold id_duplicates, key_rows. by rewrite Hn. Qed.

(** The second deduplication where the label is there: the early return of
    [duplicated] on a frame without rows gives what the count gives. *)
Lemma key_duplicates_present t :
  py "Customer Id" ∈ columns t ->
  key_duplicates t
  = if decide (0 < id_duplicates t) then
      ([ LineN "Found and removed " (id_duplicates t) " rows with duplicate Customer IDs." ],
       inr (drop_duplicates (key_rows (py "Customer Id") t) t))
    else ([ Line "No duplicate Customer IDs found." ], inr t).
Proof.
  intros Hin. unfold key_duplicates. case_decide as Hn.
  - rewrite (id_duplicates_empty _ Hn). by rewrite decide_False by lia.
  - rewrite decide_True by done. by case_decide.
Qed.

Lemma key_duplicates_empty t :
  nrows t = 0 -> key_duplicates t = ([ Line "No duplicate Customer IDs found." ], inr t).
Proof. intros Hn. unfold key_duplicates. by rewrite decide_True. Qed.

Lemma key_duplicates_absent t :
  0 < nrows t -> py "Customer Id" ∉ columns t -> key_duplicates t = ([], inl KeyError).
Proof.
  intros Hn Hin. unfold key_duplicates.
  rewrite decide_False by lia. by rewrite decide_False.
Qed.

(** The renaming on a frame that has a column. *)
Lemma rename_columns_present (lower : pystr -> pystr) t :
  columns t ≠ [] ->
  rename_columns lower t
  = ([ Line "Standardizing column names (e.g., 'Customer Id' -> 'customer_id')." ],
     inr ((fun c : column => (normalize_name lower c.1, c.2)) <$> t)).
Proof. intros Hn. unfold rename_columns. by rewrite decide_False. Qed.

Lemma rename_columns_empty (lower : pystr -> pystr) t :
  columns t = [] ->
  rename_columns lower t
  = ([ Line "Standardizing column names (e.g., 'Customer Id' -> 'customer_id')." ],
     inl AttributeError).
Proof. intros Hn. unfold rename_columns. by rewrite decide_True. Qed.

Lemma columns_not_nil t name : name ∈ columns t -> columns t ≠ [].
Proof. intros Hin Hnil. rewrite Hnil in Hin. by apply elem_of_nil in Hin. Qed.

Lemma key_duplicates_result t :
  rect t -> py "Customer Id" ∈ columns t ->
  exists out,
    key_duplicates t = (out, inr (drop_duplicates (key_rows (py "Customer Id") t) t)).
Proof.
  intros Hr Hin. rewrite key_duplicates_present by done.
  case_decide as Hn; run_simpl; [by eexists|].
  rewrite drop_duplicates_none; [by eexists|done|apply key_rows_length|].
  unfold id_duplicates in Hn. lia.
Qed.

Lemma first_mask_lookup {K} `{EqDecision K} (ks : list K) i k :
  ks !! i = Some k ->
  (negb <$> duplicated ks) !! i = Some (bool_decide (k ∉ take i ks)).
Proof.
  intros Hi. rewrite list_lookup_fmap, (duplicated_lookup _ _ _ Hi). cbn.
  by rewrite bool_decide_not.
Qed.

Lemma rect_drop_duplicates keys t : rect t -> rect (drop_duplicates keys t).
Proof. apply rect_keep_rows. Qed.

Lemma rows_drop_duplicates keys t :
  rect t -> length keys = nrows t ->
  rows (drop_duplicates keys t) = select (negb <$> duplicated keys) (rows t).
Proof.
  intros Hr Hlen. apply rows_keep_rows; [done|].
  by rewrite length_fmap, duplicated_length.
Qed.

(** C9.  Exact-duplicate removal (Step 2): on every table with aligned
    columns the step returns; the row count of its result is the number of distinct rows
    of the input, no two remaining rows are identical, and the rows that stay
    are the first occurrences: row [i] stays exactly when no earlier row is
    equal to it. *)
Theorem exact_duplicate_removal (t : Table) :
  rect t ->
  exists out t',
    exact_duplicates t = (out, inr t') /\
    nrows t' = length (remove_dups (rows t)) /\
    NoDup (rows t') /\
    (forall r, r ∈ rows t' <-> r ∈ rows t) /\
    rows t' = select (negb <$> duplicated (rows t)) (rows t) /\
    (forall i r, rows t !! i = Some r ->
       (negb <$> duplicated (rows t)) !! i = Some (bool_decide (r ∉ take i (rows t)))).
Proof.
  intros Hr. destruct (exact_duplicates_result t Hr) as [out Hout].
  exists out, (drop_duplicates (rows t) t).
  assert (Hrows := rows_drop_duplicates (rows t) t Hr (rows_length t)).
  split_and!; [done| | | |done|].
  - by rewrite <- rows_length, Hrows, length_first.
  - rewrite Hrows. apply NoDup_first.
  - intros r. rewrite Hrows. apply elem_of_first.
  - intros i r. apply first_mask_lookup.
Qed.

Lemma pick_keep_rows name mask (t : Table) :
  (fun c : column => bool_decide (c.1 = name)) <$> keep_rows mask t
  = (fun c : column => bool_decide (c.1 = name)) <$> t.
Proof. unfold keep_rows. by rewrite <- list_fmap_compose. Qed.

(** C2.  Key-duplicate removal (Step 3): on every table with aligned columns
    and a 'Customer Id' column, the two deduplication steps return, and the table
    after them holds, of the rows of the input, exactly those whose
    identifier does not occur in an earlier row: one row for each distinct
    identifier, the first in the original order. *)
Theorem key_duplicate_removal (t : Table) (ids : list value) :
  rect t ->
  series (py "Customer Id") t = Some ids ->
  exists out1 t1 out2 t2,
    exact_duplicates t = (out1, inr t1) /\
    key_duplicates t1 = (out2, inr t2) /\
    let first := negb <$> duplicated ids in
    (forall i k, ids !! i = Some k -> first !! i = Some (bool_decide (k ∉ take i ids))) /\
    rows t2 = select first (rows t) /\
    series (py "Customer Id") t2 = Some (select first ids) /\
    NoDup (select first ids) /\
    (forall k, k ∈ select first ids <-> k ∈ ids).
Proof.
  intros Hr Hids. set (name := py "Customer Id") in *.
  destruct (exact_duplicates_result t Hr) as [out1 H1].
  set (t1 := drop_duplicates (rows t) t) in *.
  assert (Hr1 : rect t1) by by apply rect_drop_duplicates.
  assert (Hin1 : name ∈ columns t1).
  { unfold t1, drop_duplicates. rewrite columns_keep_rows. by eapply series_columns. }
  destruct (key_duplicates_result t1 Hr1 Hin1) as [out2 H2].
  fold name in H2. set (t2 := drop_duplicates (key_rows name t1) t1) in *.
  assert (Hr2 : rect t2) by by apply rect_drop_duplicates.
  exists out1, t1, out2, t2. cbn zeta.
  set (f := select (A:=value) ((fun c : column => bool_decide (c.1 = name)) <$> t)).
  assert (Hrows1 : rows t1 = select (negb <$> duplicated (rows t)) (rows t)).
  { apply rows_drop_duplicates; [done|apply rows_length]. }
  assert (Hkeys : f <$> rows t = (fun v => [v]) <$> ids).
  { unfold f. by rewrite <- key_rows_rows, (key_rows_series _ _ _ Hr Hids). }
  assert (Hkeys1 : key_rows name t1 = f <$> rows t1).
  { rewrite key_rows_rows. unfold f. do 2 f_equal.
    unfold t1, drop_duplicates. by rewrite pick_keep_rows. }
  assert (Hrows2 : rows t2 = select (negb <$> duplicated ids) (rows t)).
  { unfold t2. rewrite rows_drop_duplicates by (done || apply key_rows_length).
    rewrite Hkeys1, Hrows1. unfold duplicated.
    assert (Hc := first_by_key_after_first f [] [] (rows t)).
    cbn zeta in Hc. rewrite Hc by (intros ? Hx; inversion Hx).
    rewrite Hkeys. by rewrite (duplicated_after_fmap (fun v : value => [v]) [] ids). }
  split_and!; [done|done| |done| | |].
  - intros i k. apply first_mask_lookup.
  - assert (Hs2 : exists ids2, series name t2 = Some ids2).
    { unfold t2, t1, drop_duplicates. rewrite !series_keep_rows, Hids. by eexists. }
    destruct Hs2 as [ids2 Hs2]. rewrite Hs2. f_equal.
    apply (inj (fmap (fun v : value => [v]))).
    assert (Hkeys2 : key_rows name t2 = f <$> rows t2).
    { rewrite key_rows_rows. unfold f. do 2 f_equal.
      unfold t2, t1, drop_duplicates. by rewrite !pick_keep_rows. }
    rewrite <- (key_rows_series _ _ _ Hr2 Hs2), Hkeys2.
    by rewrite Hrows2, <- select_fmap, Hkeys, select_fmap.
  - apply NoDup_first.
  - intros k. apply elem_of_first.
Qed.

(** ** Column updates *)

Section Columns.
Implicit Types (t df : Table) (name : pystr) (vs : list value).

Lemma nrows_assign name vs t :
  length vs = nrows t -> nrows (assign name vs t) = nrows t.
Proof. intros Hlen. destruct t as [|c t]; [done|]. cbn. by case_decide. Qed.

Lemma rect_assign name vs t :
  rect t -> length vs = nrows t -> rect (assign name vs t).
Proof.
  intros Hr Hlen. unfold rect. rewrite nrows_assign by done.
  unfold assign. rewrite Forall_fmap.
  eapply Forall_impl; [exact Hr|]. intros c Hc. cbn. by case_decide.
Qed.

Lemma columns_assign name vs t : columns (assign name vs t) = columns t.
Proof.
  unfold columns, assign. rewrite <- list_fmap_compose.
  apply list_fmap_ext. intros i c _. cbn. by case_decide.
Qed.

Lemma rect_filter (P : column -> Prop) `{!forall c, Decision (P c)} t :
  rect t -> rect (filter P t).
Proof.
  intros Hr. unfold rect.
  assert (Hall : Forall (fun c : column => length c.2 = nrows t) (filter P t)).
  { apply Forall_forall. intros c [_ Hc]%list_elem_of_filter. by apply rect_elem_of. }
  destruct (filter P t) as [|c0 l] eqn:Hf; [constructor|].
  cbn [nrows]. assert (H0 : length c0.2 = nrows t) by by inversion Hall.
  by rewrite H0.
Qed.

Lemma rect_relabel (f : pystr -> pystr) t :
  rect t -> rect ((fun c : column => (f c.1, c.2)) <$> t).
Proof.
  intros Hr. unfold rect. rewrite Forall_fmap.
  destruct t as [|c0 t]; [constructor|]. exact Hr.
Qed.

Lemma nrows_relabel (f : pystr -> pystr) t :
  nrows ((fun c : column => (f c.1, c.2)) <$> t) = nrows t.
Proof. by destruct t. Qed.

End Columns.

Lemma filter_all {A} (P : A -> Prop) `{!forall x, Decision (P x)} (l : list A) :
  Forall P l -> filter P l = l.
Proof. induction 1 as [|x l Hx _ IH]; [done|]. by rewrite filter_cons_True, IH. Qed.

(** ** Every step keeps the columns aligned *)

(** What a loop does with a property its body keeps. *)
Lemma for_each_keeps (P : Table -> Prop) names body :
  (forall name df out df',
     name ∈ names -> body name df = (out, inr df') -> P df -> P df') ->
  forall df out df', for_each names body df = (out, inr df') -> P df -> P df'.
Proof.
  induction names as [|name names IH]; intros Hbody df out df' Hrun HP.
  - cbn [for_each] in Hrun. unfold mret, run_ret in Hrun. by simplify_eq.
  - cbn [for_each] in Hrun. unfold mbind, run_bind in Hrun.
    destruct (body name df) as [o [e|df1]] eqn:Hb; [done|].
    destruct (for_each names body df1) as [o' r] eqn:Hf. simplify_eq.
    eapply IH; [|done|].
    + intros ????? . apply Hbody. by right.
    + eapply Hbody; [by left|done..].
Qed.

Ltac run_inv H :=
  repeat (first
    [ progress (cbn [mbind mret run_bind run_ret print raise app fst snd] in H)
    | match type of H with
      | context [decide ?P] => destruct (decide P)
      | context [match series ?n ?t with _ => _ end] =>
          let Hs := fresh "Hs" in destruct (series n t) eqn:Hs
      | context [if is_datetime64 ?vs then _ else _] =>
          let Hd := fresh "Hd" in destruct (is_datetime64 vs) eqn:Hd
      end ]);
  try discriminate H; try (injection H as ? ?; subst).

Section Shape.
Variable unicode_lower : pystr -> pystr.
Variable str_of_scalar : list value -> value -> pystr.
Variable str_of_missing : option (list value -> pystr).
Variable parse_datetime : list value -> value -> option Z.

Lemma exact_duplicates_mask t out t' :
  exact_duplicates t = (out, inr t') ->
  rect t -> exists mask, length mask = nrows t /\ t' = keep_rows mask t.
Proof.
  intros Hrun Hr. destruct (exact_duplicates_result t Hr) as [out' Hres].
  rewrite Hres in Hrun. simplify_eq.
  eexists. split; [|done]. by rewrite length_fmap, duplicated_length, rows_length.
Qed.

(** Whatever the second deduplication returns is the table with the first
    row of every identifier, also on the frame without rows. *)
Lemma key_duplicates_inv t out t' :
  rect t -> key_duplicates t = (out, inr t') ->
  t' = drop_duplicates (key_rows (py "Customer Id") t) t.
Proof.
  intros Hr Hrun. destruct (decide (nrows t = 0)) as [Hn|Hn].
  - rewrite (key_duplicates_empty _ Hn) in Hrun. simplify_eq.
    rewrite drop_duplicates_none; [done..|apply key_rows_length|].
    fold (id_duplicates t'). by rewrite id_duplicates_empty.
  - destruct (decide (py "Customer Id" ∈ columns t)) as [Hin|Hin].
    + destruct (key_duplicates_result t Hr Hin) as [out' Hres].
      rewrite Hres in Hrun. by simplify_eq.
    + rewrite key_duplicates_absent in Hrun by (done || lia). done.
Qed.

(** On a frame with a row the second deduplication returns only where the
    label is there. *)
Lemma key_duplicates_label t out t' :
  key_duplicates t = (out, inr t') -> 0 < nrows t -> py "Customer Id" ∈ columns t.
Proof.
  intros Hrun Hn. destruct (decide (py "Customer Id" ∈ columns t)) as [Hin|Hin]; [done|].
  by rewrite key_duplicates_absent in Hrun.
Qed.

Lemma key_duplicates_mask t out t' :
  key_duplicates t = (out, inr t') ->
  rect t -> exists mask, length mask = nrows t /\ t' = keep_rows mask t.
Proof.
  intros Hrun Hr. rewrite (key_duplicates_inv _ _ _ Hr Hrun).
  eexists. split; [|done]. by rewrite length_fmap, duplicated_length, key_rows_length.
Qed.

Lemma dropna_customer_id_mask t out t' :
  dropna_customer_id t = (out, inr t') ->
  py "customer_id" ∈ columns t /\ t' = keep_rows (notna_customer_id t) t.
Proof. unfold dropna_customer_id. intros Hrun. run_inv Hrun; done. Qed.

Lemma notna_customer_id_length t : length (notna_customer_id t) = nrows t.
Proof. unfold notna_customer_id. by rewrite length_fmap, key_rows_length. Qed.

Lemma drop_index_result t out t' :
  drop_index t = (out, inr t') ->
  t' = filter (fun c : column => c.1 ≠ py "Index") t.
Proof.
  unfold drop_index. intros Hrun. run_inv Hrun; [done|].
  symmetry. apply filter_all, Forall_forall. intros c Hc Heq.
  apply n. unfold columns. apply list_elem_of_fmap. by exists c.
Qed.

Lemma rename_columns_result t out t' :
  rename_columns unicode_lower t = (out, inr t') ->
  t' = (fun c : column => (normalize_name unicode_lower c.1, c.2)) <$> t.
Proof. unfold rename_columns. intros Hrun. by run_inv Hrun. Qed.

Lemma fill_email_result t out t' :
  fill_email t = (out, inr t') ->
  t' = t \/
  exists vs, series (py "email") t = Some vs /\
             t' = assign (py "email") (fillna (py "N/A") vs) t.
Proof. unfold fill_email. intros Hrun. run_inv Hrun; eauto. Qed.

Lemma convert_dates_result t out t' :
  convert_dates parse_datetime t = (out, inr t') ->
  t' = t \/
  exists vs, series (py "subscription_date") t = Some vs /\
             t' = assign (py "subscription_date") (to_datetime parse_datetime vs) t.
Proof. unfold convert_dates. intros Hrun. run_inv Hrun; eauto. Qed.

Lemma update_text_result f col t out t' :
  update_text str_of_scalar str_of_missing f col t = (out, inr t') ->
  t' = t \/
  exists vs, series col t = Some vs /\
             t' = assign col ((fun v => str_map f (astype_str str_of_scalar
                                                      str_of_missing vs v)) <$> vs) t.
Proof. unfold update_text. intros Hrun. run_inv Hrun; eauto. Qed.

Lemma update_text_rect f col t out t' :
  update_text str_of_scalar str_of_missing f col t = (out, inr t') -> rect t -> rect t'.
Proof.
  intros [->|(vs & Hs & ->)]%update_text_result Hr; [done|].
  apply rect_assign; [done|]. rewrite length_fmap. by eapply series_length.
Qed.

Lemma standardize_text_loop t out t' :
  standardize_text unicode_lower str_of_scalar str_of_missing t = (out, inr t') ->
  exists out',
    for_each text_columns
      (update_text str_of_scalar str_of_missing
         (fun s => Text.strip (Text.lower unicode_lower s))) t
    = (out', inr t').
Proof.
  unfold standardize_text. run_simpl. intros Hrun.
  destruct (for_each _ _ t) as [o r]. simplify_eq. by eexists.
Qed.

Lemma clean_phones_loop t out t' :
  clean_phones str_of_scalar str_of_missing t = (out, inr t') ->
  exists out',
    for_each phone_cols (update_text str_of_scalar str_of_missing Text.remove_non_digits) t
    = (out', inr t').
Proof.
  unfold clean_phones. run_simpl. intros Hrun.
  destruct (for_each _ _ t) as [o r]. simplify_eq. by eexists.
Qed.

Lemma final_review_result w t out t' : final_review w t = (out, inr t') -> t' = t.
Proof.
  unfold final_review. run_simpl. intros Hrun.
  destruct (read_excel w INPUT_FILE) as [o [e|orig]]; run_inv Hrun; done.
Qed.

End Shape.

Lemma bind_inv {A B} (m : run A) (f : A -> run B) out b :
  m ≫= f = (out, inr b) ->
  exists o1 a o2, m = (o1, inr a) /\ f a = (o2, inr b) /\ out = o1 ++ o2.
Proof.
  unfold mbind, run_bind. destruct m as [o1 [e|a]]; [done|].
  destruct (f a) as [o2 r] eqn:Hf. intros ?; simplify_eq. by exists o1, a, o2.
Qed.

Lemma transpose_widths {A} (d : A) n (cs : list (list A)) :
  Forall (fun r => length r = length cs) (transpose d n cs).
Proof.
  revert cs; induction n as [|n IH]; intros cs; [constructor|].
  cbn [transpose]. constructor; [by rewrite length_fmap|].
  specialize (IH (tail <$> cs)). by rewrite length_fmap in IH.
Qed.

Section Invariant.
Variable unicode_lower : pystr -> pystr.
Variable str_of_scalar : list value -> value -> pystr.
Variable str_of_missing : option (list value -> pystr).
Variable csv_of_scalar : list value -> value -> pystr.
Variable parse_datetime : list value -> value -> option Z.

Lemma rect_step (w : world) (t : Table) step out t' :
  step ∈ [ exact_duplicates; key_duplicates; drop_index;
           rename_columns unicode_lower; dropna_customer_id; fill_email;
           convert_dates parse_datetime;
           standardize_text unicode_lower str_of_scalar str_of_missing;
           clean_phones str_of_scalar str_of_missing; final_review w ] ->
  step t = (out, inr t') -> rect t -> rect t'.
Proof.
  intros Hstep Hrun Hr.
  repeat (apply elem_of_cons in Hstep as [->|Hstep]); [..|by apply elem_of_nil in Hstep].
  - destruct (exact_duplicates_mask _ _ _ Hrun Hr) as (mask & _ & ->).
    by apply rect_keep_rows.
  - destruct (key_duplicates_mask _ _ _ Hrun Hr) as (mask & _ & ->).
    by apply rect_keep_rows.
  - rewrite (drop_index_result _ _ _ Hrun). by apply rect_filter.
  - rewrite (rename_columns_result _ _ _ _ Hrun). by apply rect_relabel.
  - destruct (dropna_customer_id_mask _ _ _ Hrun) as [_ ->]. by apply rect_keep_rows.
  - destruct (fill_email_result _ _ _ Hrun) as [->|(vs & Hs & ->)]; [done|].
    apply rect_assign; [done|]. unfold fillna. rewrite length_fmap.
    by eapply series_length.
  - destruct (convert_dates_result _ _ _ _ Hrun) as [->|(vs & Hs & ->)]; [done|].
    apply rect_assign; [done|]. unfold to_datetime. rewrite length_fmap.
    by eapply series_length.
  - destruct (standardize_text_loop _ _ _ _ _ _ Hrun) as [out' Hloop].
    eapply (for_each_keeps rect); [|exact Hloop|done].
    intros ???? _. apply update_text_rect.
  - destruct (clean_phones_loop _ _ _ _ _ Hrun) as [out' Hloop].
    eapply (for_each_keeps rect); [|exact Hloop|done].
    intros ???? _. apply update_text_rect.
  - by rewrite (final_review_result _ _ _ _ Hrun).
Qed.

Lemma rect_transform (t : Table) out t' :
  transform unicode_lower str_of_scalar str_of_missing parse_datetime t = (out, inr t') ->
  rect t -> rect t'.
Proof.
  unfold transform. intros Hrun Hr.
  pose (w := {| openpyxl := true; fs := ∅ |}).
  repeat
    (let a := fresh "df" in
     let Hstep := fresh "Hstep" in
     apply bind_inv in Hrun as (? & a & ? & Hstep & Hrun & _);
     cbn beta in Hrun;
     apply (rect_step w) in Hstep; [|set_solver|done];
     clear Hr; rename Hstep into Hr).
  eapply (rect_step w); [|done..]. set_solver.
Qed.

Lemma load_result (w : world) out t :
  load w = (out, inr t) -> fs w !! INPUT_FILE = Some (Workbook t).
Proof.
  unfold load, read_excel. intros Hrun.
  destruct (fs w !! INPUT_FILE) as [[t0| |]|]; [|done..].
  destruct (openpyxl w); [|done]. by run_inv Hrun.
Qed.

(** C10.  The table-shape invariant: each step of the script that returns,
    run on a table whose columns all have the row count of the table,
    returns such a table; the steps that remove rows (both deduplications
    and the dropping of missing identifiers) apply one mask to every column;
    the load returns the parsed sheet as it is, and the written file has one
    record per row besides the header, each with one field per column. *)
Theorem table_shape_invariant (w : world) (t : Table) :
  rect t ->
  (forall step out t',
     step ∈ [ exact_duplicates; key_duplicates; drop_index;
              rename_columns unicode_lower; dropna_customer_id; fill_email;
              convert_dates parse_datetime;
              standardize_text unicode_lower str_of_scalar str_of_missing;
              clean_phones str_of_scalar str_of_missing; final_review w ] ->
     step t = (out, inr t') -> rect t') /\
  (forall step out t',
     step ∈ [ exact_duplicates; key_duplicates; dropna_customer_id ] ->
     step t = (out, inr t') ->
     exists mask, length mask = nrows t /\ t' = keep_rows mask t) /\
  (forall out t',
     transform unicode_lower str_of_scalar str_of_missing parse_datetime t = (out, inr t') ->
     rect t') /\
  (forall out t0, load w = (out, inr t0) -> fs w !! INPUT_FILE = Some (Workbook t0)) /\
  length (to_csv csv_of_scalar t) = S (nrows t) /\
  Forall (fun record => length record = length (columns t)) (to_csv csv_of_scalar t).
Proof.
  intros Hr. split_and!.
  - intros step out t' Hstep Hrun. by eapply rect_step.
  - intros step out t' Hstep Hrun.
    repeat (apply elem_of_cons in Hstep as [->|Hstep]); [..|by apply elem_of_nil in Hstep].
    + by eapply exact_duplicates_mask.
    + by eapply key_duplicates_mask.
    + destruct (dropna_customer_id_mask _ _ _ Hrun) as [_ ->].
      eexists. split; [apply notna_customer_id_length|done].
  - intros out t' Hrun. by eapply rect_transform.
  - apply load_result.
  - unfold to_csv. cbn [length]. by rewrite transpose_length.
  - unfold to_csv. constructor; [done|].
    eapply Forall_impl; [apply transpose_widths|].
    intros r ->. unfold columns. by rewrite !length_fmap.
Qed.

End Invariant.

(** ** Assignment to one column *)

Section Assign.
Implicit Types (t df : Table) (name : pystr) (vs ws : list value).

Lemma labelled_assign_ne name name' ws t :
  name ≠ name' -> labelled name' (assign name ws t) = labelled name' t.
Proof.
  intros Hne. unfold labelled, assign. induction t as [|c t IH]; [done|].
  rewrite fmap_cons, !filter_cons, IH. cbn [fst].
  destruct (decide (c.1 = name)) as [Hc|Hc]; cbn [fst]; [|done].
  rewrite !decide_False; congruence.
Qed.

Lemma labelled_assign_eq name ws t :
  labelled name (assign name ws t) = (fun _ => (name, ws)) <$> labelled name t.
Proof.
  unfold labelled, assign. induction t as [|c t IH]; [done|].
  rewrite fmap_cons, !filter_cons, IH. cbn [fst].
  destruct (decide (c.1 = name)) as [Hc|Hc]; cbn [fst].
  - by rewrite decide_True.
  - by rewrite decide_False.
Qed.

Lemma series_assign_ne name name' ws t :
  name ≠ name' -> series name' (assign name ws t) = series name' t.
Proof. intros Hne. unfold series. by rewrite labelled_assign_ne. Qed.

Lemma series_assign_eq name vs ws t :
  series name t = Some vs -> series name (assign name ws t) = Some ws.
Proof.
  intros Hs%series_labelled. unfold series. by rewrite labelled_assign_eq, Hs.
Qed.

Lemma elem_of_assign_ne name ws t c : c ∈ assign name ws t -> c.1 ≠ name -> c ∈ t.
Proof.
  unfold assign. intros (c0 & -> & Hc0)%list_elem_of_fmap Hne.
  destruct (decide (c0.1 = name)); [done|]. done.
Qed.

Lemma series_absent name t : name ∉ columns t -> series name t = None.
Proof.
  intros Hn. unfold series.
  destruct (labelled name t) as [|c l] eqn:Hl; [done|]. exfalso. apply Hn.
  assert (Hc : c ∈ labelled name t) by (rewrite Hl; left).
  apply list_elem_of_filter in Hc as [<- Hc].
  unfold columns. apply list_elem_of_fmap. by exists c.
Qed.

End Assign.

(** ** Dates *)

Section Dates.
Variable parse_datetime : list value -> value -> option Z.

Lemma to_datetime_lookup col i v :
  col !! i = Some v ->
  to_datetime parse_datetime col !! i =
    Some match v with
         | NaN => NaN
         | Timestamp ns => Timestamp ns
         | _ => match parse_datetime col v with
                | Some ns => Timestamp ns
                | None => NaN
                end
         end.
Proof. intros Hi. unfold to_datetime. by rewrite list_lookup_fmap, Hi. Qed.

(** A column that already has the datetime dtype is a fixed point. *)
Lemma to_datetime_datetime64 col :
  is_datetime64 col = true -> to_datetime parse_datetime col = col.
Proof.
  unfold is_datetime64. intros [Hall _]%andb_prop.
  unfold to_datetime. trans (id <$> col); [|apply list_fmap_id].
  apply list_fmap_ext. intros i v Hi.
  assert (Hv : v ∈ col) by (by eapply list_elem_of_lookup_2).
  rewrite forallb_forall in Hall. apply list_elem_of_In, Hall in Hv.
  by destruct v.
Qed.

(** C8.  Type normalization (Step 8): where the table has aligned columns
    and one 'subscription_date' column, the step returns a table with the
    same row count; the column now holds, entry by entry, the date the parser finds,
    and a missing value where the parser finds none; dates and missing
    values already there stay; no other column changes. *)
Theorem type_normalization (df : Table) (vs : list value) :
  rect df ->
  series (py "subscription_date") df = Some vs ->
  exists out df',
    convert_dates parse_datetime df = (out, inr df') /\
    nrows df' = nrows df /\
    rect df' /\
    series (py "subscription_date") df' = Some (to_datetime parse_datetime vs) /\
    length (to_datetime parse_datetime vs) = length vs /\
    (forall i v, vs !! i = Some v ->
       to_datetime parse_datetime vs !! i =
         Some match v with
              | NaN => NaN
              | Timestamp ns => Timestamp ns
              | _ => match parse_datetime vs v with
                     | Some ns => Timestamp ns
                     | None => NaN
                     end
              end) /\
    (forall i v, vs !! i = Some v -> (forall ns, v ≠ Timestamp ns) ->
       parse_datetime vs v = None -> to_datetime parse_datetime vs !! i = Some NaN) /\
    (forall name, name ≠ py "subscription_date" -> labelled name df' = labelled name df).
Proof.
  intros Hr Hs.
  assert (Hlen : length (to_datetime parse_datetime vs) = length vs).
  { unfold to_datetime. by rewrite length_fmap. }
  assert (Hfail : forall i v, vs !! i = Some v -> (forall ns, v ≠ Timestamp ns) ->
    parse_datetime vs v = None -> to_datetime parse_datetime vs !! i = Some NaN).
  { intros i v Hi Hts Hnone. rewrite (to_datetime_lookup _ _ _ Hi).
    destruct v; try done; [by rewrite Hnone..|by destruct (Hts ns)]. }
  unfold convert_dates. rewrite decide_True by by eapply series_columns.
  rewrite Hs. destruct (is_datetime64 vs) eqn:Hd; run_simpl.
  - eexists _, df. split_and!; try done.
    + by rewrite to_datetime_datetime64.
    + apply to_datetime_lookup.
  - eexists _, _. split_and!; try done.
    + apply nrows_assign. rewrite Hlen. by eapply series_length.
    + apply rect_assign; [done|]. rewrite Hlen. by eapply series_length.
    + by eapply series_assign_eq.
    + apply to_datetime_lookup.
    + intros name Hne. by apply labelled_assign_ne.
Qed.

End Dates.

(** ** The text loops *)

Section TextLoops.
Variable unicode_lower : pystr -> pystr.
Variable str_of_scalar : list value -> value -> pystr.
Variable str_of_missing : option (list value -> pystr).
Variable parse_datetime : list value -> value -> option Z.
Implicit Types (df : Table) (col : pystr) (f : pystr -> pystr).

Lemma update_text_present f col df vs :
  series col df = Some vs ->
  update_text str_of_scalar str_of_missing f col df
  = ([], inr (assign col ((fun v => str_map f (astype_str str_of_scalar str_of_missing vs v))
                            <$> vs) df)).
Proof.
  intros Hs. unfold update_text.
  rewrite decide_True by by eapply series_columns. by rewrite Hs.
Qed.

Lemma update_text_absent f col df :
  col ∉ columns df -> update_text str_of_scalar str_of_missing f col df = ([], inr df).
Proof. intros Hn. unfold update_text. by rewrite decide_False. Qed.

Lemma update_text_unique f col df out df' :
  update_text str_of_scalar str_of_missing f col df = (out, inr df') ->
  col ∈ columns df -> exists vs, series col df = Some vs.
Proof.
  unfold update_text. intros Hrun Hin. rewrite decide_True in Hrun by done.
  destruct (series col df); [by eexists|done].
Qed.

Lemma update_text_columns f col df out df' :
  update_text str_of_scalar str_of_missing f col df = (out, inr df') -> columns df' = columns df.
Proof.
  intros [->|(vs & _ & ->)]%update_text_result; [done|]. apply columns_assign.
Qed.

Lemma update_text_series_ne f col col' df out df' :
  update_text str_of_scalar str_of_missing f col df = (out, inr df') ->
  col ≠ col' -> series col' df' = series col' df.
Proof.
  intros [->|(vs & _ & ->)]%update_text_result Hne; [done|].
  by apply series_assign_ne.
Qed.

Lemma for_each_inv names body df out df' name :
  for_each (name :: names) body df = (out, inr df') ->
  exists o1 df1 o2,
    body name df = (o1, inr df1) /\ for_each names body df1 = (o2, inr df').
Proof.
  cbn [for_each]. intros (o1 & df1 & o2 & ? & ? & _)%bind_inv. by exists o1, df1, o2.
Qed.

Lemma for_each_update_columns f names df out df' :
  for_each names (update_text str_of_scalar str_of_missing f) df = (out, inr df') ->
  columns df' = columns df.
Proof.
  intros Hrun.
  eapply (for_each_keeps (fun d => columns d = columns df)); [|exact Hrun|done].
  intros name d o d' _ Hd <-. by eapply update_text_columns.
Qed.

(** After a loop over distinct labels a column the loop names holds the
    texts computed from its cells before the loop; any other column is as
    before. *)
Lemma for_each_update_series f names df out df' :
  NoDup names ->
  for_each names (update_text str_of_scalar str_of_missing f) df = (out, inr df') ->
  forall col vs, series col df = Some vs ->
    series col df' =
      Some (if decide (col ∈ names)
            then (fun v => str_map f (astype_str str_of_scalar str_of_missing vs v)) <$> vs
            else vs).
Proof.
  intros Hnd; revert df out. induction Hnd as [|name names Hname Hnd IH];
    intros df out Hrun col vs Hs.
  - cbn in Hrun. unfold mret, run_ret in Hrun. simplify_eq.
    by rewrite decide_False by apply not_elem_of_nil.
  - apply for_each_inv in Hrun as (o1 & df1 & o2 & Hbody & Hrest).
    destruct (decide (col = name)) as [->|Hne].
    + rewrite (update_text_present _ _ _ _ Hs) in Hbody. simplify_eq.
      rewrite decide_True by left.
      erewrite (IH _ _ Hrest); [|by eapply series_assign_eq].
      by rewrite decide_False.
    + erewrite (IH _ _ Hrest);
        [|by rewrite (update_text_series_ne _ _ _ _ _ _ Hbody)].
      destruct (decide (col ∈ names)) as [Hin|Hin].
      * by rewrite decide_True by by right.
      * rewrite decide_False; [done|]. by intros [?|?]%elem_of_cons.
Qed.

(** A loop that returns found every label it names at most once. *)
Lemma for_each_update_unique f names df out df' col :
  NoDup names ->
  for_each names (update_text str_of_scalar str_of_missing f) df = (out, inr df') ->
  col ∈ names -> col ∈ columns df -> exists vs, series col df = Some vs.
Proof.
  intros Hnd; revert df out. induction Hnd as [|name names Hname Hnd IH];
    intros df out Hrun Hcol Hin; [by apply elem_of_nil in Hcol|].
  apply for_each_inv in Hrun as (o1 & df1 & o2 & Hbody & Hrest).
  apply elem_of_cons in Hcol as [->|Hcol].
  - by eapply update_text_unique.
  - assert (Hne : name ≠ col) by (intros ->; done).
    rewrite <- (update_text_series_ne _ _ _ _ _ _ Hbody Hne).
    eapply IH; [done..|]. by rewrite (update_text_columns _ _ _ _ _ Hbody).
Qed.

Lemma elem_of_series df col vs c :
  series col df = Some vs -> c ∈ df -> c.1 = col -> c = (col, vs).
Proof.
  intros Hs%series_labelled Hc Hl.
  assert (Hin : c ∈ labelled col df) by (by apply list_elem_of_filter).
  rewrite Hs in Hin. by apply list_elem_of_singleton in Hin.
Qed.

Lemma elem_of_columns df c : c ∈ df -> c.1 ∈ columns df.
Proof. intros Hc. unfold columns. apply list_elem_of_fmap. by exists c. Qed.

(** The columns a text loop names hold texts made by the loop's function. *)
Lemma for_each_update_cells f names df out df' c :
  NoDup names ->
  for_each names (update_text str_of_scalar str_of_missing f) df = (out, inr df') ->
  c ∈ df' -> c.1 ∈ names ->
  exists vs, series c.1 df = Some vs /\
             c.2 = (fun v => str_map f (astype_str str_of_scalar str_of_missing vs v)) <$> vs.
Proof.
  intros Hnd Hrun Hc Hin.
  assert (Hcol : c.1 ∈ columns df).
  { rewrite <- (for_each_update_columns _ _ _ _ _ Hrun). by apply elem_of_columns. }
  destruct (for_each_update_unique _ _ _ _ _ _ Hnd Hrun Hin Hcol) as [vs Hs].
  exists vs. split; [done|].
  assert (Hs' := for_each_update_series _ _ _ _ _ Hnd Hrun _ _ Hs).
  rewrite decide_True in Hs' by done.
  by rewrite (elem_of_series _ _ _ _ Hs' Hc eq_refl).
Qed.

Lemma NoDup_phone_cols : NoDup phone_cols.
Proof. apply (bool_decide_unpack (NoDup phone_cols)). vm_compute. exact I. Qed.

Lemma NoDup_text_columns : NoDup text_columns.
Proof. apply (bool_decide_unpack (NoDup text_columns)). vm_compute. exact I. Qed.




(** What a loop of step 6 leaves in a cell: a missing cell where the cell
    was missing and [astype(str)] keeps it so, else the text of the cell
    with the loop's function applied. *)
Lemma str_map_astype_cases f vs v :
  (v = NaN /\ str_of_missing = None /\
   str_map f (astype_str str_of_scalar str_of_missing vs v) = NaN) \/
  exists s, astype_str str_of_scalar str_of_missing vs v = Str s /\
            str_map f (astype_str str_of_scalar str_of_missing vs v) = Str (f s).
Proof.
  destruct v as [|s|z|ns]; cbn; [|right; by eexists..].
  destruct str_of_missing as [missing|]; cbn; [right; by eexists|by left].
Qed.


End TextLoops.

(** ** The written records *)

Section Written.
Variable unicode_lower : pystr -> pystr.
Variable str_of_scalar : list value -> value -> pystr.
Variable str_of_missing : option (list value -> pystr).
Variable csv_of_scalar : list value -> value -> pystr.
Variable parse_datetime : list value -> value -> option Z.
Implicit Types (df : Table) (col : pystr).

(** The field written for the cell of row [i] in the column at position [k]. *)
Lemma to_csv_field df k name vs i v :
  rect df -> df !! k = Some (name, vs) -> vs !! i = Some v ->
  exists record,
    to_csv csv_of_scalar df !! S i = Some record /\
    record !! k = Some (csv_field csv_of_scalar vs v).
Proof.
  intros Hr Hk Hi.
  assert (Hlen : length vs = nrows df).
  { apply (rect_elem_of df (name, vs) Hr). by eapply list_elem_of_lookup_2. }
  assert (Hlt : i < nrows df).
  { rewrite <- Hlen. by eapply lookup_lt_Some. }
  unfold to_csv. rewrite lookup_cons.
  rewrite (transpose_lookup _ _ _ _ Hlt). eexists. split; [done|].
  rewrite list_lookup_fmap. rewrite list_lookup_fmap. rewrite Hk. cbn. f_equal.
  apply nth_lookup_Some. by rewrite list_lookup_fmap, Hi.
Qed.

(** The same for a column known by its label, when the labels stand where
    they stood in an earlier table. *)
Lemma to_csv_field_of_series df0 df k col vs0 vs i v :
  rect df -> columns df = columns df0 -> df0 !! k = Some (col, vs0) ->
  series col df = Some vs -> vs !! i = Some v ->
  exists record,
    to_csv csv_of_scalar df !! S i = Some record /\
    record !! k = Some (csv_field csv_of_scalar vs v).
Proof.
  intros Hr Hcols Hk Hs Hi.
  assert (Hl : columns df !! k = Some col).
  { rewrite Hcols. unfold columns. by rewrite list_lookup_fmap, Hk. }
  unfold columns in Hl. rewrite list_lookup_fmap in Hl.
  destruct (df !! k) as [c|] eqn:Hc; [|done]. cbn in Hl. simplify_eq.
  assert (Hin : c ∈ df) by by eapply list_elem_of_lookup_2.
  rewrite (elem_of_series _ _ _ _ Hs Hin eq_refl) in Hc.
  by eapply to_csv_field.
Qed.

Lemma standardize_text_series df out df' col vs :
  standardize_text unicode_lower str_of_scalar str_of_missing df = (out, inr df') ->
  series col df = Some vs ->
  series col df' =
    Some (if decide (col ∈ text_columns)
          then (fun v => str_map (fun s => Text.strip (Text.lower unicode_lower s))
                                            (astype_str str_of_scalar str_of_missing vs v)) <$> vs
          else vs).
Proof.
  intros [out' Hloop]%standardize_text_loop Hs.
  by rewrite (for_each_update_series _ _ _ _ _ _ _ NoDup_text_columns Hloop _ _ Hs).
Qed.

Lemma clean_phones_series df out df' col vs :
  clean_phones str_of_scalar str_of_missing df = (out, inr df') ->
  series col df = Some vs ->
  series col df' =
    Some (if decide (col ∈ phone_cols)
          then (fun v => str_map Text.remove_non_digits
                           (astype_str str_of_scalar str_of_missing vs v)) <$> vs
          else vs).
Proof.
  intros [out' Hloop]%clean_phones_loop Hs.
  by rewrite (for_each_update_series _ _ _ _ _ _ _ NoDup_phone_cols Hloop _ _ Hs).
Qed.

Lemma standardize_text_columns df out df' :
  standardize_text unicode_lower str_of_scalar str_of_missing df = (out, inr df') ->
  columns df' = columns df.
Proof. intros [out' Hloop]%standardize_text_loop. by eapply for_each_update_columns. Qed.

Lemma clean_phones_columns df out df' :
  clean_phones str_of_scalar str_of_missing df = (out, inr df') -> columns df' = columns df.
Proof. intros [out' Hloop]%clean_phones_loop. by eapply for_each_update_columns. Qed.

End Written.

(** ** Missing values *)

Lemma missing_emails_zero vs : missing_emails vs = 0 <-> NaN ∉ vs.
Proof.
  unfold missing_emails. induction vs as [|v vs IH].
  { split; [intros _; apply not_elem_of_nil|done]. }
  rewrite fmap_cons, count_true_cons, not_elem_of_cons.
  destruct v; cbn [isna]; [split; [lia|naive_solver]|rewrite IH; naive_solver..].
Qed.

Lemma fillna_lookup fill vs i v :
  vs !! i = Some v -> fillna fill vs !! i = Some (if isna v then Str fill else v).
Proof. intros Hi. unfold fillna. by rewrite list_lookup_fmap, Hi. Qed.

Lemma fill_email_columns df out df' :
  fill_email df = (out, inr df') -> columns df' = columns df.
Proof.
  intros [->|(vs & _ & ->)]%fill_email_result; [done|]. apply columns_assign.
Qed.

Lemma convert_dates_columns pd df out df' :
  convert_dates pd df = (out, inr df') -> columns df' = columns df.
Proof.
  intros [->|(vs & _ & ->)]%convert_dates_result; [done|]. apply columns_assign.
Qed.

Lemma convert_dates_series_ne pd df out df' name :
  convert_dates pd df = (out, inr df') ->
  name ≠ py "subscription_date" -> series name df' = series name df.
Proof.
  intros [->|(vs & _ & ->)]%convert_dates_result Hne; [done|].
  by apply series_assign_ne.
Qed.

Section Fill.
Variable unicode_lower : pystr -> pystr.
Variable str_of_scalar : list value -> value -> pystr.
Variable str_of_missing : option (list value -> pystr).
Variable csv_of_scalar : list value -> value -> pystr.
Variable parse_datetime : list value -> value -> option Z.

Lemma fill_email_filled df vs :
  series (py "email") df = Some vs -> NaN ∈ vs ->
  fill_email df
  = ([LineN "Filled " (missing_emails vs) " missing 'email' values with 'N/A'."],
     inr (assign (py "email") (fillna (py "N/A") vs) df)).
Proof.
  intros Hs Hnan. unfold fill_email.
  rewrite decide_True by by eapply series_columns. rewrite Hs.
  rewrite decide_True; [done|].
  destruct (missing_emails vs) eqn:Hm; [|lia]. by apply missing_emails_zero in Hm.
Qed.

(** C5 (as amended).  Default-fill (Step 7): the step prints nothing
    and changes nothing when the table has no 'email' column or the column
    has no missing cell; otherwise it reports the count and puts the text
    'N/A' in every missing cell of the column, leaving the other cells.  The
    text loop of Step 9 lowercases the column afterwards, so a cell filled
    this way is written to the file as 'n/a'. *)
Theorem default_fill :
  (forall df, py "email" ∉ columns df -> fill_email df = ([], inr df)) /\
  (forall df vs,
     series (py "email") df = Some vs -> NaN ∉ vs -> fill_email df = ([], inr df)) /\
  (forall df vs,
     series (py "email") df = Some vs -> NaN ∈ vs ->
     fill_email df
     = ([LineN "Filled " (missing_emails vs) " missing 'email' values with 'N/A'."],
        inr (assign (py "email") (fillna (py "N/A") vs) df)) /\
     series (py "email") (assign (py "email") (fillna (py "N/A") vs) df)
     = Some (fillna (py "N/A") vs)) /\
  (forall vs i v,
     vs !! i = Some v ->
     fillna (py "N/A") vs !! i = Some (if isna v then Str (py "N/A") else v)) /\
  (forall df out df' k vs i,
     rect df -> df !! k = Some (py "email", vs) ->
     series (py "email") df = Some vs -> vs !! i = Some NaN ->
     (df1 ← fill_email df;
      df2 ← convert_dates parse_datetime df1;
      df3 ← standardize_text unicode_lower str_of_scalar str_of_missing df2;
      clean_phones str_of_scalar str_of_missing df3) = (out, inr df') ->
     exists record,
       to_csv csv_of_scalar df' !! S i = Some record /\ record !! k = Some (py "n/a")).
Proof.
  split_and!.
  - intros df Hn. unfold fill_email. by rewrite decide_False.
  - intros df vs Hs Hn. unfold fill_email.
    rewrite decide_True by by eapply series_columns. rewrite Hs.
    apply missing_emails_zero in Hn. rewrite decide_False by lia. done.
  - intros df vs Hs Hn. split; [by apply fill_email_filled|].
    by eapply series_assign_eq.
  - apply fillna_lookup.
  - intros df out df' k vs i Hr Hk Hs Hi Hrun.
    assert (Hnan : NaN ∈ vs) by by eapply list_elem_of_lookup_2.
    rewrite (fill_email_filled _ _ Hs Hnan) in Hrun.
    apply bind_inv in Hrun as (? & df1 & ? & [= <- <-] & Hrun & _).
    apply bind_inv in Hrun as (? & df2 & ? & Hdates & Hrun & _).
    apply bind_inv in Hrun as (? & df3 & ? & Hstd & Hph & _).
    pose (w := {| openpyxl := true; fs := ∅ |}).
    set (df1 := assign (py "email") (fillna (py "N/A") vs) df) in *.
    assert (Hr1 : rect df1).
    { apply rect_assign; [done|]. unfold fillna. rewrite length_fmap.
      by eapply series_length. }
    assert (Hr2 : rect df2).
    { eapply (rect_step unicode_lower str_of_scalar str_of_missing parse_datetime w df1);
        [|exact Hdates|done]. set_solver. }
    assert (Hr3 : rect df3).
    { eapply (rect_step unicode_lower str_of_scalar str_of_missing parse_datetime w df2);
        [|exact Hstd|done]. set_solver. }
    assert (Hr' : rect df').
    { eapply (rect_step unicode_lower str_of_scalar str_of_missing parse_datetime w df3);
        [|exact Hph|done]. set_solver. }
    assert (Hcols : columns df' = columns df).
    { rewrite (clean_phones_columns _ _ _ _ _ Hph),
        (standardize_text_columns _ _ _ _ _ _ Hstd),
        (convert_dates_columns _ _ _ _ Hdates). apply columns_assign. }
    assert (Hs1 : series (py "email") df1 = Some (fillna (py "N/A") vs))
      by by eapply series_assign_eq.
    assert (Hs2 : series (py "email") df2 = Some (fillna (py "N/A") vs)).
    { by rewrite (convert_dates_series_ne _ _ _ _ _ Hdates). }
    assert (Hs3 := standardize_text_series _ _ _ _ _ _ _ _ Hstd Hs2).
    rewrite decide_True in Hs3 by (by vm_compute; set_solver).
    assert (Hs' := clean_phones_series _ _ _ _ _ _ _ Hph Hs3).
    rewrite decide_False in Hs'.
    2:{ intros Hin. vm_compute in Hin. set_solver. }
    edestruct (to_csv_field_of_series csv_of_scalar df df' k (py "email") vs)
      as (record & Hrec & Hfield); [done..| |].
    { rewrite list_lookup_fmap, (fillna_lookup _ _ _ _ Hi). cbn. reflexivity. }
    exists record. split; [done|]. by rewrite Hfield.
Qed.

End Fill.

(** ** Missing identifiers *)

Lemma notna_spec (key : list value) :
  forallb (fun v => negb (isna v)) key = bool_decide (NaN ∉ key).
Proof.
  induction key as [|v key IH]; [done|]. cbn [forallb]. rewrite IH.
  destruct v; cbn [isna negb andb].
  - symmetry. apply bool_decide_eq_false_2. intros Hn. apply Hn. left.
  - apply bool_decide_ext. rewrite not_elem_of_cons. naive_solver.
  - apply bool_decide_ext. rewrite not_elem_of_cons. naive_solver.
  - apply bool_decide_ext. rewrite not_elem_of_cons. naive_solver.
Qed.

(** A column that takes part in the mask has no missing cell left. *)
Lemma notna_select n (cs : list (list value)) vs :
  vs ∈ cs ->
  NaN ∉ select (forallb (fun v => negb (isna v)) <$> transpose NaN n cs) vs.
Proof.
  revert cs vs; induction n as [|n IH]; intros cs vs Hvs; [apply not_elem_of_nil|].
  cbn [transpose fmap list_fmap]. destruct vs as [|v vs]; [apply not_elem_of_nil|].
  assert (Htl : vs ∈ tail <$> cs).
  { apply list_elem_of_fmap. by exists (v :: vs). }
  cbn [select]. destruct (forallb _ (hd NaN <$> cs)) eqn:Hall; [|by apply IH].
  apply not_elem_of_cons. split; [|by apply IH].
  rewrite forallb_forall in Hall.
  assert (Hv : In v (hd NaN <$> cs)).
  { apply list_elem_of_In, list_elem_of_fmap. by exists (v :: vs). }
  apply Hall in Hv. by destruct v.
Qed.

Lemma no_missing_id_assign name ws df :
  name ≠ py "customer_id" -> no_missing_id df -> no_missing_id (assign name ws df).
Proof.
  intros Hne Hq c Hc Hl. apply Hq; [|done].
  eapply elem_of_assign_ne; [done|]. congruence.
Qed.

Lemma dropna_customer_id_no_missing df out df' :
  dropna_customer_id df = (out, inr df') -> no_missing_id df'.
Proof.
  intros [_ ->]%dropna_customer_id_mask c Hc Hl.
  unfold keep_rows in Hc. apply list_elem_of_fmap in Hc as (c0 & -> & Hc0).
  cbn in *. unfold notna_customer_id, key_rows. apply notna_select.
  apply list_elem_of_fmap. exists c0. split; [done|].
  by apply list_elem_of_filter.
Qed.

Section Required.
Variable unicode_lower : pystr -> pystr.
Variable str_of_scalar : list value -> value -> pystr.
Variable str_of_missing : option (list value -> pystr).
Variable parse_datetime : list value -> value -> option Z.

Lemma normalize_customer_id : normalize_name unicode_lower (py "Customer Id") = py "customer_id".
Proof. reflexivity. Qed.

Lemma update_text_no_missing f col df out df' :
  col ≠ py "customer_id" ->
  update_text str_of_scalar str_of_missing f col df = (out, inr df') ->
  no_missing_id df -> no_missing_id df'.
Proof.
  intros Hne [->|(vs & _ & ->)]%update_text_result Hq; [done|].
  by apply no_missing_id_assign.
Qed.

Lemma text_columns_not_id col : col ∈ text_columns -> col ≠ py "customer_id".
Proof. intros Hin ->. vm_compute in Hin. set_solver. Qed.

Lemma phone_cols_text col : col ∈ phone_cols -> col ∈ text_columns.
Proof. intros Hin. vm_compute in Hin |- *. set_solver. Qed.

Lemma exact_duplicates_cases t out t' :
  exact_duplicates t = (out, inr t') -> t' = drop_duplicates (rows t) t \/ t' = t.
Proof. unfold exact_duplicates. intros Hrun. run_inv Hrun; eauto. Qed.

Lemma exact_duplicates_columns t out t' :
  exact_duplicates t = (out, inr t') -> columns t' = columns t.
Proof.
  intros [->| ->]%exact_duplicates_cases; [|done].
  unfold drop_duplicates. apply columns_keep_rows.
Qed.

(** The first row is never a duplicate. *)
Lemma nrows_drop_duplicates_pos keys (t : Table) :
  0 < nrows t -> length keys = nrows t -> 0 < nrows (drop_duplicates keys t).
Proof.
  intros Hn Hlen. destruct t as [|[l vs] t]; [cbn in Hn; lia|].
  cbn in Hn, Hlen. destruct vs as [|v vs]; [cbn in Hn; lia|].
  destruct keys as [|k ks]; [cbn in Hlen; lia|].
  unfold drop_duplicates, duplicated. cbn.
  rewrite bool_decide_eq_false_2 by apply not_elem_of_nil. cbn. lia.
Qed.

Lemma exact_duplicates_nonempty t out t' :
  exact_duplicates t = (out, inr t') -> 0 < nrows t -> 0 < nrows t'.
Proof.
  intros [->| ->]%exact_duplicates_cases Hn; [|done].
  apply nrows_drop_duplicates_pos; [done|apply rows_length].
Qed.

(** The columns after the second deduplication are those before it. *)
Lemma key_duplicates_columns t out t' :
  key_duplicates t = (out, inr t') -> columns t' = columns t.
Proof.
  unfold key_duplicates. intros Hrun. run_inv Hrun; [done| |done].
  unfold drop_duplicates. apply columns_keep_rows.
Qed.

(** The identifier label through the column management. *)
Lemma customer_id_renamed t3 t4 o3 o4 (t : Table) :
  py "Customer Id" ∈ columns t ->
  drop_index t = (o3, inr t3) -> rename_columns unicode_lower t3 = (o4, inr t4) ->
  py "customer_id" ∈ columns t4.
Proof.
  intros Hin Hidx Hren.
  rewrite (rename_columns_result _ _ _ _ Hren), (drop_index_result _ _ _ Hidx).
  unfold columns in *. apply list_elem_of_fmap in Hin as (c & Hl & Hc).
  rewrite <- list_fmap_compose. apply list_elem_of_fmap. exists c. split.
  - cbn. by rewrite <- Hl.
  - apply list_elem_of_filter. split; [|done]. rewrite <- Hl. done.
Qed.

(** C3.  Required-field filtering (Step 6): on a table with a
    'customer_id' column the step prints its header and either the number
    of rows it drops or that it found none, and returns the rows in which
    no cell under that label is missing; without the column it raises
    [KeyError].  In its result the column is there and none of its cells
    is missing, and so it is in the table the whole transformation returns.
    The table that reaches the step has the column whenever the sheet has a
    data row or a 'Customer Id' column (on a sheet with a data row the
    second deduplication returns only with the column). *)
Theorem required_field_filtering :
  (forall df, py "customer_id" ∈ columns df ->
     dropna_customer_id df
     = ([ Line "--- 4. Missing Value Handling ---";
          if decide (0 < rows_dropped df)
          then LineN "Dropped " (rows_dropped df) " rows with a missing 'customer_id'."
          else Line "No rows with missing customer_id found." ],
        inr (keep_rows (notna_customer_id df) df))) /\
  (forall df, py "customer_id" ∉ columns df ->
     dropna_customer_id df = ([ Line "--- 4. Missing Value Handling ---" ], inl KeyError)) /\
  (forall df i key,
     key_rows (py "customer_id") df !! i = Some key ->
     notna_customer_id df !! i = Some (bool_decide (NaN ∉ key))) /\
  (forall df out df',
     dropna_customer_id df = (out, inr df') ->
     py "customer_id" ∈ columns df' /\
     forall c, c ∈ df' -> c.1 = py "customer_id" -> NaN ∉ c.2) /\
  (forall t out df,
     0 < nrows t \/ py "Customer Id" ∈ columns t ->
     (d ← exact_duplicates t; d ← key_duplicates d; d ← drop_index d;
      rename_columns unicode_lower d) = (out, inr df) ->
     py "Customer Id" ∈ columns t /\ py "customer_id" ∈ columns df) /\
  (forall t out df',
     transform unicode_lower str_of_scalar str_of_missing parse_datetime t = (out, inr df') ->
     py "customer_id" ∈ columns df' /\
     forall c, c ∈ df' -> c.1 = py "customer_id" -> NaN ∉ c.2).
Proof.
  assert (Hstep : forall df out df',
    dropna_customer_id df = (out, inr df') -> py "customer_id" ∈ columns df').
  { intros df out df' Hrun. unfold dropna_customer_id in Hrun.
    destruct (decide (py "customer_id" ∈ columns df)) as [Hin|Hin].
    - run_inv Hrun; by rewrite columns_keep_rows.
    - by run_inv Hrun. }
  split_and!.
  - intros df Hin. unfold dropna_customer_id. rewrite decide_True by done.
    by case_decide.
  - intros df Hin. unfold dropna_customer_id. by rewrite decide_False.
  - intros df i key Hi. unfold notna_customer_id.
    by rewrite list_lookup_fmap, Hi, <- notna_spec.
  - intros df out df' Hrun. split; [by eapply Hstep|].
    by eapply dropna_customer_id_no_missing.
  - intros t out df Hor Hrun.
    apply bind_inv in Hrun as (? & t1 & ? & Hex & Hrun & _).
    apply bind_inv in Hrun as (? & t2 & ? & Hkey & Hrun & _).
    apply bind_inv in Hrun as (? & t3 & ? & Hidx & Hren & _).
    assert (Hin : py "Customer Id" ∈ columns t).
    { destruct Hor as [Hn|Hin]; [|done].
      rewrite <- (exact_duplicates_columns _ _ _ Hex).
      eapply key_duplicates_label; [exact Hkey|]. by eapply exact_duplicates_nonempty. }
    split; [done|]. eapply customer_id_renamed; [|exact Hidx|exact Hren].
    by rewrite (key_duplicates_columns _ _ _ Hkey), (exact_duplicates_columns _ _ _ Hex).
  - intros t out df' Hrun. unfold transform in Hrun.
    do 4 (apply bind_inv in Hrun as (? & ? & ? & _ & Hrun & _); cbn beta in Hrun).
    apply bind_inv in Hrun as (? & df5 & ? & Hdrop & Hrun & _).
    assert (Hid := Hstep _ _ _ Hdrop).
    apply dropna_customer_id_no_missing in Hdrop.
    apply bind_inv in Hrun as (? & df6 & ? & Hfill & Hrun & _).
    apply bind_inv in Hrun as (? & df7 & ? & Hdates & Hrun & _).
    apply bind_inv in Hrun as (? & df8 & ? & Hstd & Hph & _).
    assert (H6 : no_missing_id df6 /\ columns df6 = columns df5).
    { destruct (fill_email_result _ _ _ Hfill) as [->|(vs & _ & ->)]; [done|].
      split; [by apply no_missing_id_assign|apply columns_assign]. }
    destruct H6 as [H6 E6].
    assert (H7 : no_missing_id df7 /\ columns df7 = columns df6).
    { destruct (convert_dates_result _ _ _ _ Hdates) as [->|(vs & _ & ->)]; [done|].
      split; [by apply no_missing_id_assign|apply columns_assign]. }
    destruct H7 as [H7 E7].
    apply standardize_text_loop in Hstd as [o8 Hstd].
    apply clean_phones_loop in Hph as [o9 Hph].
    assert (H8 : no_missing_id df8).
    { eapply (for_each_keeps no_missing_id); [|exact Hstd|done].
      intros col d o' d' Hcol. by apply update_text_no_missing, text_columns_not_id. }
    split.
    + rewrite (for_each_update_columns _ _ _ _ _ _ _ Hph).
      rewrite (for_each_update_columns _ _ _ _ _ _ _ Hstd).
      by rewrite E7, E6.
    + eapply (for_each_keeps no_missing_id); [|exact Hph|done].
      intros col d o' d' Hcol.
      by apply update_text_no_missing, text_columns_not_id, phone_cols_text.
Qed.

End Required.

(** ** The error handler *)

Section Handler.
Variable unicode_lower : pystr -> pystr.
Variable str_of_scalar : list value -> value -> pystr.
Variable str_of_missing : option (list value -> pystr).
Variable csv_of_scalar : list value -> value -> pystr.
Variable parse_datetime : list value -> value -> option Z.

(** C6.  Error handling: whatever is raised before [to_csv], by the load,
    by a transformation or by the final review, is caught; the run prints,
    after what it had printed, the two lines of the first handler for a
    [FileNotFoundError], the four lines of the second for a
    [ModuleNotFoundError], and for anything else the line that shows the
    error and the line that asks to check the column names; it ends with exit
    status 0 and leaves every file, the output file among them, as it found
    it.  A run that finds no input file prints the two lines of the first
    handler and nothing else. *)
Theorem error_handling (w : world) (out : list output) (e : exn) :
  clean unicode_lower str_of_scalar str_of_missing parse_datetime w = (out, inl e) ->
  let r := main unicode_lower str_of_scalar str_of_missing csv_of_scalar parse_datetime w in
  final r = w /\
  fs (final r) !! OUTPUT_FILE = fs w !! OUTPUT_FILE /\
  exit_code r = 0%Z /\
  console r
  = out ++
    match e with
    | FileNotFoundError =>
        [ Line "Error: The file 'customers-100.xlsx' was not found.";
          Line "Please make sure the file is in the same folder as your script." ]
    | ModuleNotFoundError =>
        [ Line "--- ERROR ---";
          Line "You are missing the 'openpyxl' library, which is needed to read Excel files.";
          Line "Please install it by running this command in your terminal:";
          Line "pip install openpyxl" ]
    | ImportError | KeyError | ValueError | AttributeError =>
        [ LineE "An error occurred: " e;
          Line "Please check your column names and file contents." ]
    end /\
  (fs w !! INPUT_FILE = None ->
   e = FileNotFoundError /\
   console r
   = [ Line "Error: The file 'customers-100.xlsx' was not found.";
       Line "Please make sure the file is in the same folder as your script." ]).
Proof.
  intros Hrun. unfold main. rewrite Hrun. cbn [console final exit_code].
  assert (Hlines : handler e = match e with
    | FileNotFoundError =>
        [ Line "Error: The file 'customers-100.xlsx' was not found.";
          Line "Please make sure the file is in the same folder as your script." ]
    | ModuleNotFoundError =>
        [ Line "--- ERROR ---";
          Line "You are missing the 'openpyxl' library, which is needed to read Excel files.";
          Line "Please install it by running this command in your terminal:";
          Line "pip install openpyxl" ]
    | ImportError | KeyError | ValueError | AttributeError =>
        [ LineE "An error occurred: " e;
          Line "Please check your column names and file contents." ]
    end) by by destruct e.
  split_and!; [done|done|done|by rewrite Hlines|].
  intros Hnone. revert Hrun. unfold clean, load, read_excel. rewrite Hnone.
  run_simpl. by intros [= <- <-].
Qed.

(** A run that does reach [to_csv] writes the whole table, and only then. *)
Lemma main_success (w : world) (out : list output) (df : Table) :
  clean unicode_lower str_of_scalar str_of_missing parse_datetime w = (out, inr df) ->
  final (main unicode_lower str_of_scalar str_of_missing csv_of_scalar parse_datetime w)
  = write_file OUTPUT_FILE (Csv (to_csv csv_of_scalar df)) w.
Proof. intros Hrun. unfold main. by rewrite Hrun. Qed.

End Handler.

(** ** Labels after the renaming *)

Section Tidy.
Variable unicode_lower : pystr -> pystr.
Implicit Types (s l : pystr) (c : N).

Lemma rev_reverse {A} (xs : list A) : rev xs = reverse xs.
Proof. apply rev_alt. Qed.

Lemma lstrip_head s c : head (Text.lstrip s) = Some c -> Text.is_space c = false.
Proof.
  induction s as [|c0 s IH]; [done|]. cbn [Text.lstrip].
  destruct (Text.is_space c0) eqn:Hc0; [done|]. by intros [= <-].
Qed.

Lemma lstrip_suffix s : Text.lstrip s `suffix_of` s.
Proof.
  induction s as [|c0 s IH]; [done|]. cbn [Text.lstrip].
  destruct (Text.is_space c0); [by apply suffix_cons_r|done].
Qed.

Lemma lstrip_id s :
  (forall c, head s = Some c -> Text.is_space c = false) -> Text.lstrip s = s.
Proof. destruct s as [|c0 s]; [done|]. intros H. cbn. by rewrite (H c0). Qed.

Lemma strip_last s c : last (Text.strip s) = Some c -> Text.is_space c = false.
Proof. unfold Text.strip. rewrite !rev_reverse, last_reverse. apply lstrip_head. Qed.

Lemma strip_head s c : head (Text.strip s) = Some c -> Text.is_space c = false.
Proof.
  unfold Text.strip. rewrite !rev_reverse, head_reverse. intros Hlast.
  destruct (lstrip_suffix (reverse (Text.lstrip s))) as [p Hp].
  apply (lstrip_head s). rewrite <- last_reverse, Hp.
  by apply last_app_Some; left.
Qed.

Lemma elem_of_strip s c : c ∈ Text.strip s -> c ∈ s.
Proof.
  unfold Text.strip. rewrite !rev_reverse, elem_of_reverse. intros Hc.
  assert (Hc1 := elem_of_suffix _ _ _ Hc (lstrip_suffix _)).
  rewrite elem_of_reverse in Hc1.
  exact (elem_of_suffix _ _ _ Hc1 (lstrip_suffix s)).
Qed.

Lemma strip_id s :
  (forall c, head s = Some c -> Text.is_space c = false) ->
  (forall c, last s = Some c -> Text.is_space c = false) ->
  Text.strip s = s.
Proof.
  intros Hh Hl. unfold Text.strip. rewrite (lstrip_id s Hh), !rev_reverse.
  rewrite lstrip_id; [apply reverse_involutive|].
  intros c. rewrite head_reverse. apply Hl.
Qed.

Lemma lower_ascii s :
  forallb Text.is_ascii s = true -> Text.lower unicode_lower s = Text.ascii_lower <$> s.
Proof. intros H. unfold Text.lower. by rewrite H. Qed.

Lemma is_space_32 c : Text.is_space c = false -> c ≠ 32%N.
Proof. by intros H ->. Qed.

(** The renaming of an ASCII label gives a tidy label. *)
Lemma normalize_tidy l :
  forallb Text.is_ascii l = true -> tidy (normalize_name unicode_lower l).
Proof.
  intros Hascii. unfold normalize_name. rewrite (lower_ascii _ Hascii).
  set (s := Text.strip (Text.ascii_lower <$> l)).
  assert (Hs : Forall (fun c => (c < 128)%N /\ ~ (65 <= c <= 90)%N) s).
  { apply Forall_forall. intros c Hc%elem_of_strip.
    apply list_elem_of_fmap in Hc as (c0 & -> & Hc0).
    rewrite forallb_forall in Hascii. apply list_elem_of_In, Hascii in Hc0.
    unfold Text.is_ascii in Hc0. apply N.ltb_lt in Hc0. unfold Text.ascii_lower.
    destruct ((65 <=? c0)%N && (c0 <=? 90)%N) eqn:Hup.
    - apply andb_prop in Hup as [?%N.leb_le ?%N.leb_le]. lia.
    - apply andb_false_iff in Hup as [?%N.leb_gt|?%N.leb_gt]; lia. }
  unfold tidy, Text.replace_space. split_and!.
  - rewrite Forall_fmap. eapply Forall_impl; [exact Hs|].
    intros c [? ?]. cbn. destruct (c =? 32)%N eqn:Hc; [lia|].
    apply N.eqb_neq in Hc. done.
  - intros c. destruct s as [|c0 s'] eqn:Hseq; [done|]. cbn. intros [= <-].
    assert (H0 : Text.is_space c0 = false).
    { apply (strip_head (Text.ascii_lower <$> l)). fold s. by rewrite Hseq. }
    apply is_space_32 in H0 as Hne. apply N.eqb_neq in Hne. by rewrite Hne.
  - intros c. rewrite fmap_last. destruct (last s) as [c0|] eqn:Hlast; [|done].
    cbn. intros [= <-].
    assert (H0 : Text.is_space c0 = false).
    { by apply (strip_last (Text.ascii_lower <$> l)). }
    apply is_space_32 in H0 as Hne. apply N.eqb_neq in Hne. by rewrite Hne.
Qed.

(** The renaming leaves a tidy label as it is. *)
Lemma tidy_normalize l : tidy l -> normalize_name unicode_lower l = l.
Proof.
  intros (Hall & Hh & Hl). unfold normalize_name.
  assert (Hascii : forallb Text.is_ascii l = true).
  { apply forallb_forall. intros c Hc%list_elem_of_In.
    rewrite Forall_forall in Hall. apply Hall in Hc as [? _].
    by apply N.ltb_lt. }
  assert (Hlow : Text.ascii_lower <$> l = l).
  { trans (id <$> l); [|apply list_fmap_id]. apply Forall_fmap_ext_1.
    eapply Forall_impl; [exact Hall|]. intros c (_ & Hup & _). cbn.
    unfold Text.ascii_lower. destruct ((65 <=? c)%N && (c <=? 90)%N) eqn:H; [|done].
    apply andb_prop in H as [?%N.leb_le ?%N.leb_le]. lia. }
  rewrite (lower_ascii _ Hascii), Hlow, (strip_id _ Hh Hl).
  unfold Text.replace_space. trans (id <$> l); [|apply list_fmap_id].
  apply Forall_fmap_ext_1. eapply Forall_impl; [exact Hall|].
  intros c (_ & _ & Hne). cbn. apply N.eqb_neq in Hne. by rewrite Hne.
Qed.

Lemma tidy_no_capital l c : tidy l -> c ∈ l -> ~ (65 <= c <= 90)%N.
Proof.
  intros (Hall & _) Hc. rewrite Forall_forall in Hall. by apply Hall in Hc as (_ & ? & _).
Qed.

Lemma tidy_not_Index l : tidy l -> l ≠ py "Index".
Proof.
  intros Ht ->. apply (tidy_no_capital _ 73%N Ht); [|lia].
  vm_compute. left.
Qed.

Lemma tidy_not_Customer_Id l : tidy l -> l ≠ py "Customer Id".
Proof.
  intros Ht ->. apply (tidy_no_capital _ 67%N Ht); [|lia].
  vm_compute. left.
Qed.

End Tidy.

(** ** What the transformation leaves behind *)

Lemma fmap_eq_elem {A B} (f g : A -> B) (xs : list A) x :
  f <$> xs = g <$> xs -> x ∈ xs -> f x = g x.
Proof.
  induction xs as [|x0 xs IH]; intros Heq Hx; [by apply elem_of_nil in Hx|].
  injection Heq as H0 Hrest. apply elem_of_cons in Hx as [->|Hx]; auto.
Qed.

(** Rows that differ in one column differ. *)
Lemma NoDup_transpose {A} (d : A) n (cs : list (list A)) c :
  c ∈ cs -> NoDup c -> length c = n -> NoDup (transpose d n cs).
Proof.
  intros Hc Hnd Hlen. apply NoDup_alt. intros i j r Hi Hj.
  assert (Hin : i < n).
  { rewrite <- (transpose_length d n cs). by eapply lookup_lt_Some. }
  assert (Hjn : j < n).
  { rewrite <- (transpose_length d n cs). by eapply lookup_lt_Some. }
  rewrite (transpose_lookup d n cs i Hin) in Hi.
  rewrite (transpose_lookup d n cs j Hjn) in Hj.
  injection Hi as <-. injection Hj as Hj.
  assert (Heq := fmap_eq_elem _ _ _ _ Hj Hc). cbn in Heq.
  destruct (lookup_lt_is_Some_2 c i) as [x Hx]; [lia|].
  destruct (lookup_lt_is_Some_2 c j) as [y Hy]; [lia|].
  rewrite (nth_lookup_Some _ _ _ _ Hx), (nth_lookup_Some _ _ _ _ Hy) in Heq. subst y.
  by eapply (proj1 (NoDup_alt c) Hnd).
Qed.

Lemma elem_of_assign_other name ws (t : Table) (c : column) :
  c ∈ t -> c.1 ≠ name -> c ∈ assign name ws t.
Proof.
  intros Hc Hne. unfold assign. apply list_elem_of_fmap. exists c.
  by rewrite decide_False.
Qed.

Lemma NoDup_series (t : Table) name :
  NoDup (columns t) -> name ∈ columns t -> exists vs, series name t = Some vs.
Proof.
  unfold columns, series, labelled.
  induction t as [|c t IH]; intros Hnd Hin; [by apply elem_of_nil in Hin|].
  rewrite fmap_cons in Hnd, Hin. apply NoDup_cons in Hnd as [Hc Hnd].
  rewrite filter_cons. apply elem_of_cons in Hin as [->|Hin].
  - rewrite decide_True by done.
    assert (Hnone : filter (fun c0 : column => c0.1 = c.1) t = []).
    { destruct (filter _ t) as [|c1 l] eqn:Hf; [done|]. exfalso. apply Hc.
      assert (H1 : c1 ∈ filter (fun c0 : column => c0.1 = c.1) t) by (rewrite Hf; left).
      apply list_elem_of_filter in H1 as [<- H1]. apply list_elem_of_fmap. by exists c1. }
    rewrite Hnone. by eexists.
  - rewrite decide_False; [by apply IH|]. intros Heq. apply Hc. by rewrite Heq.
Qed.

Lemma columns_filter_label (P : pystr -> Prop) `{!forall l, Decision (P l)} (t : Table) :
  columns (filter (fun c : column => P c.1) t) = filter P (columns t).
Proof.
  unfold columns. induction t as [|c t IH]; [done|].
  rewrite fmap_cons, !filter_cons. case_decide; by rewrite ?fmap_cons, IH.
Qed.

Lemma fill_email_unique df out df' :
  fill_email df = (out, inr df') ->
  py "email" ∈ columns df -> exists vs, series (py "email") df = Some vs.
Proof.
  unfold fill_email. intros Hrun Hin. rewrite decide_True in Hrun by done.
  destruct (series (py "email") df); [by eexists|done].
Qed.

Lemma fillna_no_missing fill vs : NaN ∉ fillna fill vs.
Proof. unfold fillna. intros (v & Hv & _)%list_elem_of_fmap. by destruct v. Qed.

(** After the fill no email is missing. *)
Lemma fill_email_no_missing df out df' vs :
  fill_email df = (out, inr df') -> series (py "email") df' = Some vs -> NaN ∉ vs.
Proof.
  unfold fill_email. intros Hrun Hs. run_inv Hrun.
  - erewrite series_assign_eq in Hs by done. simplify_eq. apply fillna_no_missing.
  - simplify_eq. apply missing_emails_zero. lia.
  - by apply series_columns in Hs.
Qed.

Lemma notna_all (df : Table) :
  rect df -> no_missing_id df -> Forall (fun b => b = true) (notna_customer_id df).
Proof.
  intros Hr Hq. apply Forall_forall. intros b Hb.
  apply list_elem_of_lookup in Hb as [i Hi].
  assert (Hlt : i < nrows df).
  { rewrite <- (notna_customer_id_length df). by eapply lookup_lt_Some. }
  unfold notna_customer_id, key_rows in Hi.
  rewrite list_lookup_fmap, (transpose_lookup _ _ _ _ Hlt) in Hi. cbn in Hi.
  simplify_eq. apply forallb_forall. intros v Hv%list_elem_of_In.
  apply list_elem_of_fmap in Hv as (vs & -> & Hvs).
  apply list_elem_of_fmap in Hvs as (c & -> & Hc).
  apply list_elem_of_filter in Hc as [Hl Hc].
  assert (Hlen : length c.2 = nrows df) by by apply rect_elem_of.
  destruct (lookup_lt_is_Some_2 c.2 i) as [x Hx]; [lia|].
  rewrite (nth_lookup_Some _ _ _ _ Hx).
  assert (Hn : NaN ∉ c.2) by by apply Hq.
  destruct x; try done. exfalso. apply Hn. by eapply list_elem_of_lookup_2.
Qed.

Lemma dropna_customer_id_nothing (df : Table) :
  rect df -> no_missing_id df -> py "customer_id" ∈ columns df ->
  rows_dropped df = 0 /\
  dropna_customer_id df
  = ([Line "--- 4. Missing Value Handling ---";
      Line "No rows with missing customer_id found."], inr df).
Proof.
  intros Hr Hq Hin.
  assert (Hkeep : keep_rows (notna_customer_id df) df = df).
  { apply keep_rows_all; [done|by apply notna_all|apply notna_customer_id_length]. }
  assert (H0 : rows_dropped df = 0).
  { unfold rows_dropped. rewrite Hkeep. lia. }
  split; [done|]. unfold dropna_customer_id.
  rewrite decide_True by done. rewrite decide_False by lia. run_simpl.
  by rewrite Hkeep.
Qed.

(** The second pass starts from the cleaned table under the identifier
    label the script looks up. *)
Lemma restore_cells (df : Table) : (restore_id_label df).*2 = df.*2.
Proof. unfold restore_id_label. by rewrite <- list_fmap_compose. Qed.

Lemma restore_rect (df : Table) : rect df -> rect (restore_id_label df).
Proof.
  intros Hr. unfold rect, restore_id_label. rewrite Forall_fmap.
  destruct df as [|c0 df]; [constructor|]. exact Hr.
Qed.

Lemma restore_nrows (df : Table) : nrows (restore_id_label df) = nrows df.
Proof. by destruct df. Qed.

Lemma restore_rows (df : Table) : rows (restore_id_label df) = rows df.
Proof. unfold rows. by rewrite restore_cells, restore_nrows. Qed.

Lemma restore_id_column (df : Table) ids :
  (py "customer_id", ids) ∈ df -> (py "Customer Id", ids) ∈ restore_id_label df.
Proof.
  intros Hc. unfold restore_id_label. apply list_elem_of_fmap.
  exists (py "customer_id", ids). split; [|done]. cbn. by rewrite decide_True.
Qed.

(** ** Row counts through the steps *)

Lemma count_true_negb (mask : list bool) :
  count_true (negb <$> mask) + count_true mask = length mask.
Proof.
  induction mask as [|b mask IH]; [done|].
  rewrite fmap_cons, !count_true_cons. destruct b; cbn [negb length]; lia.
Qed.

Lemma nrows_drop_duplicates keys (t : Table) :
  rect t -> length keys = nrows t ->
  nrows (drop_duplicates keys t) + count_true (duplicated keys) = nrows t.
Proof.
  intros Hr Hlen. unfold drop_duplicates.
  rewrite nrows_keep_rows by (done || by rewrite length_fmap, duplicated_length).
  by rewrite count_true_negb, duplicated_length.
Qed.

Lemma exact_duplicates_nrows (t : Table) out t' :
  rect t -> exact_duplicates t = (out, inr t') ->
  nrows t' + initial_duplicates t = nrows t.
Proof.
  intros Hr Hrun. destruct (exact_duplicates_result t Hr) as [o Hres].
  rewrite Hres in Hrun. injection Hrun as _ <-.
  apply nrows_drop_duplicates; [done|apply rows_length].
Qed.

Lemma key_duplicates_nrows (t : Table) out t' :
  rect t -> key_duplicates t = (out, inr t') ->
  nrows t' + id_duplicates t = nrows t.
Proof.
  intros Hr Hrun. rewrite (key_duplicates_inv _ _ _ Hr Hrun).
  apply nrows_drop_duplicates; [done|apply key_rows_length].
Qed.

Lemma dropna_customer_id_nrows (t : Table) out t' :
  rect t -> dropna_customer_id t = (out, inr t') ->
  nrows t' + rows_dropped t = nrows t.
Proof.
  intros Hr [_ ->]%dropna_customer_id_mask. unfold rows_dropped.
  rewrite nrows_keep_rows by (done || apply notna_customer_id_length).
  assert (H := count_true_le (notna_customer_id t)).
  rewrite notna_customer_id_length in H. lia.
Qed.


Lemma bind_eq {A B} (m : run A) (f : A -> run B) o a o' r :
  m = (o, inr a) -> f a = (o', r) -> m ≫= f = (o ++ o', r).
Proof. intros -> Hf. unfold mbind, run_bind. by rewrite Hf. Qed.

Section RowCount.
Variable unicode_lower : pystr -> pystr.
Variable str_of_scalar : list value -> value -> pystr.
Variable str_of_missing : option (list value -> pystr).
Variable parse_datetime : list value -> value -> option Z.

Lemma update_text_nrows f col (df : Table) out df' :
  update_text str_of_scalar str_of_missing f col df = (out, inr df') ->
  rect df -> nrows df' = nrows df.
Proof.
  intros [->|(vs & Hs & ->)]%update_text_result Hr; [done|].
  apply nrows_assign. rewrite length_fmap. by eapply series_length.
Qed.

Lemma for_each_update_nrows f names (df : Table) out df' :
  for_each names (update_text str_of_scalar str_of_missing f) df = (out, inr df') ->
  rect df -> rect df' /\ nrows df' = nrows df.
Proof.
  intros Hrun Hr.
  eapply (for_each_keeps (fun d => rect d /\ nrows d = nrows df)); [|exact Hrun|done].
  intros name d o d' _ Hd [Hrd <-]. split.
  - by eapply update_text_rect.
  - by eapply update_text_nrows.
Qed.

(** Dropping 'Index' keeps the row count where another column is left to
    count the rows of, as the identifier column is on a table with a row. *)
Lemma drop_index_nrows (t : Table) out t' :
  rect t -> (0 < nrows t -> py "Customer Id" ∈ columns t) ->
  drop_index t = (out, inr t') -> rect t' /\ nrows t' = nrows t.
Proof.
  intros Hr Hin Hrun. rewrite (drop_index_result _ _ _ Hrun).
  assert (Hr' : rect (filter (fun c : column => c.1 ≠ py "Index") t))
    by by apply rect_filter.
  split; [done|].
  destruct (decide (nrows t = 0)) as [Hz|Hnz].
  { rewrite Hz. destruct (filter _ t) as [|c t0] eqn:Hf; [done|].
    assert (Hc : c ∈ t).
    { assert (H : c ∈ filter (fun c : column => c.1 ≠ py "Index") t) by (rewrite Hf; left).
      by apply list_elem_of_filter in H as [_ H]. }
    cbn. by rewrite (rect_elem_of _ c Hr Hc). }
  assert (Hin' : py "Customer Id" ∈ columns t) by (apply Hin; lia).
  unfold columns in Hin'. apply list_elem_of_fmap in Hin' as (c & Hl & Hc).
  assert (Hc' : c ∈ filter (fun c : column => c.1 ≠ py "Index") t).
  { apply list_elem_of_filter. split; [|done]. rewrite <- Hl. by vm_compute. }
  by rewrite <- (rect_elem_of _ c Hr' Hc'), (rect_elem_of _ c Hr Hc).
Qed.

(** The row count of the result is the row count of the sheet less the
    three counts the run reports. *)
Lemma transform_row_count (t : Table) (out : list output) (df : Table) :
  rect t ->
  transform unicode_lower str_of_scalar str_of_missing parse_datetime t = (out, inr df) ->
  exists o1 t1 o4 t4,
    exact_duplicates t = (o1, inr t1) /\
    (d ← key_duplicates t1; d ← drop_index d; rename_columns unicode_lower d)
    = (o4, inr t4) /\
    nrows df + rows_dropped t4 + id_duplicates t1 + initial_duplicates t = nrows t /\
    nrows df <= nrows t.
Proof.
  intros Hr Hrun. unfold transform in Hrun.
  apply bind_inv in Hrun as (o1 & t1 & ? & H1 & Hrun & _).
  apply bind_inv in Hrun as (o2 & t2 & ? & H2 & Hrun & _).
  apply bind_inv in Hrun as (o3 & t3 & ? & H3 & Hrun & _).
  apply bind_inv in Hrun as (o4 & t4 & ? & H4 & Hrun & _).
  apply bind_inv in Hrun as (? & t5 & ? & H5 & Hrun & _).
  apply bind_inv in Hrun as (? & t6 & ? & H6 & Hrun & _).
  apply bind_inv in Hrun as (? & t7 & ? & H7 & Hrun & _).
  apply bind_inv in Hrun as (? & t8 & ? & H8 & H9 & _).
  pose (w := {| openpyxl := true; fs := ∅ |}).
  assert (Hr1 : rect t1).
  { eapply (rect_step unicode_lower str_of_scalar str_of_missing parse_datetime w t);
      [|exact H1|done]. set_solver. }
  assert (Hr2 : rect t2).
  { eapply (rect_step unicode_lower str_of_scalar str_of_missing parse_datetime w t1);
      [|exact H2|done]. set_solver. }
  assert (E2 := key_duplicates_nrows _ _ _ Hr1 H2).
  assert (Hin2 : 0 < nrows t2 -> py "Customer Id" ∈ columns t2).
  { intros Hn. rewrite (key_duplicates_columns _ _ _ H2).
    eapply key_duplicates_label; [exact H2|lia]. }
  destruct (drop_index_nrows t2 _ _ Hr2 Hin2 H3) as [Hr3 Hn3].
  assert (Hr4 : rect t4).
  { eapply (rect_step unicode_lower str_of_scalar str_of_missing parse_datetime w t3);
      [|exact H4|done]. set_solver. }
  assert (Hn4 : nrows t4 = nrows t3).
  { rewrite (rename_columns_result _ _ _ _ H4). apply nrows_relabel. }
  assert (Hr5 : rect t5).
  { eapply (rect_step unicode_lower str_of_scalar str_of_missing parse_datetime w t4);
      [|exact H5|done]. set_solver. }
  assert (Hr6 : rect t6).
  { eapply (rect_step unicode_lower str_of_scalar str_of_missing parse_datetime w t5);
      [|exact H6|done]. set_solver. }
  assert (Hn6 : nrows t6 = nrows t5).
  { destruct (fill_email_result _ _ _ H6) as [->|(vs & Hs & ->)]; [done|].
    apply nrows_assign. unfold fillna. rewrite length_fmap. by eapply series_length. }
  assert (Hr7 : rect t7).
  { eapply (rect_step unicode_lower str_of_scalar str_of_missing parse_datetime w t6);
      [|exact H7|done]. set_solver. }
  assert (Hn7 : nrows t7 = nrows t6).
  { destruct (convert_dates_result _ _ _ _ H7) as [->|(vs & Hs & ->)]; [done|].
    apply nrows_assign. unfold to_datetime. rewrite length_fmap.
    by eapply series_length. }
  apply standardize_text_loop in H8 as [o8 H8].
  destruct (for_each_update_nrows _ _ _ _ _ H8 Hr7) as [Hr8 Hn8].
  apply clean_phones_loop in H9 as [o9 H9].
  destruct (for_each_update_nrows _ _ _ _ _ H9 Hr8) as [_ Hn9].
  assert (E1 := exact_duplicates_nrows _ _ _ Hr H1).
  assert (E5 := dropna_customer_id_nrows _ _ _ Hr4 H5).
  exists o1, t1, (o2 ++ o3 ++ o4), t4. split_and!; [done| |lia..].
  eapply bind_eq; [exact H2|]. eapply bind_eq; [exact H3|].
  exact H4.
Qed.

End RowCount.

Section Summary.
Variable unicode_lower : pystr -> pystr.
Variable str_of_scalar : list value -> value -> pystr.
Variable str_of_missing : option (list value -> pystr).
Variable parse_datetime : list value -> value -> option Z.

Lemma update_text_keeps_column f col df out df' (c : column) :
  update_text str_of_scalar str_of_missing f col df = (out, inr df') ->
  c.1 ≠ col -> c ∈ df -> c ∈ df'.
Proof.
  intros [->|(vs & _ & ->)]%update_text_result Hne Hc; [done|].
  by apply elem_of_assign_other.
Qed.

(** What is known of the table the transformation returns. *)
Lemma transform_summary (t : Table) out df :
  rect t -> NoDup (columns t) ->
  transform unicode_lower str_of_scalar str_of_missing parse_datetime t = (out, inr df) ->
  rect df /\
  columns df
  = normalize_name unicode_lower <$> filter (fun l => l ≠ py "Index") (columns t) /\
  (exists ids, (py "customer_id", ids) ∈ df /\ NoDup ids) /\
  no_missing_id df /\
  (py "email" ∈ columns df ->
   exists vs, series (py "email") df = Some vs /\ NaN ∉ vs).
Proof.
  intros Hr Hnd Hrun. assert (Hrdf := rect_transform _ _ _ _ _ _ _ Hrun Hr).
  assert (Hrun0 := Hrun). unfold transform in Hrun.
  apply bind_inv in Hrun as (? & t1 & ? & H1 & Hrun & _).
  apply bind_inv in Hrun as (? & t2 & ? & H2 & Hrun & _).
  apply bind_inv in Hrun as (? & t3 & ? & H3 & Hrun & _).
  apply bind_inv in Hrun as (? & t4 & ? & H4 & Hrun & _).
  apply bind_inv in Hrun as (? & t5 & ? & H5 & Hrun & _).
  apply bind_inv in Hrun as (? & t6 & ? & H6 & Hrun & _).
  apply bind_inv in Hrun as (? & t7 & ? & H7 & Hrun & _).
  apply bind_inv in Hrun as (? & t8 & ? & H8 & H9 & _).
  pose (w := {| openpyxl := true; fs := ∅ |}).
  assert (Hc5 : columns df = columns t5).
  { rewrite (clean_phones_columns _ _ _ _ _ H9), (standardize_text_columns _ _ _ _ _ _ H8),
      (convert_dates_columns _ _ _ _ H7). by eapply fill_email_columns. }
  split_and!; [done| | | |].
  - rewrite Hc5. destruct (dropna_customer_id_mask _ _ _ H5) as [_ ->].
    rewrite columns_keep_rows, (rename_columns_result _ _ _ _ H4).
    rewrite (drop_index_result _ _ _ H3).
    unfold columns at 1. rewrite <- list_fmap_compose.
    rewrite <- (exact_duplicates_columns _ _ _ H1), <- (key_duplicates_columns _ _ _ H2).
    rewrite <- (columns_filter_label (fun l => l ≠ py "Index")).
    unfold columns. by rewrite <- list_fmap_compose.
  - (* the identifier column *)
    destruct (decide (nrows t = 0)) as [Hz|Hnz].
    { (* a sheet without rows: the column is there and empty *)
      assert (Hid : py "customer_id" ∈ columns df).
      { rewrite Hc5. unfold dropna_customer_id in H5.
        destruct (decide (py "customer_id" ∈ columns t4)); run_inv H5.
        all: by rewrite columns_keep_rows. }
      unfold columns in Hid. apply list_elem_of_fmap in Hid as ([l ids] & Hl & Hc).
      cbn in Hl. subst l. exists ids. split; [done|].
      assert (Hlen := rect_elem_of _ _ Hrdf Hc). cbn in Hlen.
      destruct (transform_row_count unicode_lower str_of_scalar str_of_missing
                  parse_datetime t _ df Hr Hrun0) as (? & ? & ? & ? & _ & _ & _ & Hle).
      destruct ids; [constructor|cbn in Hlen; lia]. }
    assert (Hin1 : py "Customer Id" ∈ columns t1).
    { eapply key_duplicates_label; [exact H2|].
      eapply exact_duplicates_nonempty; [exact H1|lia]. }
    assert (Hin : py "Customer Id" ∈ columns t).
    { by rewrite <- (exact_duplicates_columns _ _ _ H1). }
    destruct (NoDup_series _ _ Hnd Hin) as [ids Hids].
    destruct (exact_duplicates_mask _ _ _ H1 Hr) as (m1 & _ & ->).
    assert (Hr1 : rect (keep_rows m1 t)) by by apply rect_keep_rows.
    assert (Hids1 : series (py "Customer Id") (keep_rows m1 t) = Some (select m1 ids)).
    { by rewrite series_keep_rows, Hids. }
    destruct (key_duplicates_result _ Hr1 Hin1) as [o2 H2'].
    rewrite H2' in H2. injection H2 as _ <-.
    rewrite (key_rows_series _ _ _ Hr1 Hids1) in H3.
    set (ids1 := select m1 ids) in *.
    set (ids2 := select (negb <$> duplicated ids1) ids1).
    assert (Hc2 : (py "Customer Id", ids2)
                    ∈ drop_duplicates ((fun v => [v]) <$> ids1) (keep_rows m1 t)).
    { apply series_elem_of. unfold drop_duplicates.
      by rewrite series_keep_rows, Hids1, (duplicated_fmap (fun v : value => [v]) ids1). }
    assert (Hc4 : (py "customer_id", ids2) ∈ t4).
    { rewrite (rename_columns_result _ _ _ _ H4), (drop_index_result _ _ _ H3).
      apply list_elem_of_fmap. exists (py "Customer Id", ids2). split; [done|].
      apply list_elem_of_filter. split; [|done]. cbn. by vm_compute. }
    destruct (dropna_customer_id_mask _ _ _ H5) as [_ ->].
    set (ids5 := select (notna_customer_id t4) ids2).
    assert (Hc5' : (py "customer_id", ids5) ∈ keep_rows (notna_customer_id t4) t4).
    { unfold keep_rows. apply list_elem_of_fmap. by exists (py "customer_id", ids2). }
    exists ids5. split.
    + assert (Hc6 : (py "customer_id", ids5) ∈ t6).
      { destruct (fill_email_result _ _ _ H6) as [->|(vs & _ & ->)]; [done|].
        by apply elem_of_assign_other. }
      assert (Hc7 : (py "customer_id", ids5) ∈ t7).
      { destruct (convert_dates_result _ _ _ _ H7) as [->|(vs & _ & ->)]; [done|].
        by apply elem_of_assign_other. }
      assert (Hc8 : (py "customer_id", ids5) ∈ t8).
      { apply standardize_text_loop in H8 as [o Hloop].
        eapply (for_each_keeps (fun d => (py "customer_id", ids5) ∈ d));
          [|exact Hloop|done].
        intros col d o' d' Hcol Hd. eapply update_text_keeps_column; [exact Hd|].
        cbn. intros <-. by apply text_columns_not_id in Hcol. }
      apply clean_phones_loop in H9 as [o Hloop].
      eapply (for_each_keeps (fun d => (py "customer_id", ids5) ∈ d));
        [|exact Hloop|done].
      intros col d o' d' Hcol Hd. eapply update_text_keeps_column; [exact Hd|].
      cbn. intros <-. by apply phone_cols_text, text_columns_not_id in Hcol.
    + apply (sublist_NoDup ids5 ids2); [|apply select_sublist].
      apply (NoDup_first ids1).
  - (* no missing identifier *)
    assert (Q5 := dropna_customer_id_no_missing _ _ _ H5).
    assert (Q6 : no_missing_id t6).
    { destruct (fill_email_result _ _ _ H6) as [->|(vs & _ & ->)]; [done|].
      by apply no_missing_id_assign. }
    assert (Q7 : no_missing_id t7).
    { destruct (convert_dates_result _ _ _ _ H7) as [->|(vs & _ & ->)]; [done|].
      by apply no_missing_id_assign. }
    assert (Q8 : no_missing_id t8).
    { apply standardize_text_loop in H8 as [o Hloop].
      eapply (for_each_keeps no_missing_id); [|exact Hloop|done].
      intros col d o' d' Hcol.
      by eapply update_text_no_missing, text_columns_not_id. }
    apply clean_phones_loop in H9 as [o Hloop].
    eapply (for_each_keeps no_missing_id); [|exact Hloop|done].
    intros col d o' d' Hcol.
    by eapply update_text_no_missing, text_columns_not_id, phone_cols_text.
  - (* the email column *)
    intros Hin. rewrite Hc5 in Hin.
    destruct (fill_email_unique _ _ _ H6 Hin) as [vs5 Hs5].
    assert (Hs6 : exists vs6, series (py "email") t6 = Some vs6).
    { destruct (fill_email_result _ _ _ H6) as [->|(vs & Hs & ->)]; [by eexists|].
      eexists. by eapply series_assign_eq. }
    destruct Hs6 as [vs6 Hs6].
    assert (Hs7 : series (py "email") t7 = Some vs6).
    { by rewrite (convert_dates_series_ne _ _ _ _ _ H7). }
    assert (Hs8 := standardize_text_series _ _ _ _ _ _ _ _ H8 Hs7).
    rewrite decide_True in Hs8 by (by vm_compute; set_solver).
    assert (Hs9 := clean_phones_series _ _ _ _ _ _ _ H9 Hs8).
    rewrite decide_False in Hs9.
    2:{ intros Hp. vm_compute in Hp. set_solver. }
    eexists. split; [exact Hs9|].
    assert (Hn6 := fill_email_no_missing _ _ _ _ H6 Hs6).
    intros (v & Hv & Hin6)%list_elem_of_fmap.
    destruct (str_map_astype_cases str_of_scalar str_of_missing
                (fun s => Text.strip (Text.lower unicode_lower s)) vs6 v)
      as [(-> & _)|(s & _ & E)]; [done|].
    rewrite E in Hv. done.
Qed.

End Summary.

(** ** A second pass *)

Section SecondPass.
Variable unicode_lower : pystr -> pystr.
Variable str_of_scalar : list value -> value -> pystr.
Variable str_of_missing : option (list value -> pystr).
Variable parse_datetime : list value -> value -> option Z.

(** C7 (as amended).  Idempotence on the cleaned table itself: take the
    table one run returns from a sheet with aligned columns and distinct
    ASCII labels, give its identifier column the label the script looks up,
    and run the steps again.  No row repeats another and no identifier
    repeats, both deduplications return the table as it is, the renaming
    gives back the cleaned table, no row lacks its identifier, and the email
    step has nothing to fill and prints nothing. *)
Theorem second_pass_in_memory (t : Table) (out : list output) (df : Table) :
  rect t ->
  NoDup (columns t) ->
  Forall (fun l => forallb Text.is_ascii l = true) (columns t) ->
  transform unicode_lower str_of_scalar str_of_missing parse_datetime t = (out, inr df) ->
  let t2 := restore_id_label df in
  initial_duplicates t2 = 0 /\
  id_duplicates t2 = 0 /\
  (exists o,
     (d ← exact_duplicates t2; d ← key_duplicates d; d ← drop_index d;
      rename_columns unicode_lower d) = (o, inr df)) /\
  rows_dropped df = 0 /\
  (exists o, dropna_customer_id df = (o, inr df)) /\
  fill_email df = ([], inr df).
Proof.
  intros Hr Hnd Hascii Hrun t2.
  destruct (transform_summary _ _ _ _ _ _ _ Hr Hnd Hrun)
    as (Hrdf & Hcols & (ids & Hc & Hids) & Hq & Hemail).
  assert (Htidy : forall l, l ∈ columns df -> tidy l).
  { intros l. rewrite Hcols. intros (l0 & -> & Hl0)%list_elem_of_fmap.
    apply normalize_tidy. apply list_elem_of_filter in Hl0 as [_ Hl0].
    rewrite Forall_forall in Hascii. by apply Hascii. }
  assert (Hlen : length ids = nrows df) by apply (rect_elem_of df _ Hrdf Hc).
  assert (Hc2 : (py "Customer Id", ids) ∈ t2) by by apply restore_id_column.
  assert (H1 : initial_duplicates t2 = 0).
  { unfold initial_duplicates, t2. rewrite restore_rows.
    apply NoDup_duplicated_none. unfold rows.
    apply (NoDup_transpose NaN _ _ ids); [|done..].
    apply list_elem_of_fmap. by exists (py "customer_id", ids). }
  assert (H2 : id_duplicates t2 = 0).
  { unfold id_duplicates. apply NoDup_duplicated_none. unfold key_rows.
    apply (NoDup_transpose NaN _ _ ids); [|done|by unfold t2; rewrite restore_nrows].
    apply list_elem_of_fmap. exists (py "Customer Id", ids). split; [done|].
    by apply list_elem_of_filter. }
  assert (Hin : py "customer_id" ∈ columns df).
  { by apply (elem_of_columns df (py "customer_id", ids)). }
  destruct (dropna_customer_id_nothing df Hrdf Hq Hin) as [H4 H4'].
  split_and!; [done|done| |done|by eexists|].
  - eexists.
    eapply bind_eq.
    { unfold exact_duplicates. rewrite decide_False by lia. run_simpl. reflexivity. }
    eapply bind_eq.
    { rewrite key_duplicates_present by apply (elem_of_columns t2 _ Hc2).
      rewrite decide_False by lia. reflexivity. }
    eapply bind_eq.
    { unfold drop_index. rewrite decide_False; [run_simpl; reflexivity|].
      unfold t2, restore_id_label, columns. rewrite <- list_fmap_compose.
      intros (c & Hl & Hcin)%list_elem_of_fmap. cbn [compose fst] in Hl.
      destruct (decide (c.1 = py "customer_id")); [by vm_compute in Hl|].
      eapply tidy_not_Index; [|by symmetry].
      by apply Htidy, elem_of_columns. }
    rewrite rename_columns_present
      by apply (columns_not_nil _ _ (elem_of_columns t2 _ Hc2)).
    do 2 f_equal.
    unfold t2, restore_id_label. rewrite <- list_fmap_compose.
    trans (id <$> df); [|apply list_fmap_id].
    apply Forall_fmap_ext_1, Forall_forall. intros [l vs] Hl.
    cbn [compose fst snd id].
    destruct (decide (l = py "customer_id")) as [->|Hne]; [done|].
    f_equal. apply tidy_normalize. by apply Htidy, (elem_of_columns df (l, vs)).
  - unfold fill_email. destruct (decide (py "email" ∈ columns df)) as [He|He]; [|done].
    destruct (Hemail He) as (vs & Hs & Hn). rewrite Hs.
    apply missing_emails_zero in Hn. by rewrite decide_False by lia.
Qed.

End SecondPass.

(** ** The pipeline on the sample data *)

Abbreviation plain_transform := (transform Plain.lower Plain.scalar Pandas2.missing Plain.parse).
Abbreviation plain_main := (main Plain.lower Plain.scalar Pandas2.missing Plain.scalar Plain.parse).

Example customers_cleaned :
  plain_transform Sample.customers = (Sample.progress, inr Sample.cleaned).
Proof. vm_compute. reflexivity. Qed.

Example customers_written :
  fs (final (plain_main (Sample.world_of Sample.customers))) !! OUTPUT_FILE
  = Some (Csv [ [py "customer_id"; py "first_name"; py "phone_1"; py "email";
                 py "subscription_date"];
                [py "1"; py "ann"; py "15550100000"; py "n/a"; []] ]).
Proof. vm_compute. reflexivity. Qed.

Example lower_strip_ann : Text.strip (Text.lower Plain.lower (py "Ann ")) = py "ann".
Proof. reflexivity. Qed.

Example missing_dependency_message :
  console (plain_main {| openpyxl := false;
                         fs := {[ INPUT_FILE := Workbook Sample.customers ]} |})
  = [ LineE "An error occurred: " ImportError;
      Line "Please check your column names and file contents." ].
Proof. vm_compute. reflexivity. Qed.

(** ** Where the specification and the script part *)


(** C4.  The script on a sheet with one customer who has no first name.
    Where [astype(str)] makes the text 'nan' of a missing cell (pandas
    before 3), the text loop turns the missing first name into that text and
    the record written has the field nan, not an empty field; where
    [astype(str)] keeps the cell missing (pandas 3) the field is empty. *)
Lemma missing_name_written_as_nan :
  series (py "First Name") Sample.anonymous = Some [NaN] /\
  fs (final (main Plain.lower Plain.scalar Pandas2.missing Plain.scalar Plain.parse
               (Sample.world_of Sample.anonymous))) !! OUTPUT_FILE
  = Some (Csv [ [py "customer_id"; py "first_name"; py "email"];
                [py "a"; py "nan"; py "n/a"] ]) /\
  py "nan" ≠ [] /\
  fs (final (main Plain.lower Plain.scalar Pandas3.missing Plain.scalar Plain.parse
               (Sample.world_of Sample.anonymous))) !! OUTPUT_FILE
  = Some (Csv [ [py "customer_id"; py "first_name"; py "email"];
                [py "a"; []; py "n/a"] ]).
Proof. vm_compute. done. Qed.

(** Against C5: the email filled in for the first customer is written as
    'n/a', not as 'N/A'. *)
Lemma filled_email_written_lowercase :
  series (py "Email") Sample.customers = Some [NaN; NaN; Str (py "Bea@X.org"); NaN] /\
  (exists record,
     fs (final (plain_main (Sample.world_of Sample.customers))) !! OUTPUT_FILE
     = Some (Csv [ [py "customer_id"; py "first_name"; py "phone_1"; py "email";
                    py "subscription_date"]; record ]) /\
     record !! 3 = Some (py "n/a")) /\
  py "n/a" ≠ py "N/A".
Proof.
  split_and!.
  - vm_compute. reflexivity.
  - eexists. split; vm_compute; reflexivity.
  - vm_compute. done.
Qed.

(** Against C7: the cleaned table of a customer without email, written and
    read back, has a missing email again, and the second pass fills it. *)
Lemma second_pass_fills_again :
  exists out1 df out2 d,
    plain_transform Sample.anonymous = (out1, inr df) /\
    (d ← exact_duplicates (reingest (to_csv Plain.scalar df));
     d ← key_duplicates d; d ← drop_index d; d ← rename_columns Plain.lower d;
     dropna_customer_id d) = (out2, inr d) /\
    series (py "email") d = Some [NaN] /\
    missing_emails [NaN] = 1 /\
    fill_email d
    = ([LineN "Filled " 1 " missing 'email' values with 'N/A'."],
       inr (assign (py "email") [Str (py "N/A")] d)).
Proof.
  eexists _, _, _, _. split_and!.
  - vm_compute. reflexivity.
  - vm_compute. reflexivity.
  - vm_compute. reflexivity.
  - reflexivity.
  - vm_compute. reflexivity.
Qed.

(** ** The theorems at the sample data *)

Lemma rect_customers : rect Sample.customers.
Proof. repeat constructor. Defined.

Lemma exact_duplicate_removal_witness :
  rect Sample.customers /\
  exists out t',
    exact_duplicates Sample.customers = (out, inr t') /\
    nrows t' = length (remove_dups (rows Sample.customers)) /\
    NoDup (rows t').
Proof.
  split; [exact rect_customers|].
  destruct (exact_duplicate_removal Sample.customers rect_customers)
    as (out & t' & H1 & H2 & H3 & _).
  by exists out, t'.
Defined.

Lemma key_duplicate_removal_witness :
  rect Sample.customers /\
  series (py "Customer Id") Sample.customers
  = Some [Str (py "1"); Str (py "1"); Str (py "1"); NaN] /\
  exists out1 t1 out2 t2,
    exact_duplicates Sample.customers = (out1, inr t1) /\
    key_duplicates t1 = (out2, inr t2) /\
    series (py "Customer Id") t2
    = Some (select (negb <$> duplicated [Str (py "1"); Str (py "1"); Str (py "1"); NaN])
              [Str (py "1"); Str (py "1"); Str (py "1"); NaN]).
Proof.
  assert (Hs : series (py "Customer Id") Sample.customers
               = Some [Str (py "1"); Str (py "1"); Str (py "1"); NaN])
    by (vm_compute; reflexivity).
  split; [exact rect_customers|]. split; [exact Hs|].
  destruct (key_duplicate_removal Sample.customers _ rect_customers Hs)
    as (out1 & t1 & out2 & t2 & H1 & H2 & _ & _ & H3 & _).
  by exists out1, t1, out2, t2.
Defined.

Lemma table_shape_invariant_witness :
  rect Sample.customers /\
  forall out t',
    plain_transform Sample.customers = (out, inr t') -> rect t'.
Proof.
  split; [exact rect_customers|].
  destruct (table_shape_invariant Plain.lower Plain.scalar Pandas2.missing Plain.scalar Plain.parse
              Sample.empty_world Sample.customers rect_customers)
    as (_ & _ & H & _).
  exact H.
Defined.

Lemma type_normalization_witness :
  rect Sample.dated /\
  series (py "subscription_date") Sample.dated
  = Some [Str (py "2021-02-03"); Str (py "soon")] /\
  exists out df',
    convert_dates Sample.parse Sample.dated = (out, inr df') /\
    nrows df' = nrows Sample.dated /\
    series (py "subscription_date") df'
    = Some (to_datetime Sample.parse [Str (py "2021-02-03"); Str (py "soon")]).
Proof.
  assert (Hr : rect Sample.dated) by repeat constructor.
  assert (Hs : series (py "subscription_date") Sample.dated
               = Some [Str (py "2021-02-03"); Str (py "soon")])
    by (vm_compute; reflexivity).
  split; [exact Hr|]. split; [exact Hs|].
  destruct (type_normalization Sample.parse Sample.dated _ Hr Hs)
    as (out & df' & H1 & H2 & _ & H3 & _).
  by exists out, df'.
Defined.

Lemma error_handling_witness :
  clean Plain.lower Plain.scalar Pandas2.missing Plain.parse Sample.empty_world
  = ([], inl FileNotFoundError) /\
  final (plain_main Sample.empty_world) = Sample.empty_world /\
  exit_code (plain_main Sample.empty_world) = 0%Z /\
  console (plain_main Sample.empty_world)
  = [ Line "Error: The file 'customers-100.xlsx' was not found.";
      Line "Please make sure the file is in the same folder as your script." ].
Proof.
  assert (Hc : clean Plain.lower Plain.scalar Pandas2.missing Plain.parse Sample.empty_world
               = ([], inl FileNotFoundError)) by (vm_compute; reflexivity).
  split; [exact Hc|].
  destruct (error_handling Plain.lower Plain.scalar Pandas2.missing Plain.scalar Plain.parse
              Sample.empty_world [] FileNotFoundError Hc) as (H1 & _ & H2 & H3 & _).
  split; [exact H1|]. split; [exact H2|]. exact H3.
Defined.

Lemma second_pass_in_memory_witness :
  rect Sample.customers /\
  NoDup (columns Sample.customers) /\
  Forall (fun l => forallb Text.is_ascii l = true) (columns Sample.customers) /\
  plain_transform Sample.customers = (Sample.progress, inr Sample.cleaned) /\
  initial_duplicates (restore_id_label Sample.cleaned) = 0 /\
  id_duplicates (restore_id_label Sample.cleaned) = 0 /\
  rows_dropped Sample.cleaned = 0 /\
  fill_email Sample.cleaned = ([], inr Sample.cleaned).
Proof.
  assert (Hnd : NoDup (columns Sample.customers)).
  { apply (bool_decide_unpack (NoDup (columns Sample.customers))).
    vm_compute. exact I. }
  assert (Ha : Forall (fun l => forallb Text.is_ascii l = true) (columns Sample.customers)).
  { repeat constructor. }
  assert (Ht : plain_transform Sample.customers = (Sample.progress, inr Sample.cleaned)).
  { vm_compute. reflexivity. }
  destruct (second_pass_in_memory Plain.lower Plain.scalar Pandas2.missing Plain.parse
              Sample.customers Sample.progress Sample.cleaned
              rect_customers Hnd Ha Ht) as (H1 & H2 & _ & H3 & _ & H4).
  split_and!; [exact rect_customers|exact Hnd|exact Ha|exact Ht|
               exact H1|exact H2|exact H3|exact H4].
Defined.


Lemma required_field_filtering_witness :
  dropna_customer_id Sample.renamed
  = ([ Line "--- 4. Missing Value Handling ---";
       LineN "Dropped " 1 " rows with a missing 'customer_id'." ],
     inr [ (py "customer_id", [Str (py "1")]);
           (py "first_name", [Str (py "ann")]) ]).
Proof.
  destruct (required_field_filtering Plain.lower Plain.scalar Pandas2.missing Plain.parse)
    as (H & _).
  rewrite (H Sample.renamed) by (vm_compute; left). vm_compute. reflexivity.
Defined.

Lemma default_fill_witness :
  exists out df' record,
    (df1 ← fill_email Sample.unfilled;
     df2 ← convert_dates Plain.parse df1;
     df3 ← standardize_text Plain.lower Plain.scalar Pandas2.missing df2;
     clean_phones Plain.scalar Pandas2.missing df3) = (out, inr df') /\
    to_csv Plain.scalar df' !! 1 = Some record /\
    record !! 2 = Some (py "n/a").
Proof.
  destruct (df1 ← fill_email Sample.unfilled;
            df2 ← convert_dates Plain.parse df1;
            df3 ← standardize_text Plain.lower Plain.scalar Pandas2.missing df2;
            clean_phones Plain.scalar Pandas2.missing df3) as [out [e|df']] eqn:Hrun;
    [by vm_compute in Hrun|].
  destruct (default_fill Plain.lower Plain.scalar Pandas2.missing Plain.scalar Plain.parse)
    as (_ & _ & _ & _ & H).
  destruct (H Sample.unfilled out df' 2 [NaN] 0) as (record & H1 & H2).
  - repeat constructor.
  - reflexivity.
  - vm_compute. reflexivity.
  - reflexivity.
  - exact Hrun.
  - by exists out, df', record.
Defined.

(** * Further properties of the script *)

(** ** The header of the result and the ways the run can fail *)

Lemma exact_duplicates_returns (t : Table) :
  exists out t', exact_duplicates t = (out, inr t') /\ columns t' = columns t.
Proof.
  unfold exact_duplicates. case_decide; run_simpl; eexists _, _; split; try done.
  apply columns_keep_rows.
Qed.

Lemma key_duplicates_returns (t : Table) :
  py "Customer Id" ∈ columns t ->
  exists out t', key_duplicates t = (out, inr t') /\ columns t' = columns t.
Proof.
  intros Hin. rewrite key_duplicates_present by done.
  case_decide; eexists _, _; split; try done.
  apply columns_keep_rows.
Qed.

Lemma drop_index_returns (t : Table) :
  exists out t',
    drop_index t = (out, inr t') /\
    columns t' = filter (fun l => l ≠ py "Index") (columns t).
Proof.
  destruct (drop_index t) as [out [e|t']] eqn:Hrun.
  - unfold drop_index in Hrun. run_inv Hrun.
  - exists out, t'. split; [done|].
    rewrite (drop_index_result _ _ _ Hrun).
    exact (columns_filter_label (fun l => l ≠ py "Index") t).
Qed.

Section Header.
Variable unicode_lower : pystr -> pystr.
Variable str_of_scalar : list value -> value -> pystr.
Variable str_of_missing : option (list value -> pystr).
Variable csv_of_scalar : list value -> value -> pystr.
Variable parse_datetime : list value -> value -> option Z.

Lemma transform_columns (t : Table) out df :
  transform unicode_lower str_of_scalar str_of_missing parse_datetime t = (out, inr df) ->
  columns df
  = normalize_name unicode_lower <$> filter (fun l => l ≠ py "Index") (columns t).
Proof.
  unfold transform. intros Hrun.
  apply bind_inv in Hrun as (? & t1 & ? & H1 & Hrun & _).
  apply bind_inv in Hrun as (? & t2 & ? & H2 & Hrun & _).
  apply bind_inv in Hrun as (? & t3 & ? & H3 & Hrun & _).
  apply bind_inv in Hrun as (? & t4 & ? & H4 & Hrun & _).
  apply bind_inv in Hrun as (? & t5 & ? & H5 & Hrun & _).
  apply bind_inv in Hrun as (? & t6 & ? & H6 & Hrun & _).
  apply bind_inv in Hrun as (? & t7 & ? & H7 & Hrun & _).
  apply bind_inv in Hrun as (? & t8 & ? & H8 & H9 & _).
  rewrite (clean_phones_columns _ _ _ _ _ H9), (standardize_text_columns _ _ _ _ _ _ H8),
    (convert_dates_columns _ _ _ _ H7), (fill_email_columns _ _ _ H6).
  destruct (dropna_customer_id_mask _ _ _ H5) as [_ ->].
  rewrite columns_keep_rows, (rename_columns_result _ _ _ _ H4).
  rewrite (drop_index_result _ _ _ H3).
  unfold columns at 1. rewrite <- list_fmap_compose.
  rewrite <- (exact_duplicates_columns _ _ _ H1), <- (key_duplicates_columns _ _ _ H2).
  rewrite <- (columns_filter_label (fun l => l ≠ py "Index")).
  unfold columns. by rewrite <- list_fmap_compose.
Qed.

(** X1.  The header of the result: whenever the transformation returns,
    the labels of its result are the labels of the sheet without 'Index'
    (that exact spelling), each renamed, in the order of the sheet; and this
    is the first record of the written file. *)
Theorem output_header (t : Table) (out : list output) (df : Table) :
  transform unicode_lower str_of_scalar str_of_missing parse_datetime t = (out, inr df) ->
  columns df
  = normalize_name unicode_lower <$> filter (fun l => l ≠ py "Index") (columns t) /\
  head (to_csv csv_of_scalar df) = Some (columns df).
Proof. intros Hrun. split; [by eapply transform_columns|done]. Qed.

(** X2.  A sheet with a data row and without a column labelled exactly
    'Customer Id': the transformation prints what the first deduplication
    prints and raises [KeyError] at the second; a run on such a sheet prints
    the catch-all message and leaves every file as it was.  (On a sheet
    without data rows the second deduplication looks no label up.) *)
Theorem missing_identifier_column (t : Table) :
  py "Customer Id" ∉ columns t ->
  0 < nrows t ->
  (exists out, transform unicode_lower str_of_scalar str_of_missing parse_datetime t
               = (out, inl KeyError)) /\
  (forall w, fs w !! INPUT_FILE = Some (Workbook t) -> openpyxl w = true ->
     let r := main unicode_lower str_of_scalar str_of_missing csv_of_scalar parse_datetime w in
     final r = w /\
     exists out,
       console r = out ++ [ LineE "An error occurred: " KeyError;
                            Line "Please check your column names and file contents." ]).
Proof.
  intros Hn Hrow.
  assert (Ht : exists out,
    transform unicode_lower str_of_scalar str_of_missing parse_datetime t = (out, inl KeyError)).
  { destruct (exact_duplicates_returns t) as (o1 & t1 & H1 & Hc1).
    unfold transform, mbind, run_bind. rewrite H1.
    rewrite key_duplicates_absent; [by eexists| |by rewrite Hc1].
    by eapply exact_duplicates_nonempty. }
  split; [done|]. intros w Hfile Hpyxl r. destruct Ht as [out Ht].
  assert (Hclean : exists out',
    clean unicode_lower str_of_scalar str_of_missing parse_datetime w = (out', inl KeyError)).
  { unfold clean, load, read_excel. rewrite Hfile, Hpyxl. run_simpl.
    unfold mbind, run_bind. rewrite Ht. by eexists. }
  destruct Hclean as [out' Hclean]. unfold r, main. rewrite Hclean. cbn.
  split; [done|]. by eexists.
Qed.

Lemma update_text_returns f col (df : Table) :
  NoDup (columns df) ->
  exists df',
    update_text str_of_scalar str_of_missing f col df = ([], inr df') /\ columns df' = columns df.
Proof.
  intros Hnd. destruct (decide (col ∈ columns df)) as [Hin|Hn].
  - destruct (NoDup_series _ _ Hnd Hin) as [vs Hs].
    rewrite (update_text_present _ _ _ _ _ _ Hs). eexists. split; [done|].
    apply columns_assign.
  - rewrite (update_text_absent _ _ _ _ _ Hn). by eexists.
Qed.

Lemma for_each_update_returns f names (df : Table) :
  NoDup (columns df) ->
  exists df',
    for_each names (update_text str_of_scalar str_of_missing f) df = ([], inr df') /\
    columns df' = columns df.
Proof.
  revert df. induction names as [|name names IH]; intros df Hnd.
  - by exists df.
  - destruct (update_text_returns f name df Hnd) as (df1 & H1 & Hc1).
    destruct (IH df1) as (df' & H' & Hc'); [by rewrite Hc1|].
    exists df'. split; [|by rewrite Hc', Hc1].
    cbn [for_each]. unfold mbind, run_bind. by rewrite H1, H'.
Qed.

Lemma transform_returns_columns (t : Table) :
  py "Customer Id" ∈ columns t ->
  NoDup (normalize_name unicode_lower <$> filter (fun l => l ≠ py "Index") (columns t)) ->
  exists out df,
    transform unicode_lower str_of_scalar str_of_missing parse_datetime t = (out, inr df).
Proof.
  intros Hin Hnd.
  destruct (exact_duplicates_returns t) as (o1 & t1 & H1 & Hc1).
  destruct (key_duplicates_returns t1) as (o2 & t2 & H2 & Hc2); [by rewrite Hc1|].
  destruct (drop_index_returns t2) as (o3 & t3 & H3 & Hc3).
  set (L := normalize_name unicode_lower <$> filter (fun l => l ≠ py "Index") (columns t)) in *.
  pose (t4 := (fun c : column => (normalize_name unicode_lower c.1, c.2)) <$> t3).
  assert (Hc4 : columns t4 = L).
  { unfold t4, columns at 1. rewrite <- list_fmap_compose.
    change (normalize_name unicode_lower <$> columns t3 = L) || idtac.
    unfold L. rewrite <- Hc1, <- Hc2, <- Hc3. unfold columns.
    by rewrite <- list_fmap_compose. }
  assert (Hcid : py "customer_id" ∈ L).
  { unfold L. apply list_elem_of_fmap. exists (py "Customer Id"). split; [done|].
    apply list_elem_of_filter. split; [by vm_compute|done]. }
  pose (t5 := keep_rows (notna_customer_id t4) t4).
  assert (Hc5 : columns t5 = L) by (unfold t5; by rewrite columns_keep_rows).
  assert (H5 : exists o5, dropna_customer_id t4 = (o5, inr t5)).
  { unfold dropna_customer_id. rewrite decide_True by by rewrite Hc4.
    case_decide; run_simpl; by eexists. }
  destruct H5 as [o5 H5].
  assert (H6 : exists o6 t6, fill_email t5 = (o6, inr t6) /\ columns t6 = L).
  { unfold fill_email. destruct (decide (py "email" ∈ columns t5)) as [He|He].
    - destruct (NoDup_series t5 (py "email")) as [vs Hs]; [by rewrite Hc5|done|].
      rewrite Hs. case_decide; run_simpl; eexists _, _; split; try done.
      by rewrite columns_assign.
    - by eexists _, _. }
  destruct H6 as (o6 & t6 & H6 & Hc6).
  assert (H7 : exists o7 t7, convert_dates parse_datetime t6 = (o7, inr t7) /\ columns t7 = L).
  { unfold convert_dates.
    destruct (decide (py "subscription_date" ∈ columns t6)) as [He|He].
    - destruct (NoDup_series t6 (py "subscription_date")) as [vs Hs];
        [by rewrite Hc6|done|].
      rewrite Hs. destruct (is_datetime64 vs); run_simpl; eexists _, _; split; try done.
      by rewrite columns_assign.
    - run_simpl. by eexists _, _. }
  destruct H7 as (o7 & t7 & H7 & Hc7).
  destruct (for_each_update_returns
              (fun s => Text.strip (Text.lower unicode_lower s)) text_columns t7)
    as (t8 & H8 & Hc8); [by rewrite Hc7|].
  destruct (for_each_update_returns Text.remove_non_digits phone_cols t8)
    as (t9 & H9 & Hc9); [by rewrite Hc8, Hc7|].
  eexists _, t9. unfold transform.
  eapply bind_eq; [exact H1|]. eapply bind_eq; [exact H2|].
  eapply bind_eq; [exact H3|].
  assert (Hne3 : columns t3 ≠ []).
  { intros Hnil. unfold columns in Hnil. apply fmap_nil_inv in Hnil.
    unfold t4 in Hc4. rewrite Hnil in Hc4. cbn in Hc4. rewrite <- Hc4 in Hcid.
    by apply elem_of_nil in Hcid. }
  eapply bind_eq; [by apply rename_columns_present|].
  fold t4. eapply bind_eq; [exact H5|]. eapply bind_eq; [exact H6|].
  eapply bind_eq; [exact H7|].
  eapply bind_eq; [unfold standardize_text; run_simpl; rewrite H8; reflexivity|].
  unfold clean_phones. run_simpl. rewrite H9. reflexivity.
Qed.

(** X3.  The transformation returns on every sheet that has a column
    labelled 'Customer Id' and whose labels, 'Index' apart, are still
    distinct after the renaming; a run on such a sheet, with the engine
    installed, writes the output file and nothing else. *)
Theorem transform_returns (t : Table) :
  py "Customer Id" ∈ columns t ->
  NoDup (normalize_name unicode_lower <$> filter (fun l => l ≠ py "Index") (columns t)) ->
  (exists out df,
     transform unicode_lower str_of_scalar str_of_missing parse_datetime t = (out, inr df)) /\
  (forall w, fs w !! INPUT_FILE = Some (Workbook t) -> openpyxl w = true ->
     exists df,
       final (main unicode_lower str_of_scalar str_of_missing csv_of_scalar parse_datetime w)
       = write_file OUTPUT_FILE (Csv (to_csv csv_of_scalar df)) w /\
       columns df
       = normalize_name unicode_lower <$> filter (fun l => l ≠ py "Index") (columns t)).
Proof.
  intros Hin Hnd. destruct (transform_returns_columns t Hin Hnd) as (out & df & Ht).
  split; [by eexists _, _|]. intros w Hfile Hpyxl. exists df.
  split; [|by eapply transform_columns].
  assert (Hclean : exists out',
    clean unicode_lower str_of_scalar str_of_missing parse_datetime w = (out', inr df)).
  { unfold clean, load, final_review, read_excel. rewrite Hfile, Hpyxl. run_simpl.
    unfold mbind, run_bind. rewrite Ht. by eexists. }
  destruct Hclean as [out' Hclean]. unfold main. by rewrite Hclean.
Qed.

End Header.

(** ** Row counts *)


Section Accounting.
Variable unicode_lower : pystr -> pystr.
Variable str_of_scalar : list value -> value -> pystr.
Variable str_of_missing : option (list value -> pystr).
Variable parse_datetime : list value -> value -> option Z.


End Accounting.

(** ** The identifier column of the result *)

Lemma select_fmap_filter {A} (f : A -> bool) (xs : list A) :
  select (f <$> xs) xs = filter (fun x => f x = true) xs.
Proof.
  induction xs as [|x xs IH]; [done|].
  rewrite fmap_cons, filter_cons. cbn [select]. rewrite IH.
  destruct (f x) eqn:Hx.
  - by rewrite decide_True.
  - by rewrite decide_False.
Qed.

Lemma notna_customer_id_series (t : Table) ids :
  rect t -> series (py "customer_id") t = Some ids ->
  notna_customer_id t = (fun v => negb (isna v)) <$> ids.
Proof.
  intros Hr Hs. unfold notna_customer_id.
  rewrite (key_rows_series _ _ _ Hr Hs), <- list_fmap_compose.
  apply list_fmap_ext. intros i v _. cbn. apply andb_true_r.
Qed.

(** After both deduplications the identifier column holds the first
    occurrences of the identifiers of the sheet. *)
Lemma dedup_identifiers (t : Table) ids0 o1 t1 o2 t2 :
  rect t -> series (py "Customer Id") t = Some ids0 ->
  exact_duplicates t = (o1, inr t1) -> key_duplicates t1 = (o2, inr t2) ->
  rect t2 /\
  series (py "Customer Id") t2 = Some (select (negb <$> duplicated ids0) ids0).
Proof.
  intros Hr Hids H1 H2. set (name := py "Customer Id") in *.
  destruct (exact_duplicates_result t Hr) as [o1' H1'].
  rewrite H1' in H1. injection H1 as _ <-.
  set (m1 := negb <$> duplicated (rows t)).
  assert (Hr1 : rect (drop_duplicates (rows t) t)) by by apply rect_drop_duplicates.
  assert (Hids1 : series name (drop_duplicates (rows t) t) = Some (select m1 ids0)).
  { unfold drop_duplicates. by rewrite series_keep_rows, Hids. }
  destruct (key_duplicates_result _ Hr1 (series_columns _ _ _ Hids1)) as [o2' H2'].
  fold name in H2'. rewrite H2' in H2. injection H2 as _ <-.
  split; [by apply rect_drop_duplicates|].
  rewrite (key_rows_series _ _ _ Hr1 Hids1).
  unfold drop_duplicates at 1. rewrite series_keep_rows, Hids1.
  rewrite (duplicated_fmap (fun v : value => [v])). cbn. f_equal.
  (* the keys of the rows, before and after the first deduplication *)
  set (f := select (A:=value) ((fun c : column => bool_decide (c.1 = name)) <$> t)).
  assert (Hkeys : f <$> rows t = (fun v => [v]) <$> ids0).
  { unfold f. by rewrite <- key_rows_rows, (key_rows_series _ _ _ Hr Hids). }
  assert (Hc := first_by_key_after_first f [] [] (rows t)). cbn zeta in Hc.
  specialize (Hc ltac:(intros ? Hx; inversion Hx)).
  apply (f_equal (fmap f)) in Hc. rewrite <- !select_fmap in Hc.
  fold (duplicated (rows t)) in Hc. fold m1 in Hc.
  rewrite Hkeys, (select_fmap (fun v : value => [v]) m1 ids0) in Hc.
  rewrite (duplicated_after_fmap (fun v : value => [v]) [] (select m1 ids0)) in Hc.
  rewrite (duplicated_after_fmap (fun v : value => [v]) [] ids0) in Hc.
  rewrite !select_fmap in Hc.
  by apply (inj (fmap (fun v : value => [v]))) in Hc.
Qed.

Section Identifiers.
Variable unicode_lower : pystr -> pystr.
Variable str_of_scalar : list value -> value -> pystr.
Variable str_of_missing : option (list value -> pystr).
Variable parse_datetime : list value -> value -> option Z.

Lemma standardize_text_series_other (df : Table) out df' col :
  standardize_text unicode_lower str_of_scalar str_of_missing df = (out, inr df') ->
  col ∉ text_columns -> series col df' = series col df.
Proof.
  intros [out' Hloop]%standardize_text_loop Hn.
  eapply (for_each_keeps (fun d => series col d = series col df)); [|exact Hloop|done].
  intros name d o d' Hname Hd <-.
  eapply update_text_series_ne; [exact Hd|]. by intros ->.
Qed.

Lemma clean_phones_series_other (df : Table) out df' col :
  clean_phones str_of_scalar str_of_missing df = (out, inr df') ->
  col ∉ phone_cols -> series col df' = series col df.
Proof.
  intros [out' Hloop]%clean_phones_loop Hn.
  eapply (for_each_keeps (fun d => series col d = series col df)); [|exact Hloop|done].
  intros name d o d' Hname Hd <-.
  eapply update_text_series_ne; [exact Hd|]. by intros ->.
Qed.

Lemma fill_email_series_ne (df : Table) out df' col :
  fill_email df = (out, inr df') -> col ≠ py "email" -> series col df' = series col df.
Proof.
  intros [->|(vs & _ & ->)]%fill_email_result Hne; [done|].
  by apply series_assign_ne.
Qed.

(** X6.  The identifier column end to end: on a sheet with aligned columns,
    one 'Customer Id' column, and labels that stay distinct after the
    renaming, the 'customer_id' column of the cleaned table holds the
    identifiers of the sheet as they were written (no case or white-space
    change), each once, in the order of their first occurrence, without the
    missing one. *)
Theorem cleaned_identifiers (t : Table) (ids0 : list value) (out : list output) (df : Table) :
  rect t ->
  series (py "Customer Id") t = Some ids0 ->
  NoDup (normalize_name unicode_lower <$> filter (fun l => l ≠ py "Index") (columns t)) ->
  transform unicode_lower str_of_scalar str_of_missing parse_datetime t = (out, inr df) ->
  series (py "customer_id") df
  = Some (filter (fun v => negb (isna v) = true)
            (select (negb <$> duplicated ids0) ids0)).
Proof.
  intros Hr Hids Hnd Hrun. unfold transform in Hrun.
  apply bind_inv in Hrun as (? & t1 & ? & H1 & Hrun & _).
  apply bind_inv in Hrun as (? & t2 & ? & H2 & Hrun & _).
  apply bind_inv in Hrun as (? & t3 & ? & H3 & Hrun & _).
  apply bind_inv in Hrun as (? & t4 & ? & H4 & Hrun & _).
  apply bind_inv in Hrun as (? & t5 & ? & H5 & Hrun & _).
  apply bind_inv in Hrun as (? & t6 & ? & H6 & Hrun & _).
  apply bind_inv in Hrun as (? & t7 & ? & H7 & Hrun & _).
  apply bind_inv in Hrun as (? & t8 & ? & H8 & H9 & _).
  destruct (dedup_identifiers _ _ _ _ _ _ Hr Hids H1 H2) as [Hr2 Hids2].
  set (ids2 := select (negb <$> duplicated ids0) ids0) in *.
  pose (w := {| openpyxl := true; fs := ∅ |}).
  assert (Hr3 : rect t3).
  { eapply (rect_step unicode_lower str_of_scalar str_of_missing parse_datetime w t2);
      [|exact H3|done]. set_solver. }
  assert (Hr4 : rect t4).
  { eapply (rect_step unicode_lower str_of_scalar str_of_missing parse_datetime w t3);
      [|exact H4|done]. set_solver. }
  assert (Hc4 : columns t4
    = normalize_name unicode_lower <$> filter (fun l => l ≠ py "Index") (columns t)).
  { rewrite (rename_columns_result _ _ _ _ H4), (drop_index_result _ _ _ H3).
    unfold columns at 1. rewrite <- list_fmap_compose.
    rewrite <- (exact_duplicates_columns _ _ _ H1), <- (key_duplicates_columns _ _ _ H2).
    rewrite <- (columns_filter_label (fun l => l ≠ py "Index")).
    unfold columns. by rewrite <- list_fmap_compose. }
  assert (Hin4 : (py "customer_id", ids2) ∈ t4).
  { rewrite (rename_columns_result _ _ _ _ H4), (drop_index_result _ _ _ H3).
    apply list_elem_of_fmap. exists (py "Customer Id", ids2). split; [done|].
    apply list_elem_of_filter. split; [by vm_compute|]. by apply series_elem_of. }
  assert (Hs4 : series (py "customer_id") t4 = Some ids2).
  { destruct (NoDup_series t4 (py "customer_id")) as [vs Hs].
    - by rewrite Hc4.
    - by apply (elem_of_columns t4 (py "customer_id", ids2)).
    - rewrite Hs. f_equal.
      assert (Heq := elem_of_series _ _ _ _ Hs Hin4 eq_refl). by injection Heq. }
  destruct (dropna_customer_id_mask _ _ _ H5) as [_ ->].
  rewrite (clean_phones_series_other _ _ _ _ H9),
    (standardize_text_series_other _ _ _ _ H8),
    (convert_dates_series_ne _ _ _ _ _ H7), (fill_email_series_ne _ _ _ _ H6);
    try (by vm_compute); try (intros Hin; vm_compute in Hin; set_solver).
  rewrite series_keep_rows, Hs4, (notna_customer_id_series _ _ Hr4 Hs4). cbn.
  f_equal. apply (select_fmap_filter (fun v => negb (isna v))).
Qed.

End Identifiers.

(** ** The text loops, once more *)

Lemma assign_same name vs (t : Table) : series name t = Some vs -> assign name vs t = t.
Proof.
  intros Hs. unfold assign. trans (id <$> t); [|apply list_fmap_id].
  apply Forall_fmap_ext_1, Forall_forall. intros c Hc. cbn.
  destruct (decide (c.1 = name)) as [Hl|]; [|done].
  by rewrite (elem_of_series _ _ _ _ Hs Hc Hl).
Qed.

Lemma for_each_fixed names body (df : Table) :
  (forall name, name ∈ names -> body name df = ([], inr df)) ->
  for_each names body df = ([], inr df).
Proof.
  induction names as [|name names IH]; intros Hbody; [done|].
  cbn [for_each]. unfold mbind, run_bind.
  rewrite Hbody by left. rewrite IH; [done|]. intros n Hn. apply Hbody. by right.
Qed.

Lemma remove_non_digits_idem s :
  Text.remove_non_digits (Text.remove_non_digits s) = Text.remove_non_digits s.
Proof.
  unfold Text.remove_non_digits. apply filter_all, Forall_forall.
  intros c Hc. by apply list_elem_of_filter in Hc as [? _].
Qed.

Section TextLoopsMore.
Variable unicode_lower : pystr -> pystr.
Variable str_of_scalar : list value -> value -> pystr.
Variable str_of_missing : option (list value -> pystr).
Variable csv_of_scalar : list value -> value -> pystr.
Variable parse_datetime : list value -> value -> option Z.

(** A text loop that returns has printed nothing. *)
Lemma for_each_update_silent f names (df : Table) out df' :
  for_each names (update_text str_of_scalar str_of_missing f) df = (out, inr df') -> out = [].
Proof.
  revert df out. induction names as [|name names IH]; intros df out Hrun.
  - cbn in Hrun. unfold mret, run_ret in Hrun. by simplify_eq.
  - cbn [for_each] in Hrun. apply bind_inv in Hrun as (o1 & d1 & o2 & H1 & H2 & ->).
    apply IH in H2 as ->.
    unfold update_text in H1. run_inv H1; done.
Qed.

Lemma update_text_fixed f col (df : Table) :
  (col ∈ columns df ->
   exists vs, series col df = Some vs /\
     (fun v => str_map f (astype_str str_of_scalar str_of_missing vs v)) <$> vs = vs) ->
  update_text str_of_scalar str_of_missing f col df = ([], inr df).
Proof.
  intros H. destruct (decide (col ∈ columns df)) as [Hin|Hn].
  - destruct (H Hin) as (vs & Hs & Hfix).
    rewrite (update_text_present _ _ _ _ _ _ Hs), Hfix. by rewrite (assign_same _ _ _ Hs).
  - by apply update_text_absent.
Qed.

Lemma strip_lower_no_capital x ch :
  forallb Text.is_ascii x = true ->
  ch ∈ Text.strip (Text.lower unicode_lower x) -> ~ (65 <= ch <= 90)%N.
Proof.
  intros Hascii Hch. rewrite (lower_ascii _ _ Hascii) in Hch.
  apply elem_of_strip in Hch. apply list_elem_of_fmap in Hch as (c0 & -> & Hc0).
  unfold Text.ascii_lower.
  destruct ((65 <=? c0)%N && (c0 <=? 90)%N) eqn:Hup.
  - apply andb_prop in Hup as [?%N.leb_le ?%N.leb_le]. lia.
  - apply andb_false_iff in Hup as [?%N.leb_gt|?%N.leb_gt]; lia.
Qed.

(** X7.  Text normalization (step 6 A): when the loop returns it has
    printed its two header lines only and kept the labels; each of the nine
    text columns holds, cell by cell, the text of the cell lowercased and
    then stripped, so no cell begins or ends with white space and a cell
    that was ASCII text has no capital letter; a cell of these columns is
    missing only where [astype(str)] keeps missing cells; the series of
    every other label is as before. *)
Theorem text_normalization (df : Table) (out : list output) (df' : Table) :
  standardize_text unicode_lower str_of_scalar str_of_missing df = (out, inr df') ->
  out = [ Line "--- 6. Format Standardization ---";
          Line "Standardizing text columns (lowercase, strip whitespace)..." ] /\
  columns df' = columns df /\
  (forall col vs, col ∈ text_columns -> series col df = Some vs ->
     series col df'
     = Some ((fun v => str_map (fun s => Text.strip (Text.lower unicode_lower s))
                     (astype_str str_of_scalar str_of_missing vs v)) <$> vs)) /\
  (forall col, col ∉ text_columns -> series col df' = series col df) /\
  (forall c : column, c ∈ df' -> c.1 ∈ text_columns ->
     Forall (fun v => (v = NaN /\ str_of_missing = None) \/
               exists s, v = Str s /\
                 (forall ch, head s = Some ch -> Text.is_space ch = false) /\
                 (forall ch, last s = Some ch -> Text.is_space ch = false)) c.2) /\
  (forall x ch, forallb Text.is_ascii x = true ->
     ch ∈ Text.strip (Text.lower unicode_lower x) -> ~ (65 <= ch <= 90)%N).
Proof.
  intros Hrun. split_and!.
  - revert Hrun. unfold standardize_text. run_simpl. intros Hrun.
    destruct (for_each _ _ df) as [o [e|d]] eqn:Hloop; [done|].
    apply for_each_update_silent in Hloop as ->. by simplify_eq.
  - by eapply standardize_text_columns.
  - intros col vs Hin Hs.
    rewrite (standardize_text_series _ _ _ _ _ _ _ _ Hrun Hs). by rewrite decide_True.
  - intros col Hn. by eapply standardize_text_series_other.
  - intros c Hc Hin. apply standardize_text_loop in Hrun as [out' Hloop].
    destruct (for_each_update_cells _ _ _ _ _ _ _ _ NoDup_text_columns Hloop Hc Hin)
      as (vs & _ & ->).
    rewrite Forall_fmap. apply Forall_forall. intros v _. cbn.
    destruct (str_map_astype_cases str_of_scalar str_of_missing
                (fun s => Text.strip (Text.lower unicode_lower s)) vs v)
      as [(_ & Hnone & ->)|(s & _ & ->)]; [by left|right].
    eexists. split; [done|]. split; [apply strip_head|apply strip_last].
  - apply strip_lower_no_capital.
Qed.

Lemma clean_phones_out (df : Table) out df' :
  clean_phones str_of_scalar str_of_missing df = (out, inr df') ->
  out = [ Line "Standardizing phone number columns (removing non-numeric characters)..." ].
Proof.
  unfold clean_phones. run_simpl. intros Hrun.
  destruct (for_each _ _ df) as [o [e|d]] eqn:Hloop; [done|].
  apply for_each_update_silent in Hloop as ->. by simplify_eq.
Qed.

(** X8.  The phone loop is idempotent: run on its own result it returns
    that result again, with the same single line printed. *)
Theorem clean_phones_idempotent (df : Table) (out : list output) (df' : Table) :
  clean_phones str_of_scalar str_of_missing df = (out, inr df') ->
  clean_phones str_of_scalar str_of_missing df' = (out, inr df').
Proof.
  intros Hrun. rewrite (clean_phones_out _ _ _ Hrun).
  apply clean_phones_loop in Hrun as [out' Hloop].
  unfold clean_phones. run_simpl.
  rewrite for_each_fixed; [done|]. intros col Hcol.
  apply update_text_fixed. intros Hin.
  rewrite (for_each_update_columns _ _ _ _ _ _ _ Hloop) in Hin.
  destruct (for_each_update_unique _ _ _ _ _ _ _ _ NoDup_phone_cols Hloop Hcol Hin)
    as [vs Hs].
  assert (Hs' := for_each_update_series _ _ _ _ _ _ _ NoDup_phone_cols Hloop _ _ Hs).
  rewrite decide_True in Hs' by done.
  eexists. split; [exact Hs'|].
  rewrite <- list_fmap_compose. apply list_fmap_ext. intros i v _. cbn.
  destruct (str_map_astype_cases str_of_scalar str_of_missing Text.remove_non_digits vs v)
    as [(_ & Hnone & ->)|(s & _ & ->)].
  - unfold astype_str. by rewrite Hnone.
  - cbn. by rewrite remove_non_digits_idem.
Qed.

(** The cell the two loops of step 6 leave where a phone was missing. *)
Lemma missing_phone_cell vs vs1 vs2 :
  (forall missing, str_of_missing = Some missing ->
     forall c, missing c = py "nan" \/ missing c = py "NaT") ->
  csv_field csv_of_scalar vs2
    (str_map Text.remove_non_digits
       (astype_str str_of_scalar str_of_missing vs1
          (str_map (fun s => Text.strip (Text.lower unicode_lower s))
             (astype_str str_of_scalar str_of_missing vs NaN))))
  = [].
Proof.
  intros Htext. unfold astype_str at 2.
  destruct str_of_missing as [missing|] eqn:Hm; [|done].
  cbn [str_map astype_str].
  destruct (Htext missing eq_refl vs) as [-> | ->]; vm_compute; reflexivity.
Qed.

(** X9.  A missing phone number is written as the empty field.  Where
    [astype(str)] keeps missing cells, the cell stays missing through both
    loops of step 6; where it makes the text 'nan' or 'NaT' of them, the
    text loop leaves that text in lower case and the phone loop, finding no
    digit in it, the empty text. *)
Theorem missing_phone_written_empty (df : Table) out df' k col vs i :
  rect df ->
  (forall missing, str_of_missing = Some missing ->
     forall c, missing c = py "nan" \/ missing c = py "NaT") ->
  (df1 ← standardize_text unicode_lower str_of_scalar str_of_missing df;
   clean_phones str_of_scalar str_of_missing df1) = (out, inr df') ->
  col ∈ phone_cols ->
  df !! k = Some (col, vs) -> series col df = Some vs -> vs !! i = Some NaN ->
  exists record,
    to_csv csv_of_scalar df' !! S i = Some record /\ record !! k = Some [].
Proof. clear parse_datetime.
  intros Hr Htext Hrun Hcol Hk Hs Hi.
  apply bind_inv in Hrun as (o1 & df1 & o2 & Hstd & Hph & _).
  pose (w := {| openpyxl := true; fs := ∅ |}).
  assert (Hr' : rect df').
  { eapply (rect_step unicode_lower str_of_scalar str_of_missing Plain.parse w df1);
      [|exact Hph|]; [set_solver|].
    eapply (rect_step unicode_lower str_of_scalar str_of_missing Plain.parse w df);
      [|exact Hstd|done]. set_solver. }
  assert (Hcols : columns df' = columns df).
  { rewrite (clean_phones_columns _ _ _ _ _ Hph). by eapply standardize_text_columns. }
  assert (Hs1 := standardize_text_series _ _ _ _ _ _ _ _ Hstd Hs).
  rewrite decide_True in Hs1 by by apply phone_cols_text.
  assert (Hs' := clean_phones_series _ _ _ _ _ _ _ Hph Hs1).
  rewrite decide_True in Hs' by done.
  edestruct (to_csv_field_of_series csv_of_scalar df df' k col vs)
    as (record & Hrec & Hfield); [done..| |].
  { rewrite !list_lookup_fmap, Hi. cbn [fmap option_fmap option_map]. reflexivity. }
  exists record. split; [done|]. etrans; [exact Hfield|]. f_equal.
  by apply missing_phone_cell.
Qed.

End TextLoopsMore.

(** ** Steps run twice *)

Section Twice.
Variable parse_datetime : list value -> value -> option Z.

Lemma to_datetime_only_dates vs :
  Forall (fun v => match v with NaN | Timestamp _ => True | _ => False end)
    (to_datetime parse_datetime vs).
Proof.
  unfold to_datetime. rewrite Forall_fmap. apply Forall_forall. intros v _. cbn.
  destruct v; try done; by destruct (parse_datetime vs _).
Qed.

Lemma to_datetime_fixed vs :
  Forall (fun v => match v with NaN | Timestamp _ => True | _ => False end) vs ->
  to_datetime parse_datetime vs = vs.
Proof.
  intros Hall. unfold to_datetime. trans (id <$> vs); [|apply list_fmap_id].
  apply Forall_fmap_ext_1. eapply Forall_impl; [exact Hall|].
  intros v Hv. by destruct v.
Qed.

(** X10.  The date conversion (step 5): when the step returns, the
    'subscription_date' column, if there is one, holds dates and missing
    values only, and the step run again on the result returns the result. *)
Theorem convert_dates_idempotent (df : Table) (out : list output) (df' : Table) :
  convert_dates parse_datetime df = (out, inr df') ->
  (forall vs, series (py "subscription_date") df' = Some vs ->
     Forall (fun v => match v with NaN | Timestamp _ => True | _ => False end) vs) /\
  exists out', convert_dates parse_datetime df' = (out', inr df').
Proof.
  intros Hrun. unfold convert_dates in Hrun.
  destruct (decide (py "subscription_date" ∈ columns df)) as [Hin|Hn].
  - destruct (series (py "subscription_date") df) as [vs|] eqn:Hs;
      [|by run_inv Hrun].
    destruct (is_datetime64 vs) eqn:Hd; run_inv Hrun.
    + split.
      * intros vs' Hs'. rewrite Hs in Hs'. injection Hs' as <-.
        rewrite <- (to_datetime_datetime64 parse_datetime _ Hd).
        apply to_datetime_only_dates.
      * unfold convert_dates. rewrite decide_True by done. rewrite Hs, Hd.
        run_simpl. by eexists.
    + assert (Hs' := series_assign_eq _ _ (to_datetime parse_datetime vs) _ Hs).
      split.
      * intros vs' Hvs'. rewrite Hs' in Hvs'. injection Hvs' as <-.
        apply to_datetime_only_dates.
      * unfold convert_dates.
        rewrite decide_True by (by rewrite columns_assign).
        rewrite Hs'.
        destruct (is_datetime64 (to_datetime parse_datetime vs)); run_simpl;
          [by eexists|].
        rewrite (to_datetime_fixed _ (to_datetime_only_dates vs)).
        rewrite (assign_same _ _ _ Hs'). by eexists.
  - run_inv Hrun. split.
    + intros vs Hs. apply series_columns in Hs. done.
    + unfold convert_dates. rewrite decide_False by done. run_simpl. by eexists.
Qed.

End Twice.

Lemma NoDup_rows_drop_duplicates (t : Table) :
  rect t -> NoDup (rows (drop_duplicates (rows t) t)).
Proof.
  intros Hr. rewrite rows_drop_duplicates by (done || apply rows_length).
  apply NoDup_first.
Qed.

(** X11.  The steps that remove rows find nothing in their own results:
    on a table with aligned columns, the exact-duplicate step run on its
    result reports no duplicate rows and returns it, the identifier step run
    on its result reports no duplicate identifiers and returns it, and the
    missing-identifier step run on its result reports no missing identifier
    and returns it. *)
Theorem row_removal_idempotent (t : Table) :
  rect t ->
  (forall out t', exact_duplicates t = (out, inr t') ->
     exact_duplicates t'
     = ([ Line "--- 2. Deduplication ---"; Line "No fully duplicate rows found." ],
        inr t')) /\
  (forall out t', key_duplicates t = (out, inr t') ->
     key_duplicates t' = ([ Line "No duplicate Customer IDs found." ], inr t')) /\
  (forall out t', dropna_customer_id t = (out, inr t') ->
     dropna_customer_id t'
     = ([ Line "--- 4. Missing Value Handling ---";
          Line "No rows with missing customer_id found." ], inr t')).
Proof.
  intros Hr. split_and!.
  - intros out t' Hrun. destruct (exact_duplicates_result t Hr) as [o Hres].
    rewrite Hres in Hrun. injection Hrun as _ <-.
    assert (H0 : initial_duplicates (drop_duplicates (rows t) t) = 0).
    { apply NoDup_duplicated_none. by apply NoDup_rows_drop_duplicates. }
    unfold exact_duplicates. rewrite decide_False by lia. by run_simpl.
  - intros out t0 Hrun.
    assert (Hn := key_duplicates_nrows _ _ _ Hr Hrun).
    assert (Hc := key_duplicates_columns _ _ _ Hrun).
    destruct (decide (nrows t0 = 0)) as [Hz|Hnz]; [by apply key_duplicates_empty|].
    assert (Hin : py "Customer Id" ∈ columns t).
    { eapply key_duplicates_label; [exact Hrun|lia]. }
    rewrite (key_duplicates_inv _ _ _ Hr Hrun).
    set (t' := drop_duplicates (key_rows (py "Customer Id") t) t).
    assert (H0 : id_duplicates t' = 0).
    { apply NoDup_duplicated_none. unfold t', drop_duplicates.
      rewrite key_rows_keep_rows;
        [|done|by rewrite length_fmap, duplicated_length, key_rows_length].
      apply NoDup_first. }
    rewrite key_duplicates_present
      by (by unfold t', drop_duplicates; rewrite columns_keep_rows).
    by rewrite decide_False by lia.
  - intros out t' Hrun.
    assert (Hq := dropna_customer_id_no_missing _ _ _ Hrun).
    destruct (dropna_customer_id_mask _ _ _ Hrun) as [Hin ->].
    apply dropna_customer_id_nothing; [by apply rect_keep_rows|done|].
    by rewrite columns_keep_rows.
Qed.

(** ** The first deduplication and the second *)

Lemma first_by_key_after_first_by {A G K} `{EqDecision G, EqDecision K}
    (g : A -> G) (h : G -> K) (seenG : list G) (seenK : list K) (xs : list A) :
  (forall k, k ∈ seenG -> h k ∈ seenK) ->
  let xs1 := select (negb <$> duplicated_after seenG (g <$> xs)) xs in
  select (negb <$> duplicated_after seenK ((fun x => h (g x)) <$> xs1)) xs1
  = select (negb <$> duplicated_after seenK ((fun x => h (g x)) <$> xs)) xs.
Proof.
  revert seenG seenK; induction xs as [|x xs IH]; intros seenG seenK Hinv; [done|].
  cbn [duplicated_after fmap list_fmap select negb].
  assert (Hinv' : forall k, k ∈ g x :: seenG -> h k ∈ h (g x) :: seenK).
  { intros k [->|Hk]%elem_of_cons; [left|right; auto]. }
  specialize (IH (g x :: seenG) (h (g x) :: seenK) Hinv'). cbn zeta in IH.
  destruct (decide (g x ∈ seenG)) as [Hx|Hx].
  - rewrite (bool_decide_eq_true_2 _ Hx), (bool_decide_eq_true_2 (h (g x) ∈ seenK))
      by auto.
    cbn [negb select]. rewrite <- IH. do 2 f_equal.
    apply duplicated_after_proper. intros k. rewrite elem_of_cons.
    split; [auto|]. intros [->|?]; auto.
  - rewrite (bool_decide_eq_false_2 _ Hx). cbn [negb select fmap list_fmap duplicated_after].
    destruct (bool_decide (h (g x) ∈ seenK)); cbn [negb select]; by rewrite IH.
Qed.

(** What the two deduplications leave of a column is what the second alone
    leaves of it. *)
Lemma select_dedup_column {R K B} `{EqDecision R, EqDecision K}
    (f : R -> K) (rs : list R) (col : list B) :
  length col = length rs ->
  let m1 := negb <$> duplicated rs in
  select (negb <$> duplicated (f <$> select m1 rs)) (select m1 col)
  = select (negb <$> duplicated (f <$> rs)) col.
Proof.
  intros Hlen m1.
  assert (Hfst : (zip rs col).*1 = rs) by (apply fst_zip; lia).
  assert (Hsnd : (zip rs col).*2 = col) by (apply snd_zip; lia).
  assert (Hc := first_by_key_after_first_by (A:=R * B) fst f [] [] (zip rs col)).
  cbn zeta in Hc. specialize (Hc ltac:(intros ? Hx; inversion Hx)).
  rewrite Hfst in Hc. fold (duplicated rs) in Hc. fold m1 in Hc.
  apply (f_equal (fmap snd)) in Hc. rewrite <- !select_fmap, Hsnd in Hc.
  assert (E : forall l : list (R * B), (fun x => f x.1) <$> l = f <$> l.*1).
  { intros l. by rewrite <- list_fmap_compose. }
  rewrite !E, Hfst in Hc.
  rewrite (select_fmap f m1 rs) in Hc. exact Hc.
Qed.

(** X12.  The first deduplication does not change what the second ends
    with: on a table with aligned columns and a 'Customer Id' column, the
    table after both deduplications is the table the identifier
    deduplication alone gives on the sheet. *)
Theorem exact_step_redundant (t : Table) o1 t1 o2 t2 :
  rect t ->
  exact_duplicates t = (o1, inr t1) ->
  key_duplicates t1 = (o2, inr t2) ->
  t2 = drop_duplicates (key_rows (py "Customer Id") t) t.
Proof.
  intros Hr H1 H2. set (name := py "Customer Id") in *.
  destruct (exact_duplicates_result t Hr) as [o1' H1'].
  rewrite H1' in H1. injection H1 as _ <-.
  assert (Hr1 : rect (drop_duplicates (rows t) t)) by by apply rect_drop_duplicates.
  assert (E2 := key_duplicates_inv _ _ _ Hr1 H2). fold name in E2.
  clear H2. subst t2.
  set (f := select (A:=value) ((fun c : column => bool_decide (c.1 = name)) <$> t)).
  assert (Hk : key_rows name t = f <$> rows t) by apply key_rows_rows.
  assert (Hk1 : key_rows name (drop_duplicates (rows t) t)
                = f <$> select (negb <$> duplicated (rows t)) (rows t)).
  { rewrite key_rows_rows, rows_drop_duplicates by (done || apply rows_length).
    unfold f, drop_duplicates. by rewrite pick_keep_rows. }
  rewrite Hk, Hk1. unfold drop_duplicates, keep_rows.
  rewrite <- list_fmap_compose. apply Forall_fmap_ext_1.
  eapply Forall_impl; [exact Hr|]. intros c Hc. cbn. f_equal.
  apply select_dedup_column. by rewrite rows_length.
Qed.

(** ** Labels that occur twice *)

Lemma series_ambiguous name (t : Table) :
  1 < length (labelled name t) -> series name t = None /\ name ∈ columns t.
Proof.
  intros Hlen. unfold series.
  destruct (labelled name t) as [|c [|c' l]] eqn:Hl; cbn in Hlen; try lia.
  split; [done|].
  assert (Hc : c ∈ labelled name t) by (rewrite Hl; left).
  apply list_elem_of_filter in Hc as [<- Hc]. by apply elem_of_columns.
Qed.

Lemma labelled_length name (t : Table) :
  length (labelled name t) = length (filter (fun l => l = name) (columns t)).
Proof.
  unfold labelled, columns. induction t as [|c t IH]; [done|].
  rewrite fmap_cons, !filter_cons. case_decide; cbn [length]; by rewrite IH.
Qed.

Section Ambiguous.
Variable unicode_lower : pystr -> pystr.
Variable str_of_scalar : list value -> value -> pystr.
Variable str_of_missing : option (list value -> pystr).
Variable parse_datetime : list value -> value -> option Z.

(** X13.  A label that is there twice: the email step raises [ValueError]
    when two columns are labelled 'email', the date step prints that it
    converts and raises [ValueError] when two are labelled
    'subscription_date', and a pass of a text loop raises [AttributeError]
    when two carry the label it looks up.  So a sheet with a 'Customer Id'
    column and two labels that the renaming both turns into 'email' makes
    the transformation raise [ValueError]. *)
Theorem ambiguous_label_raises :
  (forall df, 1 < length (labelled (py "email") df) ->
     fill_email df = ([], inl ValueError)) /\
  (forall df, 1 < length (labelled (py "subscription_date") df) ->
     convert_dates parse_datetime df
     = ([ Line "--- 5. Data Type Correction ---";
          Line "Converting 'subscription_date' to datetime." ], inl ValueError)) /\
  (forall f col df, 1 < length (labelled col df) ->
     update_text str_of_scalar str_of_missing f col df = ([], inl AttributeError)) /\
  (forall t,
     py "Customer Id" ∈ columns t ->
     1 < length (filter (fun l => l = py "email")
                   (normalize_name unicode_lower
                      <$> filter (fun l => l ≠ py "Index") (columns t))) ->
     exists out,
       transform unicode_lower str_of_scalar str_of_missing parse_datetime t
       = (out, inl ValueError)).
Proof.
  split_and!.
  - intros df [Hs Hin]%series_ambiguous. unfold fill_email.
    rewrite decide_True by done. by rewrite Hs.
  - intros df [Hs Hin]%series_ambiguous. unfold convert_dates.
    rewrite decide_True by done. by rewrite Hs.
  - intros f col df [Hs Hin]%series_ambiguous. unfold update_text.
    rewrite decide_True by done. by rewrite Hs.
  - intros t Hin Hlen.
    destruct (exact_duplicates_returns t) as (o1 & t1 & H1 & Hc1).
    destruct (key_duplicates_returns t1) as (o2 & t2 & H2 & Hc2); [by rewrite Hc1|].
    destruct (drop_index_returns t2) as (o3 & t3 & H3 & Hc3).
    set (L := normalize_name unicode_lower
                <$> filter (fun l => l ≠ py "Index") (columns t)) in *.
    pose (t4 := (fun c : column => (normalize_name unicode_lower c.1, c.2)) <$> t3).
    assert (Hc4 : columns t4 = L).
    { unfold t4, columns at 1. rewrite <- list_fmap_compose.
      unfold L. rewrite <- Hc1, <- Hc2, <- Hc3. unfold columns.
      by rewrite <- list_fmap_compose. }
    assert (Hcid : py "customer_id" ∈ L).
    { unfold L. apply list_elem_of_fmap. exists (py "Customer Id"). split; [done|].
      apply list_elem_of_filter. split; [by vm_compute|done]. }
    pose (t5 := keep_rows (notna_customer_id t4) t4).
    assert (H5 : exists o5, dropna_customer_id t4 = (o5, inr t5)).
    { unfold dropna_customer_id. rewrite decide_True by by rewrite Hc4.
      case_decide; run_simpl; by eexists. }
    destruct H5 as [o5 H5].
    assert (H6 : fill_email t5 = ([], inl ValueError)).
    { assert (Hl : 1 < length (labelled (py "email") t5)).
      { rewrite labelled_length. unfold t5. by rewrite columns_keep_rows, Hc4. }
      apply series_ambiguous in Hl as [Hs He]. unfold fill_email.
      rewrite decide_True by done. by rewrite Hs. }
    assert (Hne3 : columns t3 ≠ []).
    { intros Hnil. unfold columns in Hnil. apply fmap_nil_inv in Hnil.
      unfold t4 in Hc4. rewrite Hnil in Hc4. cbn in Hc4. rewrite <- Hc4 in Hcid.
      by apply elem_of_nil in Hcid. }
    eexists. unfold transform.
    unfold mbind, run_bind. rewrite H1, H2, H3.
    rewrite (rename_columns_present _ _ Hne3). fold t4. rewrite H5, H6. reflexivity.
Qed.

End Ambiguous.

(** ** Columns the script does not name, and the labels *)

Lemma elem_of_keep_rows mask (t : Table) l vs :
  (l, vs) ∈ t -> (l, select mask vs) ∈ keep_rows mask t.
Proof. intros Hc. unfold keep_rows. apply list_elem_of_fmap. by exists (l, vs). Qed.

Section Untouched.
Variable unicode_lower : pystr -> pystr.
Variable str_of_scalar : list value -> value -> pystr.
Variable str_of_missing : option (list value -> pystr).
Variable csv_of_scalar : list value -> value -> pystr.
Variable parse_datetime : list value -> value -> option Z.

Lemma for_each_update_elem_back f names (df : Table) out df' (c : column) :
  for_each names (update_text str_of_scalar str_of_missing f) df = (out, inr df') ->
  c ∈ df' -> c.1 ∉ names -> c ∈ df.
Proof.
  revert df out. induction names as [|name names IH]; intros df out Hrun Hc Hn.
  - cbn in Hrun. unfold mret, run_ret in Hrun. by simplify_eq.
  - apply for_each_inv in Hrun as (o1 & df1 & o2 & Hbody & Hrest).
    apply not_elem_of_cons in Hn as [Hne Hn].
    assert (Hc1 : c ∈ df1) by by eapply IH.
    destruct (update_text_result _ _ _ _ _ _ _ Hbody) as [->|(vs & _ & ->)]; [done|].
    by eapply elem_of_assign_ne.
Qed.

(** A column the script does not name, through the transformation. *)
Lemma untouched_column (t : Table) (out : list output) (df : Table) l vs :
  transform unicode_lower str_of_scalar str_of_missing parse_datetime t = (out, inr df) ->
  (l, vs) ∈ t ->
  l ≠ py "Index" ->
  normalize_name unicode_lower l
    ∉ py "email" :: py "subscription_date" :: text_columns ->
  exists vs', (normalize_name unicode_lower l, vs') ∈ df /\ vs' `sublist_of` vs.
Proof.
  intros Hrun Hc Hidx Hn. unfold transform in Hrun.
  apply bind_inv in Hrun as (? & t1 & ? & H1 & Hrun & _).
  apply bind_inv in Hrun as (? & t2 & ? & H2 & Hrun & _).
  apply bind_inv in Hrun as (? & t3 & ? & H3 & Hrun & _).
  apply bind_inv in Hrun as (? & t4 & ? & H4 & Hrun & _).
  apply bind_inv in Hrun as (? & t5 & ? & H5 & Hrun & _).
  apply bind_inv in Hrun as (? & t6 & ? & H6 & Hrun & _).
  apply bind_inv in Hrun as (? & t7 & ? & H7 & Hrun & _).
  apply bind_inv in Hrun as (? & t8 & ? & H8 & H9 & _).
  set (l' := normalize_name unicode_lower l) in *.
  apply not_elem_of_cons in Hn as [Hemail Hn].
  apply not_elem_of_cons in Hn as [Hdate Htext].
  assert (P1 : exists v1, (l, v1) ∈ t1 /\ v1 `sublist_of` vs).
  { unfold exact_duplicates in H1. run_inv H1.
    - eexists. split; [by apply elem_of_keep_rows|apply select_sublist].
    - by exists vs. }
  destruct P1 as (v1 & Hc1 & Hs1).
  assert (P2 : exists v2, (l, v2) ∈ t2 /\ v2 `sublist_of` vs).
  { unfold key_duplicates in H2. run_inv H2.
    - by exists v1.
    - eexists. split; [by apply elem_of_keep_rows|].
      etrans; [apply select_sublist|done].
    - by exists v1. }
  destruct P2 as (v2 & Hc2 & Hs2).
  assert (Hc4 : (l', v2) ∈ t4).
  { rewrite (rename_columns_result _ _ _ _ H4), (drop_index_result _ _ _ H3).
    apply list_elem_of_fmap. exists (l, v2). split; [done|].
    by apply list_elem_of_filter. }
  destruct (dropna_customer_id_mask _ _ _ H5) as [_ ->].
  set (v5 := select (notna_customer_id t4) v2).
  assert (Hc5 : (l', v5) ∈ keep_rows (notna_customer_id t4) t4)
    by by apply elem_of_keep_rows.
  assert (Hc6 : (l', v5) ∈ t6).
  { destruct (fill_email_result _ _ _ H6) as [->|(? & _ & ->)]; [done|].
    by apply elem_of_assign_other. }
  assert (Hc7 : (l', v5) ∈ t7).
  { destruct (convert_dates_result _ _ _ _ H7) as [->|(? & _ & ->)]; [done|].
    by apply elem_of_assign_other. }
  assert (Hc8 : (l', v5) ∈ t8).
  { apply standardize_text_loop in H8 as [o Hloop].
    eapply (for_each_keeps (fun d => (l', v5) ∈ d)); [|exact Hloop|done].
    intros col d o' d' Hcol Hd. eapply update_text_keeps_column; [exact Hd|].
    cbn. by intros ->. }
  exists v5. split.
  - apply clean_phones_loop in H9 as [o Hloop].
    eapply (for_each_keeps (fun d => (l', v5) ∈ d)); [|exact Hloop|done].
    intros col d o' d' Hcol Hd. eapply update_text_keeps_column; [exact Hd|].
    cbn. intros ->. by apply phone_cols_text in Hcol.
  - etrans; [apply select_sublist|done].
Qed.


(** X14.  Columns the script does not name: whenever the transformation
    returns, a column of the sheet whose label is not 'Index' and is not
    renamed to 'email', 'subscription_date' or one of the nine text labels
    is in the result under its renamed label, and its cells there are cells
    of the sheet, unchanged and in their order (rows are only removed). *)
Theorem other_columns_untouched (t : Table) (out : list output) (df : Table) l vs :
  transform unicode_lower str_of_scalar str_of_missing parse_datetime t = (out, inr df) ->
  (l, vs) ∈ t ->
  l ≠ py "Index" ->
  normalize_name unicode_lower l
    ∉ py "email" :: py "subscription_date" :: text_columns ->
  exists vs', (normalize_name unicode_lower l, vs') ∈ df /\ vs' `sublist_of` vs.
Proof. apply untouched_column. Qed.

(** X15.  Missing cells in the written file.  A column of the sheet that
    the script does not name reaches the result with cells of the sheet only,
    and each of its cells that is missing is written as the empty field.
    Through the two loops of step 6 a missing cell of a column the text loop
    does not name stays missing and is written as the empty field; a missing
    cell of a text column that is no phone column is written as the empty
    field where [astype(str)] keeps missing cells, and as the text
    [astype(str)] makes of it, in lower case and stripped, where it makes
    one. *)
Theorem missing_cells_written :
  (forall (t : Table) out (df : Table) l vs,
     rect t ->
     transform unicode_lower str_of_scalar str_of_missing parse_datetime t = (out, inr df) ->
     (l, vs) ∈ t ->
     l ≠ py "Index" ->
     normalize_name unicode_lower l
       ∉ py "email" :: py "subscription_date" :: text_columns ->
     exists k vs',
       df !! k = Some (normalize_name unicode_lower l, vs') /\
       vs' `sublist_of` vs /\
       forall i, vs' !! i = Some NaN ->
         exists record,
           to_csv csv_of_scalar df !! S i = Some record /\ record !! k = Some []) /\
  (forall (df : Table) out (df' : Table) k col vs i,
     rect df ->
     (df1 ← standardize_text unicode_lower str_of_scalar str_of_missing df;
      clean_phones str_of_scalar str_of_missing df1) = (out, inr df') ->
     col ∉ text_columns ->
     df !! k = Some (col, vs) -> series col df = Some vs -> vs !! i = Some NaN ->
     exists record,
       to_csv csv_of_scalar df' !! S i = Some record /\ record !! k = Some []) /\
  (forall (df : Table) out (df' : Table) k col vs i,
     rect df ->
     (df1 ← standardize_text unicode_lower str_of_scalar str_of_missing df;
      clean_phones str_of_scalar str_of_missing df1) = (out, inr df') ->
     col ∈ text_columns -> col ∉ phone_cols ->
     df !! k = Some (col, vs) -> series col df = Some vs -> vs !! i = Some NaN ->
     exists record,
       to_csv csv_of_scalar df' !! S i = Some record /\
       record !! k = Some (match str_of_missing with
                           | Some missing =>
                               Text.strip (Text.lower unicode_lower (missing vs))
                           | None => []
                           end)).
Proof.
  assert (Hloops : forall (df : Table) out (df' : Table),
    rect df ->
    (df1 ← standardize_text unicode_lower str_of_scalar str_of_missing df;
     clean_phones str_of_scalar str_of_missing df1) = (out, inr df') ->
    rect df' /\ columns df' = columns df /\
    forall col vs, series col df = Some vs ->
      series col df'
      = Some (if decide (col ∈ phone_cols)
              then (fun v => str_map Text.remove_non_digits
                      (astype_str str_of_scalar str_of_missing
                         ((fun v => str_map (fun s => Text.strip (Text.lower unicode_lower s))
                              (astype_str str_of_scalar str_of_missing vs v)) <$> vs) v))
                   <$> ((fun v => str_map (fun s => Text.strip (Text.lower unicode_lower s))
                           (astype_str str_of_scalar str_of_missing vs v)) <$> vs)
              else if decide (col ∈ text_columns)
              then (fun v => str_map (fun s => Text.strip (Text.lower unicode_lower s))
                      (astype_str str_of_scalar str_of_missing vs v)) <$> vs
              else vs)).
  { intros df out df' Hr Hrun.
    apply bind_inv in Hrun as (o1 & df1 & o2 & Hstd & Hph & _).
    pose (w := {| openpyxl := true; fs := ∅ |}).
    split_and!.
    - eapply (rect_step unicode_lower str_of_scalar str_of_missing parse_datetime w df1);
        [|exact Hph|]; [set_solver|].
      eapply (rect_step unicode_lower str_of_scalar str_of_missing parse_datetime w df);
        [|exact Hstd|done]. set_solver.
    - rewrite (clean_phones_columns _ _ _ _ _ Hph). by eapply standardize_text_columns.
    - intros col vs Hs.
      assert (Hs1 := standardize_text_series _ _ _ _ _ _ _ _ Hstd Hs).
      rewrite (clean_phones_series _ _ _ _ _ _ _ Hph Hs1).
      destruct (decide (col ∈ phone_cols)) as [Hp|Hp]; [|done].
      by rewrite decide_True by by apply phone_cols_text. }
  split_and!.
  - intros t out df l vs Hr Hrun Hc Hidx Hn.
    destruct (untouched_column t out df l vs Hrun Hc Hidx Hn) as (vs' & Hin & Hsub).
    apply list_elem_of_lookup in Hin as [k Hk].
    exists k, vs'. split_and!; [done..|]. intros i Hi.
    assert (Hrdf := rect_transform _ _ _ _ _ _ _ Hrun Hr).
    destruct (to_csv_field csv_of_scalar df k _ vs' i NaN Hrdf Hk Hi) as (record & ? & ?).
    by exists record.
  - intros df out df' k col vs i Hr Hrun Hcol Hk Hs Hi.
    destruct (Hloops _ _ _ Hr Hrun) as (Hr' & Hcols & Hseries).
    assert (Hs' := Hseries _ _ Hs).
    rewrite decide_False in Hs' by (intros Hp; by apply Hcol, phone_cols_text).
    rewrite decide_False in Hs' by done.
    destruct (to_csv_field_of_series csv_of_scalar df df' k col vs vs i NaN)
      as (record & ? & ?); [done..|].
    by exists record.
  - intros df out df' k col vs i Hr Hrun Hcol Hp Hk Hs Hi.
    destruct (Hloops _ _ _ Hr Hrun) as (Hr' & Hcols & Hseries).
    assert (Hs' := Hseries _ _ Hs).
    rewrite decide_False in Hs' by done. rewrite decide_True in Hs' by done.
    edestruct (to_csv_field_of_series csv_of_scalar df df' k col vs)
      as (record & Hrec & Hfield); [done..| |].
    { rewrite list_lookup_fmap, Hi. cbn [fmap option_fmap option_map]. reflexivity. }
    exists record. split; [done|]. etrans; [exact Hfield|]. f_equal.
    unfold astype_str. by destruct str_of_missing.
Qed.

(** X16.  Header normalization (step 3 B) on ASCII labels: the step
    changes no cell; every label of its result has no capital letter, no
    U+0020 and no white space at either end; and the step run again on the
    result returns the result. *)
Theorem header_normalization (t : Table) (out : list output) (t' : Table) :
  Forall (fun l => forallb Text.is_ascii l = true) (columns t) ->
  rename_columns unicode_lower t = (out, inr t') ->
  t'.*2 = t.*2 /\
  columns t' = normalize_name unicode_lower <$> columns t /\
  Forall tidy (columns t') /\
  rename_columns unicode_lower t' = (out, inr t').
Proof.
  intros Hascii Hrun.
  destruct (decide (columns t = [])) as [Hnil|Hne];
    [by rewrite rename_columns_empty in Hrun|].
  rewrite rename_columns_present in Hrun by done. injection Hrun as <- <-.
  assert (Hcols : columns ((fun c : column => (normalize_name unicode_lower c.1, c.2)) <$> t)
                  = normalize_name unicode_lower <$> columns t).
  { unfold columns. by rewrite <- !list_fmap_compose. }
  assert (Hne' : columns ((fun c : column => (normalize_name unicode_lower c.1, c.2)) <$> t)
                 ≠ []).
  { rewrite Hcols. by intros ?%fmap_nil_inv. }
  assert (Htidy : Forall tidy (normalize_name unicode_lower <$> columns t)).
  { rewrite Forall_fmap. eapply Forall_impl; [exact Hascii|].
    intros l Hl. by apply normalize_tidy. }
  split_and!.
  - by rewrite <- list_fmap_compose.
  - done.
  - by rewrite Hcols.
  - rewrite rename_columns_present by done.
    do 2 f_equal. rewrite <- list_fmap_compose.
    apply Forall_fmap_ext_1, Forall_forall. intros [l vs] Hl. cbn.
    f_equal. apply tidy_normalize.
    rewrite Forall_forall in Hascii. apply normalize_tidy, Hascii.
    by apply (elem_of_columns t (l, vs)).
Qed.

End Untouched.

(** ** The further properties at the sample data *)

Lemma output_header_witness :
  plain_transform Sample.customers = (Sample.progress, inr Sample.cleaned) /\
  columns Sample.cleaned
  = [ py "customer_id"; py "first_name"; py "phone_1"; py "email";
      py "subscription_date" ] /\
  head (to_csv Plain.scalar Sample.cleaned) = Some (columns Sample.cleaned).
Proof.
  assert (Ht : plain_transform Sample.customers = (Sample.progress, inr Sample.cleaned))
    by (vm_compute; reflexivity).
  split; [exact Ht|].
  destruct (output_header Plain.lower Plain.scalar Pandas2.missing Plain.scalar Plain.parse
              Sample.customers Sample.progress Sample.cleaned Ht) as [H1 H2].
  split; [|exact H2]. rewrite H1. vm_compute. reflexivity.
Defined.

Lemma missing_identifier_column_witness :
  (py "Customer Id" ∉ columns Sample.nameless) /\
  0 < nrows Sample.nameless /\
  (exists out, plain_transform Sample.nameless = (out, inl KeyError)) /\
  final (plain_main (Sample.world_of Sample.nameless)) = Sample.world_of Sample.nameless.
Proof.
  assert (Hn : py "Customer Id" ∉ columns Sample.nameless).
  { apply (bool_decide_unpack (py "Customer Id" ∉ columns Sample.nameless)).
    vm_compute. exact I. }
  assert (Hrow : 0 < nrows Sample.nameless) by (vm_compute; lia).
  destruct (missing_identifier_column Plain.lower Plain.scalar Pandas2.missing
              Plain.scalar Plain.parse Sample.nameless Hn Hrow) as [H1 H2].
  split; [exact Hn|]. split; [exact Hrow|]. split; [exact H1|].
  destruct (H2 (Sample.world_of Sample.nameless)) as [H _];
    [vm_compute; reflexivity|reflexivity|exact H].
Defined.

Lemma transform_returns_witness :
  py "Customer Id" ∈ columns Sample.customers /\
  NoDup (normalize_name Plain.lower
           <$> filter (fun l => l ≠ py "Index") (columns Sample.customers)) /\
  exists out df, plain_transform Sample.customers = (out, inr df).
Proof.
  assert (Hin : py "Customer Id" ∈ columns Sample.customers).
  { apply (bool_decide_unpack (py "Customer Id" ∈ columns Sample.customers)).
    vm_compute. exact I. }
  assert (Hnd : NoDup (normalize_name Plain.lower
                         <$> filter (fun l => l ≠ py "Index") (columns Sample.customers))).
  { apply (bool_decide_unpack (NoDup (normalize_name Plain.lower
             <$> filter (fun l => l ≠ py "Index") (columns Sample.customers)))).
    vm_compute. exact I. }
  split; [exact Hin|]. split; [exact Hnd|].
  destruct (transform_returns Plain.lower Plain.scalar Pandas2.missing Plain.scalar Plain.parse
              Sample.customers Hin Hnd) as [H _].
  exact H.
Defined.



Lemma cleaned_identifiers_witness :
  rect Sample.customers /\
  plain_transform Sample.customers = (Sample.progress, inr Sample.cleaned) /\
  series (py "customer_id") Sample.cleaned
  = Some (filter (fun v => negb (isna v) = true)
            (select (negb <$> duplicated [Str (py "1"); Str (py "1"); Str (py "1"); NaN])
               [Str (py "1"); Str (py "1"); Str (py "1"); NaN])).
Proof.
  assert (Ht : plain_transform Sample.customers = (Sample.progress, inr Sample.cleaned))
    by (vm_compute; reflexivity).
  assert (Hs : series (py "Customer Id") Sample.customers
               = Some [Str (py "1"); Str (py "1"); Str (py "1"); NaN])
    by (vm_compute; reflexivity).
  assert (Hnd : NoDup (normalize_name Plain.lower
                         <$> filter (fun l => l ≠ py "Index") (columns Sample.customers))).
  { apply (bool_decide_unpack (NoDup (normalize_name Plain.lower
             <$> filter (fun l => l ≠ py "Index") (columns Sample.customers)))).
    vm_compute. exact I. }
  split; [exact rect_customers|]. split; [exact Ht|].
  exact (cleaned_identifiers Plain.lower Plain.scalar Pandas2.missing Plain.parse
           Sample.customers _ Sample.progress Sample.cleaned
           rect_customers Hs Hnd Ht).
Defined.

Lemma text_normalization_witness :
  exists out df',
    standardize_text Plain.lower Plain.scalar Pandas2.missing Sample.unfilled = (out, inr df') /\
    columns df' = columns Sample.unfilled.
Proof.
  destruct (standardize_text Plain.lower Plain.scalar Pandas2.missing Sample.unfilled)
    as [out [e|df']] eqn:Hrun; [by vm_compute in Hrun|].
  destruct (text_normalization Plain.lower Plain.scalar Pandas2.missing
              Sample.unfilled out df' Hrun)
    as (_ & H & _).
  by exists out, df'.
Defined.

Lemma clean_phones_idempotent_witness :
  exists out df',
    clean_phones Plain.scalar Pandas2.missing Sample.phones = (out, inr df') /\
    clean_phones Plain.scalar Pandas2.missing df' = (out, inr df').
Proof.
  destruct (clean_phones Plain.scalar Pandas2.missing Sample.phones) as [out [e|df']] eqn:Hrun;
    [by vm_compute in Hrun|].
  exists out, df'. split; [reflexivity|].
  exact (clean_phones_idempotent Plain.scalar Pandas2.missing Sample.phones out df' Hrun).
Defined.

Lemma missing_phone_written_empty_witness :
  exists out df' record,
    (df1 ← standardize_text Plain.lower Plain.scalar Pandas2.missing Sample.no_phone;
     clean_phones Plain.scalar Pandas2.missing df1) = (out, inr df') /\
    to_csv Plain.scalar df' !! 1 = Some record /\ record !! 1 = Some [].
Proof.
  destruct (df1 ← standardize_text Plain.lower Plain.scalar Pandas2.missing Sample.no_phone;
            clean_phones Plain.scalar Pandas2.missing df1) as [out [e|df']] eqn:Hrun;
    [by vm_compute in Hrun|].
  destruct (missing_phone_written_empty Plain.lower Plain.scalar Pandas2.missing
              Plain.scalar Sample.no_phone out df' 1 (py "phone_1") [NaN] 0)
    as (record & H1 & H2).
  - repeat constructor.
  - intros missing [= <-] c. by left.
  - exact Hrun.
  - vm_compute. left.
  - reflexivity.
  - vm_compute. reflexivity.
  - reflexivity.
  - by exists out, df', record.
Defined.

Lemma convert_dates_idempotent_witness :
  exists out df' out',
    convert_dates Sample.parse Sample.dated = (out, inr df') /\
    convert_dates Sample.parse df' = (out', inr df').
Proof.
  destruct (convert_dates Sample.parse Sample.dated) as [out [e|df']] eqn:Hrun;
    [by vm_compute in Hrun|].
  destruct (convert_dates_idempotent Sample.parse Sample.dated out df' Hrun)
    as [_ [out' H]].
  by exists out, df', out'.
Defined.

Lemma row_removal_idempotent_witness :
  rect Sample.customers /\
  exists out t',
    exact_duplicates Sample.customers = (out, inr t') /\
    exact_duplicates t'
    = ([ Line "--- 2. Deduplication ---"; Line "No fully duplicate rows found." ],
       inr t').
Proof.
  split; [exact rect_customers|].
  destruct (exact_duplicates Sample.customers) as [out [e|t']] eqn:Hrun;
    [by vm_compute in Hrun|].
  destruct (row_removal_idempotent Sample.customers rect_customers) as [H _].
  exists out, t'. split; [reflexivity|]. exact (H out t' Hrun).
Defined.

Lemma exact_step_redundant_witness :
  rect Sample.customers /\
  exists o1 t1 o2 t2,
    exact_duplicates Sample.customers = (o1, inr t1) /\
    key_duplicates t1 = (o2, inr t2) /\
    t2 = drop_duplicates (key_rows (py "Customer Id") Sample.customers) Sample.customers.
Proof.
  split; [exact rect_customers|].
  destruct (exact_duplicates Sample.customers) as [o1 [e|t1]] eqn:H1;
    [by vm_compute in H1|].
  destruct (key_duplicates t1) as [o2 [e|t2]] eqn:H2.
  { vm_compute in H1. injection H1 as <- <-. by vm_compute in H2. }
  exists o1, t1, o2, t2. split; [reflexivity|]. split; [exact H2|].
  exact (exact_step_redundant Sample.customers o1 t1 o2 t2 rect_customers H1 H2).
Defined.

Lemma ambiguous_label_raises_witness :
  exists out, plain_transform Sample.two_emails = (out, inl ValueError).
Proof.
  destruct (ambiguous_label_raises Plain.lower Plain.scalar Pandas2.missing Plain.parse)
    as (_ & _ & _ & H).
  apply (H Sample.two_emails).
  - apply (bool_decide_unpack (py "Customer Id" ∈ columns Sample.two_emails)).
    vm_compute. exact I.
  - vm_compute. lia.
Defined.

Lemma other_columns_untouched_witness :
  plain_transform Sample.customers = (Sample.progress, inr Sample.cleaned) /\
  exists vs',
    (py "customer_id", vs') ∈ Sample.cleaned /\
    vs' `sublist_of` [Str (py "1"); Str (py "1"); Str (py "1"); NaN].
Proof.
  assert (Ht : plain_transform Sample.customers = (Sample.progress, inr Sample.cleaned))
    by (vm_compute; reflexivity).
  split; [exact Ht|].
  destruct (other_columns_untouched Plain.lower Plain.scalar Pandas2.missing Plain.parse
              Sample.customers Sample.progress Sample.cleaned
              (py "Customer Id") [Str (py "1"); Str (py "1"); Str (py "1"); NaN] Ht)
    as (vs' & H1 & H2).
  - vm_compute. right. left.
  - by vm_compute.
  - apply (bool_decide_unpack
             (normalize_name Plain.lower (py "Customer Id")
                ∉ py "email" :: py "subscription_date" :: text_columns)).
    vm_compute. exact I.
  - exists vs'. split; [|exact H2].
    replace (py "customer_id") with (normalize_name Plain.lower (py "Customer Id"))
      by (vm_compute; reflexivity).
    exact H1.
Defined.

Lemma missing_cells_written_witness :
  exists out df' record,
    (df1 ← standardize_text Plain.lower Plain.scalar Pandas3.missing Sample.unfilled;
     clean_phones Plain.scalar Pandas3.missing df1) = (out, inr df') /\
    to_csv Plain.scalar df' !! 1 = Some record /\
    record !! 0 = Some (py "a") /\ record !! 1 = Some [].
Proof.
  destruct (df1 ← standardize_text Plain.lower Plain.scalar Pandas3.missing Sample.unfilled;
            clean_phones Plain.scalar Pandas3.missing df1) as [out [e|df']] eqn:Hrun;
    [by vm_compute in Hrun|].
  destruct (missing_cells_written Plain.lower Plain.scalar Pandas3.missing
              Plain.scalar Plain.parse) as (_ & _ & H).
  destruct (H Sample.unfilled out df' 1 (py "first_name") [NaN] 0) as (record & H1 & H2).
  - repeat constructor.
  - exact Hrun.
  - vm_compute. left.
  - vm_compute. intros Hin. repeat (apply elem_of_cons in Hin as [Hin|Hin]; [done|]).
    by apply elem_of_nil in Hin.
  - reflexivity.
  - vm_compute. reflexivity.
  - reflexivity.
  - exists out, df', record. split; [reflexivity|]. split; [exact H1|].
    split; [|exact H2]. vm_compute in Hrun. injection Hrun as _ <-.
    vm_compute in H1. by injection H1 as <-.
Defined.

Lemma header_normalization_witness :
  Forall (fun l => forallb Text.is_ascii l = true) (columns Sample.customers) /\
  exists out t',
    rename_columns Plain.lower Sample.customers = (out, inr t') /\
    Forall tidy (columns t') /\
    rename_columns Plain.lower t' = (out, inr t').
Proof.
  assert (Ha : Forall (fun l => forallb Text.is_ascii l = true) (columns Sample.customers))
    by repeat constructor.
  split; [exact Ha|].
  destruct (rename_columns Plain.lower Sample.customers) as [out [e|t']] eqn:Hrun;
    [by vm_compute in Hrun|].
  destruct (header_normalization Plain.lower Sample.customers out t' Ha Hrun)
    as (_ & _ & H1 & H2).
  by exists out, t'.
Defined.
